(** * A shallow embedding of the 5G core emulator's request handlers

    Each network function of [5G_Emulator_API] is a FastAPI module that keeps
    its state in module-level dictionaries and answers HTTP requests.  A
    handler is embedded as a function from the request and the state of the
    network function to a Python outcome (a returned body or a raised
    exception) and the next state.  What a handler cannot compute on its own
    (the wall clock, [uuid.uuid4()], the reply of a peer network function) is
    an explicit argument.

    Python dictionaries whose iteration order is observable are association
    lists in insertion order; dictionaries that are only indexed are [gmap]s;
    Python sets are [gset]s. *)

From Stdlib Require Import ZArith Sorted.
From stdpp Require Import gmap strings list pretty.

Set Warnings "-register-all".
#[local] Open Scope Z_scope.

(** ** Python values and outcomes *)

Module Py.

(** What [json.loads] produces, floats left out.  An object keeps the
    order of its keys, which are pairwise distinct. *)
Inductive json :=
| JNull
| JBool (b : bool)
| JInt (n : Z)
| JStr (s : string)
| JList (l : list json)
| JObj (o : list (string * json)).

(** [d[key] = value] on an insertion-ordered dictionary: an existing key
    keeps its position. *)
Fixpoint dict_set {V} (key : string) (value : V) (d : list (string * V))
  : list (string * V) :=
  match d with
  | [] => [(key, value)]
  | (k, v) :: d' =>
      if decide (k = key) then (k, value) :: d' else (k, v) :: dict_set key value d'
  end.

(** [d.get(key)] *)
Fixpoint dict_get {V} (key : string) (d : list (string * V)) : option V :=
  match d with
  | [] => None
  | (k, v) :: d' => if decide (k = key) then Some v else dict_get key d'
  end.

(** [del d[key]] for a key that is present. *)
Definition dict_del {V} (key : string) (d : list (string * V)) : list (string * V) :=
  filter (λ kv, kv.1 ≠ key) d.

Definition dict_keys {V} (d : list (string * V)) : list string := d.*1.

(** [d.update(extra)], and [{**d, k1: v1, ...}] on a copy. *)
Definition dict_update {V} (d extra : list (string * V)) : list (string * V) :=
foldl (λ acc kv, dict_set kv.1 kv.2 acc) d extra.

(** [bool(v)] *)
Definition truthy (v : json) : bool :=
  match v with
  | JNull => false
  | JBool b => b
  | JInt n => negb (n =? 0)
  | JStr s => negb (String.eqb s "")
  | JList l => negb (Nat.eqb (length l) 0)
  | JObj o => negb (Nat.eqb (length o) 0)
  end.

(** [not d.get(field)] with a missing key read as [None]. *)
Definition get_truthy (field : string) (d : list (string * json)) : bool :=
  match dict_get field d with
  | Some v => truthy v
  | None => false
  end.

(** [needle in hay] on two [str]. *)
Fixpoint str_in (needle hay : string) : bool :=
  String.prefix needle hay
  || match hay with
     | EmptyString => false
     | String _ rest => str_in needle rest
     end.

(** [s.split(sep)[-1]] for a one-character separator. *)
Fixpoint split_last_go (sep : Ascii.ascii) (acc s : string) : string :=
  match s with
  | EmptyString => acc
  | String c rest =>
      if decide (c = sep) then split_last_go sep "" rest
      else split_last_go sep (acc +:+ String c "") rest
  end.
Definition split_last (sep : Ascii.ascii) (s : string) : string := split_last_go sep "" s.

(** [f"{v}"]; [py_repr] is [str] of a list or a dictionary. *)
Definition py_str (py_repr : json → string) (v : json) : string :=
match v with
| JStr s => s
| JInt n => pretty n
| JBool true => "True"
| JBool false => "False"
| JNull => "None"
| _ => py_repr v
end.

(** [s == v] for a [str] and any JSON value: only an equal [str] is equal. *)
Definition str_eq_json (s : string) (v : json) : bool :=
match v with
| JStr s' => bool_decide (s = s')
| _ => false
end.

(** The character ["-"]. *)
Definition hyphen : Ascii.ascii := Ascii.ascii_of_nat 45.

(** The exceptions the handlers meet.  [HTTPException] is FastAPI's and
    derives from [Exception] like the others. *)
Inductive exn :=
| HTTPException (status_code : Z)
| ValueError
| TypeError
| KeyError
| AttributeError
| RequestException.

Inductive outcome (A : Type) :=
| Return (a : A)
| Raise (e : exn).
Arguments Return {A} a.
Arguments Raise {A} e.

#[global] Instance outcome_ret : MRet outcome := @Return.
#[global] Instance outcome_bind : MBind outcome := λ A B k m,
  match m with
  | Return a => k a
  | Raise e => Raise e
  end.

(** [for x in v]: a list gives its items, a dictionary its keys, a [str] its
    characters; nothing else can be iterated. *)
Fixpoint chars (s : string) : list string :=
match s with
| EmptyString => []
| String c rest => String c EmptyString :: chars rest
end.
Definition iterate (v : json) : outcome (list json) :=
match v with
| JList l => Return l
| JObj o => Return (JStr <$> dict_keys o)
| JStr s => Return (JStr <$> chars s)
| _ => Raise TypeError
end.

(** [d[key]] on what may be any JSON value. *)
Definition subscript (d : json) (key : string) : outcome json :=
match d with
| JObj o => from_option Return (Raise KeyError) (dict_get key o)
| _ => Raise TypeError
end.

#[global] Instance outcome_fmap : FMap outcome := λ A B f m,
  match m with
  | Return a => Return (f a)
  | Raise e => Raise e
  end.

(** A loop whose body may raise: the changes made before the exception stay. *)
Fixpoint for_each {S A} (body : A → S → option exn * S) (l : list A) (s : S)
  : option exn * S :=
match l with
| [] => (None, s)
| a :: rest =>
    match body a s with
    | (None, s') => for_each body rest s'
    | failed => failed
    end
end.

(** A step that either changes the state or raises and leaves it. *)
Definition attempt {S} (m : outcome S) (s : S) : option exn * S :=
match m with
| Return s' => (None, s')
| Raise e => (Some e, s)
end.

(** [try: body  except Exception as e: raise HTTPException(500, ...)] *)
Definition except_Exception_500 {A} (body : outcome A) : outcome A :=
  match body with
  | Return a => Return a
  | Raise _ => Raise (HTTPException 500)
  end.

(** [try: body  except HTTPException: raise
    except Exception as e: raise HTTPException(500, ...)] *)
Definition except_HTTPException_reraise {A} (body : outcome A) : outcome A :=
  match body with
  | Return a => Return a
  | Raise (HTTPException c) => Raise (HTTPException c)
  | Raise _ => Raise (HTTPException 500)
  end.

(** The status code FastAPI answers with: 200 for a returned body, the
    code of a raised [HTTPException], 500 for any other exception. *)
Definition http_status {A} (r : outcome A) : Z :=
  match r with
  | Return _ => 200
  | Raise (HTTPException c) => c
  | Raise _ => 500
  end.

(** What a client of the handler receives: the status and the JSON body;
    the text of an error's [detail] is left out. *)
Definition http_response (r : outcome json) : Z * json :=
  (http_status r,
   match r with
   | Return body => body
   | Raise _ => JObj [("detail", JStr "")]
   end).

(** [int(v)] for the values on which [%] and [+] act as on integers. *)
Definition as_int (v : json) : option Z :=
  match v with
  | JInt n => Some n
  | JBool b => Some (if b then 1 else 0)
  | _ => None
  end.

(** The error kinds of the HTTP surface. *)
Definition invalid_argument : Z := 400.
Definition not_found : Z := 404.
Definition internal : Z := 500.
Definition resource_exhausted : Z := 503.

End Py.
Import Py.


(** ** SMF: [core_network/smf.py] *)

Module Smf.
Section Handlers.

(** [str(v)] for a list or a dictionary, which the handlers only pass
    through into identifiers. *)
Variable py_repr : json → string.

(** [f"{v}"] *)
Definition py_str (v : json) : string :=
  match v with
  | JStr s => s
  | JInt n => pretty n
  | JBool true => "True"
  | JBool false => "False"
  | JNull => "None"
  | _ => py_repr v
  end.

(** [d.get(key)] with [None] for a missing key. *)
Definition get_or_null (key : string) (d : list (string * json)) : json :=
  default JNull (dict_get key d).

(** The UPF as the SMF sees it: the discovered address, and the reply to
    the POST on [/n4/sessions]; [None] stands for a
    [requests.RequestException] (no connection, or [raise_for_status] on
    an error status, or a body that is not JSON). *)
Record upf_peer := {
  upf_url : option string;
  upf_post : json → option json
}.

Definition pfcp_request (pdu_session : list (string * json)) : outcome json :=
  sid ← from_option Return (Raise KeyError) (dict_get "pduSessionId" pdu_session);
  mret (JObj [
    ("messageType", JStr "PFCP_SESSION_ESTABLISHMENT_REQUEST");
    ("seid", JStr ("smf-seid-" +:+ py_str sid));
    ("createPDR", JList [JObj [
       ("pdrId", JInt 1);
       ("precedence", JInt 200);
       ("pdi", JObj [
          ("sourceInterface", JStr "ACCESS");
          ("ueIpAddress", JStr "10.0.0.1");
          ("networkInstance", default (JStr "internet") (dict_get "dnn" pdu_session))]);
       ("farId", JInt 1)]]);
    ("createFAR", JList [JObj [
       ("farId", JInt 1);
       ("applyAction", JStr "FORWARD");
       ("forwardingParameters", JObj [
          ("destinationInterface", JStr "CORE");
          ("outerHeaderCreation", JObj [
             ("description", JStr "GTP-U/UDP/IPv4");
             ("teid", JStr "1001")])])]]);
    ("createQER", JList [JObj [
       ("qerId", JInt 1);
       ("qfi", JInt 9);
       ("uplinkMBR", JInt 100000000);
       ("downlinkMBR", JInt 100000000)]])]).

(** [_send_pfcp_establishment_request] *)
Definition _send_pfcp_establishment_request
    (upf : upf_peer) (pdu_session : list (string * json))
  : outcome (list (string * json)) :=
  match upf_url upf with
  | None => Raise (HTTPException 502)
  | Some _ =>
      req ← pfcp_request pdu_session;
      match upf_post upf req with
      | None => Raise (HTTPException 502)
      | Some (JObj n4_response) => Return n4_response
      | Some _ => Raise AttributeError   (* [n4_response.get] on a non-dict *)
      end
  end.

Definition required_fields : list string :=
  ["supi"; "pduSessionId"; "dnn"; "sNssai"; "anType"].

(** [[field for field in required_fields if not pdu_session_data.get(field)]] *)
Definition missing_fields (pdu_session_data : list (string * json)) : list string :=
  filter (λ field, ¬ get_truthy field pdu_session_data) required_fields.

(** [(pdu_session_id % 254) + 1] : defined on [int] and [bool]; a [str],
    a list or a dictionary raises in [%] or in [+ 1]. *)
Definition ue_ip_octet (pdu_session_id : json) : outcome Z :=
  match as_int pdu_session_id with
  | Some n => Return (n `mod` 254 + 1)
  | None => Raise TypeError
  end.

Definition create_sm_context_body
    (upf : upf_peer) (pdu_session_data : list (string * json))
    (session_contexts : gmap string json)
  : outcome (json * gmap string json) :=
  let supi := get_or_null "supi" pdu_session_data in
  let pdu_session_id := get_or_null "pduSessionId" pdu_session_data in
  octet ← ue_ip_octet pdu_session_id;
  let ue_ip := "10." +:+ pretty octet +:+ ".0.1" in
  let session_context :=
    dict_update pdu_session_data
      [("ueIpAddress", JStr ue_ip); ("sessionState", JStr "ESTABLISHING")] in
  n4_response ← _send_pfcp_establishment_request upf session_context;
  let session_key := py_str supi +:+ ":" +:+ py_str pdu_session_id in
  let stored :=
    dict_update session_context
      [("sessionState", JStr "ACTIVE");
       ("pfcpSeid", default (JStr "upf-seid-unknown") (dict_get "upfSeid" n4_response));
       ("n3TunnelInfo", get_or_null "n3_endpoint" n4_response)] in
  let amf_response :=
    JObj [
      ("status", JStr "CREATED");
      ("cause", JStr "PDU_SESSION_ESTABLISHMENT_ACCEPTED");
      ("pduSessionId", pdu_session_id);
      ("ueIpAddress", JStr ue_ip);
      ("n2SmInfo", JObj [
         ("pduSessionId", pdu_session_id);
         ("qosFlowSetupRequestList", JList [JObj [
            ("qfi", JInt 9);
            ("qosCharacteristics", JObj [("5qi", JInt 9); ("priority", JInt 80)])]]);
         ("n2InfoContent",
          JStr "base64-encoded-ngap-pdu-session-resource-setup-request")]);
      ("smContext", JObj [
         ("contextId", JStr session_key);
         ("ueIpAddress", JStr ue_ip)])] in
  mret (amf_response, <[session_key := JObj stored]> session_contexts).

(** [POST /nsmf-pdusession/v1/sm-contexts].  The mandatory-field check
    sits before the [try]; the body is wrapped in
    [except HTTPException: raise / except Exception: 500]. *)
Definition create_sm_context
    (upf : upf_peer) (request : json) (session_contexts : gmap string json)
  : outcome json * gmap string json :=
  match request with
  | JObj pdu_session_data =>
      match missing_fields pdu_session_data with
      | _ :: _ => (Raise (HTTPException 400), session_contexts)
      | [] =>
          match except_HTTPException_reraise
                  (create_sm_context_body upf pdu_session_data session_contexts) with
          | Return (resp, st') => (Return resp, st')
          | Raise e => (Raise e, session_contexts)
          end
      end
  | _ => (Raise AttributeError, session_contexts)
  end.

End Handlers.

(** The SMF as a peer sees it on [POST /nsmf-pdusession/v1/sm-contexts]. *)
Definition serve (py_repr : json → string) (upf : upf_peer)
    (session_contexts : gmap string json) (request : json) : Z * json :=
  http_response (create_sm_context py_repr upf request session_contexts).1.

(** Reading a path of keys and list indices out of a response. *)
Inductive selector := Key (k : string) | Index (i : nat).

Fixpoint json_at (path : list selector) (v : json) : option json :=
  match path with
  | [] => Some v
  | Key k :: rest =>
      match v with
      | JObj o => dict_get k o ≫= json_at rest
      | _ => None
      end
  | Index i :: rest =>
      match v with
      | JList l => l !! i ≫= json_at rest
      | _ => None
      end
  end.

End Smf.

(** ** AMF: [core_network/amf_nas.py] *)

Module Amf.

Record Snssai := { sst : Z; sd : option string }.

Record RegistrationRequest := {
  ngksi : Z;
  registration_type : Z;
  suci : string;
  ue_security_capability : json;
  requested_nssai : option (list Snssai)
}.

Record RegistrationAccept := {
  registration_result : Z;
  mobile_identity : string;
  tai_list : json;
  allowed_nssai : option (list Snssai);
  rejected_nssai : option (list Snssai)
}.

Record AuthenticationRequest := {
  ar_ngksi : Z;
  abba : string;
  authentication_parameter_rand : string;
  authentication_parameter_autn : string
}.

Record SecurityModeCommand := {
  selected_nas_security_algorithms : json;
  smc_ngksi : Z;
  replayed_ue_security_capabilities : json;
  imeisv_request : Z
}.

Record PduSessionEstablishmentRequest := {
  pdu_session_id : Z;
  pti : Z;
  pdu_session_type : Z;
  ssc_mode : Z
}.

(** One entry of [ue_contexts]. *)
Record ue_context := {
  uc_supi : string;
  uc_suci : string;
  uc_registration_type : Z;
  uc_ue_security_capability : json;
  uc_requested_nssai : option (list Snssai);
  registration_state : string;
  guti : option string;
  uc_allowed_nssai : option (list Snssai);
  security_mode_complete : bool;
  imeisv : json;
  registration_time : Z
}.

(** One entry of [pdu_sessions]. *)
Record pdu_session := {
  ps_pdu_session_id : Z;
  ps_pti : Z;
  ps_pdu_session_type : Z;
  ps_ssc_mode : Z;
  ps_state : string;
  smf_context : option json;
  created_time : Z
}.

Record security_context := {
  sc_kseaf : option string;
  selected_algorithms : json;
  sc_ngksi : Z
}.

Record state := {
  ue_contexts : gmap string ue_context;
  pdu_sessions : gmap string pdu_session;
  nas_security_contexts : gmap string security_context
}.

Definition boot : state :=
  {| ue_contexts := ∅; pdu_sessions := ∅; nas_security_contexts := ∅ |}.

(** What the AUSF answers on [POST /nausf-auth/v1/ue-authentications]
    (its response model), with the links the AMF reads by [.get]. *)
Record AuthenticationVector := {
  av_rand : string; av_autn : string; av_hxresstar : string; av_kausf : string
}.
Record AuthenticationInfoResult := {
  authType : string;
  authenticationVector : AuthenticationVector;
  air_supi : option string;
  _links : option json
}.

(** What the AUSF answers on the 5G-AKA confirmation. *)
Record ConfirmationDataResponse := {
  authResult : string;
  cdr_supi : option string;
  cdr_kseaf : option string
}.

(** The peers as one request sees them.  [initiate_authentication] is [None]
    when the AUSF is not reachable or does not answer 200;
    [register_with_udm] is the boolean the helper returns. *)
Record peers := {
  initiate_authentication : string → option AuthenticationInfoResult;
  register_with_udm : string → bool;
  ausf_confirm : json → json → option (Z * ConfirmationDataResponse);
  smf_url : option string;
  smf_post : json → option (Z * json)
}.

Section Handlers.

(** Python's [hash] on [str], salted per process. *)
Variable py_hash : string → Z.

Definition hex_digit (d : Z) : string :=
  default "?" (["0";"1";"2";"3";"4";"5";"6";"7";"8";"9";"A";"B";"C";"D";"E";"F"]
                 !! Z.to_nat d).

(** [hex(n)[2:].upper().zfill(8)] for [0 <= n < 2^32]. *)
Definition hex8 (n : Z) : string :=
  foldr (λ i acc, hex_digit (Z.land (Z.shiftr n (4 * i)) 15) +:+ acc) ""
        [7; 6; 5; 4; 3; 2; 1; 0].

Fixpoint drop_str (n : nat) (s : string) : string :=
  match n, s with
  | O, _ => s
  | S n', String _ rest => drop_str n' rest
  | S _, EmptyString => EmptyString
  end.

Definition generate_5g_guti (supi : string) : string :=
  let imsi := if String.prefix "imsi-" supi then drop_str 5 supi
              else "001010000000001" in
  let guti_type := "4" in
  let guami_hex := "001010001001" in
  let tmsi := hex8 (Z.land (py_hash imsi) 4294967295) in
  guti_type +:+ guami_hex +:+ tmsi.

(** The [sst] values of [plmn_support_list]. *)
Definition supported_sst : list Z := [1; 2].

(** [x if x else None] on a list. *)
Definition nonempty_or_none {A} (l : list A) : option (list A) :=
  match l with [] => None | _ => Some l end.

Definition the_tai_list : json :=
  JList [JObj [("typeOfList", JStr "00"); ("numberOfElements", JInt 1);
               ("plmnId", JObj [("mcc", JStr "001"); ("mnc", JStr "01")]);
               ("tac", JStr "000001")]].

Definition create_registration_accept
    (supi : string) (requested : option (list Snssai)) : RegistrationAccept :=
  let guti := generate_5g_guti supi in
  let '(allowed, rejected) :=
    match requested with
    | Some ((_ :: _) as l) =>
        (filter (λ s, sst s ∈ supported_sst) l,
         filter (λ s, sst s ∉ supported_sst) l)
    | _ => ([{| sst := 1; sd := Some "010203" |}], [])
    end in
  {| registration_result := 1;
     mobile_identity := guti;
     tai_list := the_tai_list;
     allowed_nssai := nonempty_or_none allowed;
     rejected_nssai := nonempty_or_none rejected |}.

Definition create_authentication_request
    (supi : string) (auth_vectors : AuthenticationVector) : AuthenticationRequest :=
  {| ar_ngksi := 1;
     abba := "0000";
     authentication_parameter_rand := av_rand auth_vectors;
     authentication_parameter_autn := av_autn auth_vectors |}.

Definition create_security_mode_command
    (supi : string) (ue_security_capabilities : json) : SecurityModeCommand :=
  {| selected_nas_security_algorithms :=
       JObj [("typeOfCipheringAlgorithm", JInt 1);
             ("typeOfIntegrityProtectionAlgorithm", JInt 1)];
     smc_ngksi := 1;
     replayed_ue_security_capabilities := ue_security_capabilities;
     imeisv_request := 1 |}.

(** SUPI from SUCI: [supi = "imsi-" + supi.split("-")[-1]] *)
Definition supi_of_suci (suci : string) : string :=
  if String.prefix "suci-" suci then "imsi-" +:+ split_last hyphen suci else suci.

Inductive registration_response :=
| AUTHENTICATION_REQUIRED (nas_message : AuthenticationRequest) (links : json)
| REGISTRATION_ACCEPT (nas_message : RegistrationAccept) (guti : string)
                      (udm_registered : bool).

Definition set_registered (c : ue_context) (acc : RegistrationAccept)
    (with_allowed : bool) : ue_context :=
  {| uc_supi := uc_supi c; uc_suci := uc_suci c;
     uc_registration_type := uc_registration_type c;
     uc_ue_security_capability := uc_ue_security_capability c;
     uc_requested_nssai := uc_requested_nssai c;
     registration_state := "REGISTERED";
     guti := Some (mobile_identity acc);
     uc_allowed_nssai :=
       if with_allowed then allowed_nssai acc else uc_allowed_nssai c;
     security_mode_complete := security_mode_complete c;
     imeisv := imeisv c;
     registration_time := registration_time c |}.

(** [POST /nas/registration-request] *)
Definition process_registration_request
    (env : peers) (now : Z) (registration_req : RegistrationRequest) (st : state)
  : outcome registration_response * state :=
  let supi := supi_of_suci (suci registration_req) in
  let ue_context :=
    {| uc_supi := supi;
       uc_suci := suci registration_req;
       uc_registration_type := registration_type registration_req;
       uc_ue_security_capability := ue_security_capability registration_req;
       uc_requested_nssai := requested_nssai registration_req;
       registration_state := "INITIAL";
       guti := None;
       uc_allowed_nssai := None;
       security_mode_complete := false;
       imeisv := JNull;
       registration_time := now |} in
  let st1 :=
    {| ue_contexts := <[supi := ue_context]> (ue_contexts st);
       pdu_sessions := pdu_sessions st;
       nas_security_contexts := nas_security_contexts st |} in
  let auth_result :=
    if bool_decide (registration_type registration_req ∈ [1; 3])
    then initiate_authentication env supi else None in
  match auth_result with
  | Some auth_result =>
      let auth_request :=
        create_authentication_request supi (authenticationVector auth_result) in
      (Return (AUTHENTICATION_REQUIRED auth_request
                 (default (JObj []) (_links auth_result))), st1)
  | None =>
      let registration_accept :=
        create_registration_accept supi (requested_nssai registration_req) in
      let st2 :=
        {| ue_contexts :=
             <[supi := set_registered ue_context registration_accept true]>
               (ue_contexts st1);
           pdu_sessions := pdu_sessions st1;
           nas_security_contexts := nas_security_contexts st1 |} in
      let udm_success := register_with_udm env supi in
      (Return (REGISTRATION_ACCEPT registration_accept
                 (mobile_identity registration_accept) udm_success), st2)
  end.

Inductive authentication_response :=
| AUTHENTICATION_SUCCESS (nas_message : SecurityModeCommand)
| AUTHENTICATION_FAILURE (cause : Z)
| NoBody.

(** [POST /nas/authentication-response].  The body is a free-form
    dictionary; a key that is not a [str] cannot be in [ue_contexts], a
    list or a dictionary as key is unhashable. *)
Definition process_authentication_response_body
    (env : peers) (auth_data : list (string * json)) (st : state)
  : outcome (authentication_response * state) :=
  let supi := default JNull (dict_get "supi" auth_data) in
  let auth_response := default JNull (dict_get "authResponse" auth_data) in
  let auth_context_id := default JNull (dict_get "authContextId" auth_data) in
  if negb (truthy supi && truthy auth_response && truthy auth_context_id)
  then Raise (HTTPException 400)
  else
    match ausf_confirm env auth_context_id auth_response with
    | None => Raise RequestException
    | Some (status_code, auth_result) =>
        if decide (status_code = 200) then
          if decide (authResult auth_result = "AUTHENTICATION_SUCCESS") then
            ctx ← match supi with
                  | JStr s => Return ((λ c, (s, c)) <$> ue_contexts st !! s)
                  | JList _ | JObj _ => Raise TypeError
                  | _ => Return None
                  end;
            match ctx with
            | Some (key, ue_context) =>
                let security_cmd :=
                  create_security_mode_command key (uc_ue_security_capability ue_context) in
                mret (AUTHENTICATION_SUCCESS security_cmd,
                      {| ue_contexts := ue_contexts st;
                         pdu_sessions := pdu_sessions st;
                         nas_security_contexts :=
                           <[key := {| sc_kseaf := cdr_kseaf auth_result;
                                       selected_algorithms :=
                                         selected_nas_security_algorithms security_cmd;
                                       sc_ngksi := smc_ngksi security_cmd |}]>
                             (nas_security_contexts st) |})
            | None => mret (NoBody, st)
            end
          else mret (AUTHENTICATION_FAILURE 20, st)
        else Raise (HTTPException 500)
    end.

Definition process_authentication_response
    (env : peers) (auth_data : list (string * json)) (st : state)
  : outcome authentication_response * state :=
  match except_Exception_500 (process_authentication_response_body env auth_data st) with
  | Return (r, st') => (Return r, st')
  | Raise e => (Raise e, st)
  end.

(** [POST /nas/security-mode-complete] *)
Definition process_security_mode_complete
    (security_data : list (string * json)) (st : state)
  : outcome RegistrationAccept * state :=
  let supi := default JNull (dict_get "supi" security_data) in
  let imeisv_v := default JNull (dict_get "imeisv" security_data) in
  match supi with
  | JStr s =>
      match ue_contexts st !! s with
      | None => (except_Exception_500 (Raise (HTTPException 404)), st)
      | Some c =>
          let registration_accept :=
            create_registration_accept s (uc_requested_nssai c) in
          let c1 :=
            {| uc_supi := uc_supi c; uc_suci := uc_suci c;
               uc_registration_type := uc_registration_type c;
               uc_ue_security_capability := uc_ue_security_capability c;
               uc_requested_nssai := uc_requested_nssai c;
               registration_state := registration_state c;
               guti := guti c;
               uc_allowed_nssai := uc_allowed_nssai c;
               security_mode_complete := true;
               imeisv := imeisv_v;
               registration_time := registration_time c |} in
          (Return registration_accept,
           {| ue_contexts :=
                <[s := set_registered c1 registration_accept false]> (ue_contexts st);
              pdu_sessions := pdu_sessions st;
              nas_security_contexts := nas_security_contexts st |})
      end
  | JList _ | JObj _ => (except_Exception_500 (Raise TypeError), st)
  | _ => (except_Exception_500 (Raise (HTTPException 404)), st)
  end.

(** The SM-context payload of [process_pdu_session_establishment_request]. *)
Definition smf_request (pdu_req : PduSessionEstablishmentRequest)
  : list (string * json) :=
  [("pduSessionId", JInt (pdu_session_id pdu_req));
   ("dnn", JStr "internet");
   ("sNssai", JObj [("sst", JInt 1); ("sd", JStr "010203")]);
   ("pduSessionType", JStr "IPV4");
   ("sscMode", JStr "SSC_MODE_1")].

Inductive pdu_session_response :=
| ACCEPT_WITH_CONTEXT (pdu_session_id : Z) (session_context : pdu_session)
| ACCEPT_LOCAL (pdu_session_id : Z) (allocated_ip : string).

Definition with_state (s : string) (ctx : option json) (p : pdu_session) : pdu_session :=
  {| ps_pdu_session_id := ps_pdu_session_id p; ps_pti := ps_pti p;
     ps_pdu_session_type := ps_pdu_session_type p; ps_ssc_mode := ps_ssc_mode p;
     ps_state := s; smf_context := ctx; created_time := created_time p |}.

Definition put_session (session_id : string) (p : pdu_session) (st : state) : state :=
  {| ue_contexts := ue_contexts st;
     pdu_sessions := <[session_id := p]> (pdu_sessions st);
     nas_security_contexts := nas_security_contexts st |}.

(** [POST /nas/pdu-session-establishment-request]; [session_id] is the
    [uuid.uuid4()] drawn for the request. *)
Definition process_pdu_session_establishment_request
    (env : peers) (session_id : string) (now : Z)
    (pdu_req : PduSessionEstablishmentRequest) (st : state)
  : outcome pdu_session_response * state :=
  let pdu_session :=
    {| ps_pdu_session_id := pdu_session_id pdu_req;
       ps_pti := pti pdu_req;
       ps_pdu_session_type := pdu_session_type pdu_req;
       ps_ssc_mode := ssc_mode pdu_req;
       ps_state := "CREATING";
       smf_context := None;
       created_time := now |} in
  let st1 := put_session session_id pdu_session st in
  let local :=
    (Return (ACCEPT_LOCAL (pdu_session_id pdu_req) "192.168.1.100"),
     put_session session_id (with_state "ACTIVE" None pdu_session) st1) in
  match smf_url env with
  | Some _ =>
      match smf_post env (JObj (smf_request pdu_req)) with
      | None => (except_Exception_500 (Raise RequestException), st1)
      | Some (status_code, body) =>
          if bool_decide (status_code ∈ [200; 201]) then
            let active := with_state "ACTIVE" (Some body) pdu_session in
            (Return (ACCEPT_WITH_CONTEXT (pdu_session_id pdu_req) active),
             put_session session_id active st1)
          else local
      end
  | None => local
  end.

(** The requests that write the AMF state, as a labelled transition. *)
Inductive request :=
| RegistrationReq (env : peers) (now : Z) (r : RegistrationRequest)
| AuthenticationResp (env : peers) (auth_data : list (string * json))
| SecurityModeComplete (security_data : list (string * json))
| PduSessionReq (env : peers) (session_id : string) (now : Z)
                (r : PduSessionEstablishmentRequest).

Definition handle (rq : request) (st : state) : state :=
  match rq with
  | RegistrationReq env now r => (process_registration_request env now r st).2
  | AuthenticationResp env d => (process_authentication_response env d st).2
  | SecurityModeComplete d => (process_security_mode_complete d st).2
  | PduSessionReq env sid now r =>
      (process_pdu_session_establishment_request env sid now r st).2
  end.

Definition run (rqs : list request) : state := foldl (λ st rq, handle rq st) boot rqs.

End Handlers.

(** The registration states of the UE state machine as the specification
    lists them, and as the handlers write them. *)
Definition spec_states : list string :=
  ["DEREGISTERED"; "AUTH_PENDING"; "SEC_PENDING"; "REGISTERED"].
Definition written_states : list string := ["INITIAL"; "REGISTERED"].

Definition states_written (st : state) : Prop :=
map_Forall (λ _ c, registration_state c ∈ written_states) (ue_contexts st).


(** A context is REGISTERED with the GUTI of its SUPI, or INITIAL without a
    GUTI. *)
Definition guti_follows_state (py_hash : string → Z) (st : state) : Prop :=
map_Forall (λ supi c,
              (registration_state c = "REGISTERED"
               ∧ guti c = Some (generate_5g_guti py_hash supi))
              ∨ (registration_state c = "INITIAL" ∧ guti c = None))
           (ue_contexts st).

(** An AUSF that challenges every UE with [challenge] and confirms every
    response with [confirmation]. *)
Definition ausf_accepting (challenge : AuthenticationInfoResult)
    (confirmation : ConfirmationDataResponse) (udm : string → bool) : peers :=
{| initiate_authentication := λ _, Some challenge;
   register_with_udm := udm;
   ausf_confirm := λ _ _, Some (200, confirmation);
   smf_url := None;
   smf_post := λ _, None |}.

End Amf.

(** ** AUSF: [core_network/ausf.py] *)

Module Ausf.

(** One entry of [authentication_contexts].  The vector's values are stored
    as the UDM sent them. *)
Record AuthCtx := {
  supi : string;
  servingNetworkName : string;
  authType : string;
  rand : json;
  autn : json;
  hxresstar : json;
  kausf : json;
  timestamp : Z;
  status : string;
  kseaf : option string;
  completedAt : option Z
}.

Record AuthenticationVector := {
  av_rand : string; av_autn : string; av_hxresstar : string; av_kausf : string
}.

Record AuthenticationInfoResult := {
  air_authType : string;
  authenticationVector : AuthenticationVector;
  air_supi : option string;
  href : string
}.

Record ConfirmationDataResponse := {
  authResult : string;
  cdr_supi : option string;
  cdr_kseaf : option string;
  cdr_authenticationVector : option AuthenticationVector
}.

(** What [secrets.token_hex] returns in one call of
    [generate_5g_aka_vectors]. *)
Record entropy := { e_rand : string; e_sqn : string; e_ak : string; e_mac : string }.

(** A field declared [str] in a pydantic model: a [str] passes, a number is
    rendered, anything else fails validation. *)
Definition str_field (v : json) : outcome string :=
match v with
| JStr s => Return s
| JInt n => Return (pretty n)
| JBool true => Return "True"
| JBool false => Return "False"
| _ => Raise ValueError
end.

Definition vector_of (rand autn hxresstar kausf : json) : outcome AuthenticationVector :=
r ← str_field rand; a ← str_field autn; h ← str_field hxresstar; k ← str_field kausf;
mret {| av_rand := r; av_autn := a; av_hxresstar := h; av_kausf := k |}.

Section Handlers.

(** [hashlib.sha256(s.encode()).hexdigest()] *)
Variable sha256_hex : string → string.

Definition generate_5g_aka_vectors (e : entropy) (supi : string) : list (string * json) :=
let rand := e_rand e in
let autn := e_sqn e +:+ "8000" +:+ e_mac e in
let hxresstar := String.substring 0 16 (sha256_hex (supi +:+ rand +:+ autn)) in
let kausf := sha256_hex (supi +:+ rand +:+ "KAUSF") in
[("rand", JStr rand); ("autn", JStr autn); ("hxresstar", JStr hxresstar);
 ("kausf", JStr kausf)].

Definition derive_kseaf (kausf serving_network_name : string) : string :=
sha256_hex (kausf +:+ serving_network_name +:+ "KSEAF").

(** [verify_authentication_response] *)
Definition verify_authentication_response
    (contexts : gmap string AuthCtx) (auth_ctx_id res_star : string) : bool :=
match contexts !! auth_ctx_id with
| None => false
| Some context => str_eq_json res_star (hxresstar context)
end.

(** [POST /nausf-auth/v1/ue-authentications].  [udm_auth_data] is the body
    of the UDM's 200 answer, [None] for any other answer or none;
    [auth_ctx_id] is the [uuid.uuid4()] of the request. *)
Definition ue_authentication_request
    (udm_auth_data : option json) (e : entropy) (auth_ctx_id : string) (now : Z)
    (supiOrSuci serving : string) (contexts : gmap string AuthCtx)
  : outcome AuthenticationInfoResult * gmap string AuthCtx :=
let supi := if String.prefix "suci-" supiOrSuci
            then "imsi-" +:+ split_last hyphen supiOrSuci
            else supiOrSuci in
let auth_vectors :=
  match udm_auth_data with
  | Some (JObj o) =>
      if truthy (JObj o) then Return (default (JObj []) (dict_get "authenticationVector" o))
      else Return (JObj (generate_5g_aka_vectors e supi))
  | Some v =>
      if truthy v then Raise AttributeError
      else Return (JObj (generate_5g_aka_vectors e supi))
  | None => Return (JObj (generate_5g_aka_vectors e supi))
  end in
let stored :=
  v ← auth_vectors;
  r ← subscript v "rand"; a ← subscript v "autn";
  h ← subscript v "hxresstar"; k ← subscript v "kausf";
  mret {| supi := supi; servingNetworkName := serving; authType := "5G_AKA";
          rand := r; autn := a; hxresstar := h; kausf := k;
          timestamp := now; status := "ONGOING"; kseaf := None; completedAt := None |} in
match stored with
| Raise _ => (Raise (HTTPException 500), contexts)
| Return context =>
    (except_Exception_500
       (v ← vector_of (rand context) (autn context) (hxresstar context) (kausf context);
        mret {| air_authType := "5G_AKA"; authenticationVector := v;
                air_supi := Some supi;
                href := "/nausf-auth/v1/ue-authentications/" +:+ auth_ctx_id
                        +:+ "/5g-aka-confirmation" |}),
     <[auth_ctx_id := context]> contexts)
end.

Definition completed (s : string) (k : option string) (now : Z) (c : AuthCtx) : AuthCtx :=
{| supi := supi c; servingNetworkName := servingNetworkName c; authType := authType c;
   rand := rand c; autn := autn c; hxresstar := hxresstar c; kausf := kausf c;
   timestamp := timestamp c; status := s; kseaf := k; completedAt := Some now |}.

(** [PUT /nausf-auth/v1/ue-authentications/{authCtxId}/5g-aka-confirmation] *)
Definition authentication_confirmation
    (authCtxId resStar : string) (now : Z) (contexts : gmap string AuthCtx)
  : outcome ConfirmationDataResponse * gmap string AuthCtx :=
match contexts !! authCtxId with
| None => (except_HTTPException_reraise (Raise (HTTPException 404)), contexts)
| Some context =>
    if verify_authentication_response contexts authCtxId resStar then
      match kausf context with
      | JStr k =>
          let kseaf := derive_kseaf k (servingNetworkName context) in
          let context' := completed "SUCCESS" (Some kseaf) now context in
          (except_HTTPException_reraise
             (v ← vector_of (rand context) (autn context) (hxresstar context)
                            (kausf context);
              mret {| authResult := "AUTHENTICATION_SUCCESS";
                      cdr_supi := Some (supi context);
                      cdr_kseaf := Some kseaf;
                      cdr_authenticationVector := Some v |}),
           <[authCtxId := context']> contexts)
      | _ => (except_HTTPException_reraise (Raise TypeError), contexts)
      end
    else
      (Return {| authResult := "AUTHENTICATION_FAILURE"; cdr_supi := None;
                 cdr_kseaf := None; cdr_authenticationVector := None |},
       <[authCtxId := completed "FAILURE" (kseaf context) now context]> contexts)
end.

(** [GET /nausf-auth/v1/ue-authentications/{authCtxId}] *)
Definition get_authentication_context
    (authCtxId : string) (contexts : gmap string AuthCtx) : outcome AuthCtx :=
from_option Return (Raise (HTTPException 404)) (contexts !! authCtxId).

(** [DELETE /nausf-auth/v1/ue-authentications/{authCtxId}] *)
Definition delete_authentication_context
    (authCtxId : string) (contexts : gmap string AuthCtx)
  : outcome unit * gmap string AuthCtx :=
match contexts !! authCtxId with
| Some _ => (Return (), delete authCtxId contexts)
| None => (Raise (HTTPException 404), contexts)
end.

(** The operations of the service. *)
Inductive request :=
| UeAuthentication (udm_auth_data : option json) (e : entropy) (auth_ctx_id : string)
                   (now : Z) (supiOrSuci serving : string)
| Confirmation (authCtxId resStar : string) (now : Z)
| GetContext (authCtxId : string)
| DeleteContext (authCtxId : string).

Definition handle (rq : request) (contexts : gmap string AuthCtx) : gmap string AuthCtx :=
match rq with
| UeAuthentication udm e id now s n => (ue_authentication_request udm e id now s n contexts).2
| Confirmation id res now => (authentication_confirmation id res now contexts).2
| GetContext _ => contexts
| DeleteContext id => (delete_authentication_context id contexts).2
end.

Definition run (rqs : list request) : gmap string AuthCtx :=
foldl (λ contexts rq, handle rq contexts) ∅ rqs.

End Handlers.

Definition terminal (c : AuthCtx) : Prop := status c = "SUCCESS" ∨ status c = "FAILURE".

(** [uuid.uuid4()] does not repeat an identifier in use. *)
Definition fresh_id (rq : request) (contexts : gmap string AuthCtx) : Prop :=
match rq with
| UeAuthentication _ _ auth_ctx_id _ _ _ => contexts !! auth_ctx_id = None
| _ => True
end.

(** Every context in status SUCCESS carries a key. *)
Definition success_has_kseaf (contexts : gmap string AuthCtx) : Prop :=
map_Forall (λ _ c, status c = "SUCCESS" → is_Some (kseaf c)) contexts.

End Ausf.

(** ** UPF: [core_network/upf_enhanced.py] *)

Module Upf.

(** *** PFCP and GTP-U request models (the fields the handlers read) *)

Record OuterHeaderCreation := {
  ohc_teid : option string;
  ohc_ipv4_address : option string;
  ohc_ipv6_address : option string
}.
Record FTeid := {
  teid : string;
  ipv4_address : option string;
  ipv6_address : option string
}.
Record Pdi := { source_interface : Z; f_teid : option FTeid }.
Record CreatePdr := { pdr_id : Z; precedence : Z; pdi : Pdi; far_id : option Z }.
Record ForwardingParameters := {
  destination_interface : Z;
  outer_header_creation : option OuterHeaderCreation
}.
Record CreateFar := {
  cf_far_id : Z;
  apply_action : Z;
  forwarding_parameters : option ForwardingParameters
}.
Record Mbr := { ul_mbr : Z; dl_mbr : Z }.
Record Gbr := { ul_gbr : Z; dl_gbr : Z }.
Record CreateQer := {
  qer_id : Z;
  mbr : option Mbr;
  gbr : option Gbr;
  qfi : option Z;
  averaging_window : option Z
}.
Record CreateUrr := { urr_id : Z; measurement_method : Z; reporting_triggers : Z }.
Record PfcpSessionEstablishmentRequest := {
  node_id : string;
  f_seid : FTeid;
  create_pdr : list CreatePdr;
  create_far : list CreateFar;
  create_urr : option (list CreateUrr);
  create_qer : option (list CreateQer);
  pdn_type : option string
}.
Record GtpuHeader := { gh_teid : string; gh_length : Z; sequence_number : option Z }.
Record GtpuPacket := { header : GtpuHeader; payload : string }.

(** *** Stored state *)

Record QosParameters := {
  fiveqi : Z;
  priority_level : option Z;
  packet_delay_budget : option Z;
  packet_error_rate : option string;
  maximum_data_burst_volume : option Z;
  qp_averaging_window : option Z;
  maximum_bitrate_ul : json;     (* assigned without validation on modification *)
  maximum_bitrate_dl : json;
  guaranteed_bitrate_ul : option Z;
  guaranteed_bitrate_dl : option Z
}.

Record TrafficStats := {
  packets_ul : Z; packets_dl : Z;
  bytes_ul : Z; bytes_dl : Z;
  dropped_packets_ul : Z; dropped_packets_dl : Z;
  last_activity : Z
}.

Record tunnel_info := {
  local_teid : string;
  local_ipv4 : option string;
  local_ipv6 : option string;
  remote_teid : option string;
  remote_ipv4 : option string;
  remote_ipv6 : option string;
  tunnel_state : string;
  created_time : Z;
  stats : TrafficStats
}.

Record session := {
  upf_seid : string;
  smf_seid : string;
  s_node_id : string;
  allocated_ips : list (string * string);
  pdrs : gmap Z (list (string * json));
  fars : gmap Z (list (string * json));
  qers : gmap Z (list (string * json));
  urrs : gmap Z (list (string * json));
  s_gtp_tunnels : list string;
  s_state : string;
  s_created_time : Z;
  last_modified : Z
}.

(** The address pools: what [ipv4_pool.hosts()] enumerates, and for each /64
    of the IPv6 pool its first host and its prefix, with the allocated sets. *)
Record pools := {
  ipv4_hosts : list string;
  ipv6_subnets : list (string * string);
  allocated_ipv4 : gset string;
  allocated_ipv6 : gset string
}.

Record bucket := { tokens : Z; max_tokens : Z; last_refill : Z; refill_rate : Z }.

(** [QosScheduler] *)
Record scheduler := {
  token_buckets : gmap string bucket;
  priority_queues : list (string * list GtpuPacket)
}.

Record state := {
  pfcp_sessions : gmap string session;
  gtp_tunnels : gmap string tunnel_info;
  traffic_statistics : gmap string TrafficStats;
  qos_enforcement : list (string * QosParameters);
  pool : pools;
  qos_scheduler : scheduler
}.

Definition set_sessions (v : gmap string session) (st : state) : state :=
{| pfcp_sessions := v; gtp_tunnels := gtp_tunnels st;
   traffic_statistics := traffic_statistics st; qos_enforcement := qos_enforcement st;
   pool := pool st; qos_scheduler := qos_scheduler st |}.
Definition set_tunnels (v : gmap string tunnel_info) (st : state) : state :=
{| pfcp_sessions := pfcp_sessions st; gtp_tunnels := v;
   traffic_statistics := traffic_statistics st; qos_enforcement := qos_enforcement st;
   pool := pool st; qos_scheduler := qos_scheduler st |}.
Definition set_statistics (v : gmap string TrafficStats) (st : state) : state :=
{| pfcp_sessions := pfcp_sessions st; gtp_tunnels := gtp_tunnels st;
   traffic_statistics := v; qos_enforcement := qos_enforcement st;
   pool := pool st; qos_scheduler := qos_scheduler st |}.
Definition set_qos (v : list (string * QosParameters)) (st : state) : state :=
{| pfcp_sessions := pfcp_sessions st; gtp_tunnels := gtp_tunnels st;
   traffic_statistics := traffic_statistics st; qos_enforcement := v;
   pool := pool st; qos_scheduler := qos_scheduler st |}.
Definition set_pool (v : pools) (st : state) : state :=
{| pfcp_sessions := pfcp_sessions st; gtp_tunnels := gtp_tunnels st;
   traffic_statistics := traffic_statistics st; qos_enforcement := qos_enforcement st;
   pool := v; qos_scheduler := qos_scheduler st |}.
Definition set_scheduler (v : scheduler) (st : state) : state :=
{| pfcp_sessions := pfcp_sessions st; gtp_tunnels := gtp_tunnels st;
   traffic_statistics := traffic_statistics st; qos_enforcement := qos_enforcement st;
   pool := pool st; qos_scheduler := v |}.

(** *** [UPF_Enhanced.__init__] *)

Definition default_qos (q prio pdb : Z) (per : string) (mdbv : option Z) : string * QosParameters :=
(pretty q,
 {| fiveqi := q; priority_level := Some prio; packet_delay_budget := Some pdb;
    packet_error_rate := Some per; maximum_data_burst_volume := mdbv;
    qp_averaging_window := None;
    maximum_bitrate_ul := JNull; maximum_bitrate_dl := JNull;
    guaranteed_bitrate_ul := None; guaranteed_bitrate_dl := None |}).

(** [_initialize_default_qos]: the entries of [qos_enforcement] at boot, keyed
    by [str(fiveqi)], in insertion order. *)
Definition default_qos_configs : list (string * QosParameters) :=
[default_qos 1 20 100 "1E-2" None; default_qos 2 40 150 "1E-3" None;
 default_qos 3 30 50 "1E-3" None;  default_qos 4 50 300 "1E-6" None;
 default_qos 5 10 100 "1E-6" None; default_qos 6 60 300 "1E-6" None;
 default_qos 7 70 100 "1E-3" None; default_qos 8 80 300 "1E-6" None;
 default_qos 9 90 300 "1E-6" None; default_qos 65 7 75 "1E-2" None;
 default_qos 66 20 100 "1E-2" None; default_qos 67 15 100 "1E-3" None;
 default_qos 75 25 50 "1E-2" None; default_qos 79 65 50 "1E-2" (Some 255);
 default_qos 80 68 10 "1E-6" (Some 1354); default_qos 82 19 10 "1E-4" (Some 255);
 default_qos 83 22 10 "1E-4" (Some 1354); default_qos 84 24 30 "1E-5" (Some 1354);
 default_qos 85 21 5 "1E-5" (Some 255)].

(** The instance at boot, for given pools. *)
Definition boot (hosts4 : list string) (subnets6 : list (string * string)) : state :=
{| pfcp_sessions := ∅; gtp_tunnels := ∅; traffic_statistics := ∅;
   qos_enforcement := default_qos_configs;
   pool := {| ipv4_hosts := hosts4; ipv6_subnets := subnets6;
              allocated_ipv4 := ∅; allocated_ipv6 := ∅ |};
   qos_scheduler := {| token_buckets := ∅; priority_queues := [] |} |}.

(** The hosts of 192.168.100.0/24. *)
Definition default_ipv4_hosts : list string :=
(λ i, "192.168.100." +:+ pretty (Z.of_nat i)) <$> seq 1 254.

(** *** IP allocation *)

(** The first element of [l] that is not in [used]: the [for ... if ... not in
    ...: ...; break] loops of [allocate_ip_address]. *)
Definition first_free {A} (name : A → string) (used : gset string) (l : list A) : option A :=
snd <$> list_find (λ a, name a ∉ used) l.

Definition allocate_ip_address (pdn_type : string) (p : pools)
  : list (string * string) * pools :=
let '(result4, p1) :=
  if bool_decide (pdn_type ∈ ["IPV4"; "IPV4V6"]) then
    match first_free id (allocated_ipv4 p) (ipv4_hosts p) with
    | Some ip =>
        ([("ipv4", ip)],
         {| ipv4_hosts := ipv4_hosts p; ipv6_subnets := ipv6_subnets p;
            allocated_ipv4 := {[ip]} ∪ allocated_ipv4 p;
            allocated_ipv6 := allocated_ipv6 p |})
    | None => ([], p)
    end
  else ([], p) in
let '(result6, p2) :=
  if bool_decide (pdn_type ∈ ["IPV6"; "IPV4V6"]) then
    match first_free fst (allocated_ipv6 p1) (ipv6_subnets p1) with
    | Some (ipv6_addr, subnet) =>
        ([("ipv6", ipv6_addr); ("ipv6_prefix", subnet)],
         {| ipv4_hosts := ipv4_hosts p1; ipv6_subnets := ipv6_subnets p1;
            allocated_ipv4 := allocated_ipv4 p1;
            allocated_ipv6 := {[ipv6_addr]} ∪ allocated_ipv6 p1 |})
    | None => ([], p1)
    end
  else ([], p1) in
(result4 ++ result6, p2).

Definition release_ip_address (ip_address : string) (p : pools) : pools :=
{| ipv4_hosts := ipv4_hosts p; ipv6_subnets := ipv6_subnets p;
   allocated_ipv4 := allocated_ipv4 p ∖ {[ip_address]};
   allocated_ipv6 := allocated_ipv6 p ∖ {[ip_address]} |}.

(** *** Tunnels *)

Definition fresh_stats (now : Z) : TrafficStats :=
{| packets_ul := 0; packets_dl := 0; bytes_ul := 0; bytes_dl := 0;
   dropped_packets_ul := 0; dropped_packets_dl := 0; last_activity := now |}.

(** [create_gtp_tunnel]; [tunnel_id] is the [uuid.uuid4()] it draws. *)
Definition create_gtp_tunnel (tunnel_id : string) (now : Z) (ft : FTeid) (far : CreateFar)
  : tunnel_info :=
let ohc := forwarding_parameters far ≫= outer_header_creation in
{| local_teid := teid ft;
   local_ipv4 := ipv4_address ft;
   local_ipv6 := ipv6_address ft;
   remote_teid := ohc ≫= ohc_teid;
   remote_ipv4 := ohc ≫= ohc_ipv4_address;
   remote_ipv6 := ohc ≫= ohc_ipv6_address;
   tunnel_state := "ACTIVE";
   created_time := now;
   stats := fresh_stats now |}.

(** *** QoS *)

(** [enforce_qos_policies] *)
Definition qos_of_qer (qer : CreateQer) : QosParameters :=
{| fiveqi := match qfi qer with Some q => if q =? 0 then 9 else q | None => 9 end;
   priority_level := Some 1;
   packet_delay_budget := None; packet_error_rate := None;
   maximum_data_burst_volume := None;
   qp_averaging_window := averaging_window qer;
   maximum_bitrate_ul := from_option (λ m, JInt (ul_mbr m)) JNull (mbr qer);
   maximum_bitrate_dl := from_option (λ m, JInt (dl_mbr m)) JNull (mbr qer);
   guaranteed_bitrate_ul := ul_gbr <$> gbr qer;
   guaranteed_bitrate_dl := dl_gbr <$> gbr qer |}.

Definition enforce_qos_policies (session_id : string) (qer_list : list CreateQer)
    (qos : list (string * QosParameters)) : list (string * QosParameters) :=
foldl (λ acc qer, dict_set (session_id +:+ "_" +:+ pretty (qer_id qer)) (qos_of_qer qer) acc)
      qos qer_list.

(** [_get_priority_from_fiveqi] *)
Definition priority_map : list (Z * Z) :=
[(1, 20); (2, 40); (3, 30); (4, 50); (5, 10); (6, 60); (7, 70); (8, 80); (9, 90);
 (65, 7); (66, 20); (67, 15); (75, 25); (79, 65); (80, 68); (82, 19); (83, 22);
 (84, 24); (85, 21)].
Definition _get_priority_from_fiveqi (q : Z) : Z :=
default 90 ((λ hit : nat * (Z * Z), hit.2.2) <$> list_find (λ kv, kv.1 = q) priority_map).

(** [_process_priority_queues]: every non-empty queue loses its head (the
    sort by priority only orders the log lines). *)
Definition _process_priority_queues (queues : list (string * list GtpuPacket))
  : list (string * list GtpuPacket) :=
(λ kq, (kq.1, tail kq.2)) <$> queues.

(** The first entry of [qos_enforcement] whose key contains [tunnel_id]:
    [for key, params in qos_enforcement.items(): if tunnel_id in key: ...; break] *)
Definition applicable_qos (tunnel_id : string) (qos : list (string * QosParameters))
  : option QosParameters :=
snd <$> List.find (λ kv, str_in tunnel_id kv.1) qos.

(** [QosScheduler.enforce_qos].  [now] is [datetime.utcnow()] in microseconds;
    [int(time_diff * refill_rate)] is taken on the exact product. *)
Definition enforce_qos (tunnel_id : string) (packet : GtpuPacket) (direction : string)
    (now : Z) (qos : list (string * QosParameters)) (sch : scheduler)
  : outcome bool * scheduler :=
match applicable_qos tunnel_id qos with
| None => (Return true, sch)
| Some qos_params =>
    let bucket_key := tunnel_id +:+ "_" +:+ direction in
    let created :=
      match token_buckets sch !! bucket_key with
      | Some _ => Return (token_buckets sch)
      | None =>
          let max_rate := if decide (direction = "uplink")
                          then maximum_bitrate_ul qos_params
                          else maximum_bitrate_dl qos_params in
          if truthy max_rate then
            match as_int max_rate with
            | Some r =>
                Return (<[bucket_key := {| tokens := r `div` 8; max_tokens := r `div` 8;
                                           last_refill := now;
                                           refill_rate := r `div` 8 |}]>
                          (token_buckets sch))
            | None => Raise TypeError
            end
          else Return (token_buckets sch)
      end in
    match created with
    | Raise e => (Raise e, sch)
    | Return buckets =>
        match buckets !! bucket_key with
        | Some b =>
            let time_diff := now - last_refill b in
            let tokens_to_add := (time_diff * refill_rate b) `quot` 1000000 in
            let refilled := Z.min (max_tokens b) (tokens b + tokens_to_add) in
            let packet_size := Z.of_nat (String.length (payload packet)) in
            let pass := bool_decide (packet_size ≤ refilled) in
            let b' := {| tokens := if pass then refilled - packet_size else refilled;
                         max_tokens := max_tokens b; last_refill := now;
                         refill_rate := refill_rate b |} in
            (Return pass,
             {| token_buckets := <[bucket_key := b']> buckets;
                priority_queues := priority_queues sch |})
        | None =>
            let priority := _get_priority_from_fiveqi (fiveqi qos_params) in
            let queue_key := tunnel_id +:+ "_" +:+ pretty priority in
            let queue := default [] (dict_get queue_key (priority_queues sch)) in
            let queues := dict_set queue_key (queue ++ [packet]) (priority_queues sch) in
            (Return true,
             {| token_buckets := buckets;
                priority_queues := _process_priority_queues queues |})
        end
    end
end.

Definition count_packet (direction : string) (size now : Z) (s : TrafficStats) : TrafficStats :=
if decide (direction = "uplink") then
  {| packets_ul := packets_ul s + 1; packets_dl := packets_dl s;
     bytes_ul := bytes_ul s + size; bytes_dl := bytes_dl s;
     dropped_packets_ul := dropped_packets_ul s;
     dropped_packets_dl := dropped_packets_dl s; last_activity := now |}
else
  {| packets_ul := packets_ul s; packets_dl := packets_dl s + 1;
     bytes_ul := bytes_ul s; bytes_dl := bytes_dl s + size;
     dropped_packets_ul := dropped_packets_ul s;
     dropped_packets_dl := dropped_packets_dl s; last_activity := now |}.

Definition count_drop (direction : string) (s : TrafficStats) : TrafficStats :=
if decide (direction = "uplink") then
  {| packets_ul := packets_ul s; packets_dl := packets_dl s;
     bytes_ul := bytes_ul s; bytes_dl := bytes_dl s;
     dropped_packets_ul := dropped_packets_ul s + 1;
     dropped_packets_dl := dropped_packets_dl s; last_activity := last_activity s |}
else
  {| packets_ul := packets_ul s; packets_dl := packets_dl s;
     bytes_ul := bytes_ul s; bytes_dl := bytes_dl s;
     dropped_packets_ul := dropped_packets_ul s;
     dropped_packets_dl := dropped_packets_dl s + 1; last_activity := last_activity s |}.

Definition with_stats (s : TrafficStats) (t : tunnel_info) : tunnel_info :=
{| local_teid := local_teid t; local_ipv4 := local_ipv4 t; local_ipv6 := local_ipv6 t;
   remote_teid := remote_teid t; remote_ipv4 := remote_ipv4 t;
   remote_ipv6 := remote_ipv6 t; tunnel_state := tunnel_state t;
   created_time := created_time t; stats := s |}.

(** [UPF_Enhanced.process_gtp_packet] *)
Definition process_gtp_packet (tunnel_id : option string) (gtp_packet : GtpuPacket)
    (direction : string) (now : Z) (st : state) : outcome bool * state :=
match tunnel_id ≫= λ id, (λ t, (id, t)) <$> gtp_tunnels st !! id with
| None => (Return false, st)
| Some (id, tunnel) =>
    let packet_size := Z.of_nat (String.length (payload gtp_packet)) in
    let counted := count_packet direction packet_size now (stats tunnel) in
    let '(qos_result, sch) :=
      enforce_qos id gtp_packet direction now (qos_enforcement st) (qos_scheduler st) in
    let final :=
      match qos_result with
      | Return false => count_drop direction counted
      | _ => counted
      end in
    (qos_result,
     set_scheduler sch
       (set_tunnels (<[id := with_stats final tunnel]> (gtp_tunnels st)) st))
end.

(** The body of [POST /gtp-u/process-packet] with its header and payload
    present; [tunnel_id] is read by [.get] and may be absent. *)
Record packet_data := {
  pd_tunnel_id : option string;
  pd_direction : string;
  pd_header : GtpuHeader;
  pd_payload : string
}.

(** [POST /gtp-u/process-packet]: the ["status"] of the answer. *)
Definition process_packet (d : packet_data) (now : Z) (st : state) : outcome string * state :=
let gtp_packet := {| header := pd_header d; payload := pd_payload d |} in
let '(success, st') := process_gtp_packet (pd_tunnel_id d) gtp_packet (pd_direction d) now st in
(except_Exception_500 (ok ← success; mret (if ok : bool then "SUCCESS" else "DROPPED")), st').

(** *** PFCP sessions *)

Definition opt_str (o : option string) : json := from_option JStr JNull o.
Definition opt_int (o : option Z) : json := from_option JInt JNull o.

(** [.dict()] of the request models. *)
Definition fteid_dict (f : FTeid) : json :=
JObj [("teid", JStr (teid f)); ("ipv4_address", opt_str (ipv4_address f));
      ("ipv6_address", opt_str (ipv6_address f))].
Definition pdr_dict (p : CreatePdr) : list (string * json) :=
[("pdr_id", JInt (pdr_id p)); ("precedence", JInt (precedence p));
 ("pdi", JObj [("source_interface", JInt (source_interface (pdi p)));
               ("f_teid", from_option fteid_dict JNull (f_teid (pdi p)))]);
 ("far_id", opt_int (far_id p))].
Definition ohc_dict (o : OuterHeaderCreation) : json :=
JObj [("teid", opt_str (ohc_teid o)); ("ipv4_address", opt_str (ohc_ipv4_address o));
      ("ipv6_address", opt_str (ohc_ipv6_address o))].
Definition far_dict (f : CreateFar) : list (string * json) :=
[("far_id", JInt (cf_far_id f)); ("apply_action", JInt (apply_action f));
 ("forwarding_parameters",
  from_option (λ fp, JObj [("destination_interface", JInt (destination_interface fp));
                           ("outer_header_creation",
                            from_option ohc_dict JNull (outer_header_creation fp))])
              JNull (forwarding_parameters f))].
Definition qer_dict (q : CreateQer) : list (string * json) :=
[("qer_id", JInt (qer_id q));
 ("mbr", from_option (λ m, JObj [("ul_mbr", JInt (ul_mbr m)); ("dl_mbr", JInt (dl_mbr m))])
                     JNull (mbr q));
 ("gbr", from_option (λ g, JObj [("ul_gbr", JInt (ul_gbr g)); ("dl_gbr", JInt (dl_gbr g))])
                     JNull (gbr q));
 ("qfi", opt_int (qfi q)); ("averaging_window", opt_int (averaging_window q))].
Definition urr_dict (u : CreateUrr) : list (string * json) :=
[("urr_id", JInt (urr_id u)); ("measurement_method", JInt (measurement_method u));
 ("reporting_triggers", JInt (reporting_triggers u))].

Record establishment_response := {
  messageType : Z;
  cause : Z;
  upFSeid : string;
  allocatedUeIpAddresses : list (string * string);
  createdPdr : list Z
}.

(** The PDR loop of the establishment: every PDR is recorded; one with an
    F-TEID and a FAR of its [far_id] gets a tunnel under the next
    [uuid.uuid4()]. *)
Definition establish_pdrs (uuid4 : nat → string) (now : Z)
    (request : PfcpSessionEstablishmentRequest)
  : gmap Z (list (string * json)) * list (string * tunnel_info) :=
let step (acc : gmap Z (list (string * json)) * list (string * tunnel_info) * nat)
         (pdr : CreatePdr) :=
  let '(recorded, tunnels, next) := acc in
  let recorded := <[pdr_id pdr := pdr_dict pdr]> recorded in
  match f_teid (pdi pdr),
        List.find (λ f, bool_decide (Some (cf_far_id f) = far_id pdr)) (create_far request) with
  | Some ft, Some far =>
      (recorded, tunnels ++ [(uuid4 next, create_gtp_tunnel (uuid4 next) now ft far)],
       S next)
  | _, _ => (recorded, tunnels, next)
  end in
(foldl step (∅, [], 1%nat) (create_pdr request)).1.

(** [POST /pfcp/v1/sessions].  [uuid4 0] is the UPF SEID; the handler has no
    step that raises, so its answer is always the accepted one. *)
Definition pfcp_session_establishment (uuid4 : nat → string) (now : Z)
    (request : PfcpSessionEstablishmentRequest) (st : state)
  : outcome establishment_response * state :=
let seid := uuid4 0%nat in
let '(allocated, pool') := allocate_ip_address (default "IPV4" (pdn_type request)) (pool st) in
let '(recorded, tunnels) := establish_pdrs uuid4 now request in
let qer_list := default [] (create_qer request) in
let session_context :=
  {| upf_seid := seid;
     smf_seid := teid (f_seid request);
     s_node_id := node_id request;
     allocated_ips := allocated;
     pdrs := recorded;
     fars := foldl (λ m f, <[cf_far_id f := far_dict f]> m) ∅ (create_far request);
     qers := foldl (λ m q, <[qer_id q := qer_dict q]> m) ∅ qer_list;
     urrs := foldl (λ m u, <[urr_id u := urr_dict u]> m) ∅ (default [] (create_urr request));
     s_gtp_tunnels := tunnels.*1;
     s_state := "ACTIVE";
     s_created_time := now;
     last_modified := now |} in
let st' :=
  {| pfcp_sessions := <[seid := session_context]> (pfcp_sessions st);
     gtp_tunnels := foldl (λ m kt, <[kt.1 := kt.2]> m) (gtp_tunnels st) tunnels;
     traffic_statistics := <[seid := fresh_stats now]> (traffic_statistics st);
     qos_enforcement := enforce_qos_policies seid qer_list (qos_enforcement st);
     pool := pool';
     qos_scheduler := qos_scheduler st |} in
(except_Exception_500
   (Return {| messageType := 51; cause := 1; upFSeid := seid;
              allocatedUeIpAddresses := allocated;
              createdPdr := pdr_id <$> create_pdr request |}),
 st').

(** [key in d] for a dictionary with integer keys: [True] is [1]; a list or a
    dictionary cannot be hashed. *)
Definition rule_key (v : json) : outcome (option Z) :=
match v with
| JList _ | JObj _ => Raise TypeError
| _ => Return (as_int v)
end.

(** What a modification works on: the session, the QoS table, and
    [modifications_applied] as (kind, id) for [f"{kind} {id} updated"]. *)
Record modification := {
  m_session : session;
  m_qos : list (string * QosParameters);
  m_applied : list (string * json)
}.

Definition set_rules (kind : string) (rules : gmap Z (list (string * json))) (s : session)
  : session :=
{| upf_seid := upf_seid s; smf_seid := smf_seid s; s_node_id := s_node_id s;
   allocated_ips := allocated_ips s;
   pdrs := if decide (kind = "PDR") then rules else pdrs s;
   fars := if decide (kind = "FAR") then rules else fars s;
   qers := if decide (kind = "QER") then rules else qers s;
   urrs := urrs s;
   s_gtp_tunnels := s_gtp_tunnels s; s_state := s_state s;
   s_created_time := s_created_time s; last_modified := last_modified s |}.

Definition get_rules (kind : string) (s : session) : gmap Z (list (string * json)) :=
if decide (kind = "PDR") then pdrs s else if decide (kind = "FAR") then fars s else qers s.

Definition set_bitrates (ul dl : json) (q : QosParameters) : QosParameters :=
{| fiveqi := fiveqi q; priority_level := priority_level q;
   packet_delay_budget := packet_delay_budget q;
   packet_error_rate := packet_error_rate q;
   maximum_data_burst_volume := maximum_data_burst_volume q;
   qp_averaging_window := qp_averaging_window q;
   maximum_bitrate_ul := ul; maximum_bitrate_dl := dl;
   guaranteed_bitrate_ul := guaranteed_bitrate_ul q;
   guaranteed_bitrate_dl := guaranteed_bitrate_dl q |}.

(** The follow-up of a QER update: the live QoS entry takes the new MBR.  The
    id reaches [f"{seid}_{qer_id}"] only as an [int] or a [bool] (nothing else
    is a key of [session["qers"]]), so no container is formatted. *)
Definition update_qos_enforcement (seid : string) (qer_id_v : json)
    (update : list (string * json)) (qos : list (string * QosParameters))
  : option exn * list (string * QosParameters) :=
let qos_key := seid +:+ "_" +:+ py_str (λ _, "") qer_id_v in
match dict_get qos_key qos, dict_get "mbr" update with
| Some qos_params, Some (JObj m) =>
    (None, dict_set qos_key
             (set_bitrates (default JNull (dict_get "ulMbr" m))
                           (default JNull (dict_get "dlMbr" m)) qos_params) qos)
| Some _, Some _ => (Some AttributeError, qos)
| _, _ => (None, qos)
end.

(** One item of [updatePdr], [updateFar] or [updateQer]. *)
Definition update_rule (kind id_field seid : string) (update : json) (m : modification)
  : option exn * modification :=
match id_v ← subscript update id_field; k ← rule_key id_v; mret (id_v, k) with
| Raise e => (Some e, m)
| Return (id_v, k) =>
    match update, k ≫= λ k, (λ rule, (k, rule)) <$> get_rules kind (m_session m) !! k with
    | JObj fields, Some (k, rule) =>
        let rules := <[k := dict_update rule fields]> (get_rules kind (m_session m)) in
        let m1 := {| m_session := set_rules kind rules (m_session m);
                     m_qos := m_qos m;
                     m_applied := m_applied m ++ [(kind, id_v)] |} in
        if decide (kind = "QER") then
          let '(failed, qos) := update_qos_enforcement seid id_v fields (m_qos m1) in
          (failed, {| m_session := m_session m1; m_qos := qos; m_applied := m_applied m1 |})
        else (None, m1)
    | _, _ => (None, m)
    end
end.

(** [if key in modification_request: for update in modification_request[key]: ...] *)
Definition update_rules (kind key id_field seid : string)
    (modification_request : list (string * json)) (m : modification)
  : option exn * modification :=
match dict_get key modification_request with
| None => (None, m)
| Some updates =>
    match iterate updates with
    | Raise e => (Some e, m)
    | Return items => for_each (update_rule kind id_field seid) items m
    end
end.

Definition touch (now : Z) (s : session) : session :=
{| upf_seid := upf_seid s; smf_seid := smf_seid s; s_node_id := s_node_id s;
   allocated_ips := allocated_ips s; pdrs := pdrs s; fars := fars s; qers := qers s;
   urrs := urrs s; s_gtp_tunnels := s_gtp_tunnels s; s_state := s_state s;
   s_created_time := s_created_time s; last_modified := now |}.

Record modification_response := {
  mr_messageType : Z;
  mr_cause : Z;
  modificationsApplied : list (string * json)
}.

(** [PATCH /pfcp/v1/sessions/{seid}].  Everything, the 404 included, is raised
    inside [try: ... except Exception as e: raise HTTPException(500, ...)]. *)
Definition pfcp_session_modification (seid : string)
    (modification_request : list (string * json)) (now : Z) (st : state)
  : outcome modification_response * state :=
match pfcp_sessions st !! seid with
| None => (except_Exception_500 (Raise (HTTPException 404)), st)
| Some s =>
    let m0 := {| m_session := s; m_qos := qos_enforcement st; m_applied := [] |} in
    let '(failed, m) :=
      match update_rules "PDR" "updatePdr" "pdrId" seid modification_request m0 with
      | (None, m1) =>
          match update_rules "FAR" "updateFar" "farId" seid modification_request m1 with
          | (None, m2) => update_rules "QER" "updateQer" "qerId" seid modification_request m2
          | failed => failed
          end
      | failed => failed
      end in
    match failed with
    | Some e =>
        (except_Exception_500 (Raise e),
         set_qos (m_qos m) (set_sessions (<[seid := m_session m]> (pfcp_sessions st)) st))
    | None =>
        (except_Exception_500
           (Return {| mr_messageType := 53; mr_cause := 1;
                      modificationsApplied := m_applied m |}),
         set_qos (m_qos m)
           (set_sessions (<[seid := touch now (m_session m)]> (pfcp_sessions st)) st))
    end
end.

Record deletion_response := { dr_messageType : Z; dr_cause : Z }.

(** [DELETE /pfcp/v1/sessions/{seid}], under the same [try]. *)
Definition pfcp_session_deletion (seid : string) (st : state)
  : outcome deletion_response * state :=
match pfcp_sessions st !! seid with
| None => (except_Exception_500 (Raise (HTTPException 404)), st)
| Some s =>
    let released :=
      foldl (λ p kv, if bool_decide (kv.1 ∈ ["ipv4"; "ipv6"])
                     then release_ip_address kv.2 p else p)
            (pool st) (allocated_ips s) in
    (except_Exception_500 (Return {| dr_messageType := 55; dr_cause := 1 |}),
     {| pfcp_sessions := delete seid (pfcp_sessions st);
        gtp_tunnels := foldl (λ m id, delete id m) (gtp_tunnels st) (s_gtp_tunnels s);
        traffic_statistics := delete seid (traffic_statistics st);
        qos_enforcement := filter (λ kv, ¬ str_in seid kv.1) (qos_enforcement st);
        pool := released;
        qos_scheduler := qos_scheduler st |})
end.

(** [POST /ipv6/allocate-prefix]: the one place that checks the allocation
    and raises 503, inside the same kind of [try]. *)
Definition allocate_ipv6_prefix (st : state) : outcome (string * string) * state :=
let '(allocated, pool') := allocate_ip_address "IPV6" (pool st) in
match dict_get "ipv6_prefix" allocated, dict_get "ipv6" allocated with
| Some prefix, Some addr => (except_Exception_500 (Return (prefix, addr)), set_pool pool' st)
| _, _ => (except_Exception_500 (Raise (HTTPException 503)), set_pool pool' st)
end.

(** A run of [POST /gtp-u/process-packet] requests, each with its clock
    reading: the statuses answered, and the state left. *)
Fixpoint process_packets (requests : list (packet_data * Z)) (st : state)
  : list (outcome string) * state :=
match requests with
| [] => ([], st)
| (d, now) :: rest =>
    let '(answer, st1) := process_packet d now st in
    let '(answers, st2) := process_packets rest st1 in
    (answer :: answers, st2)
end.

(** A packet for [tunnel_id], from a direction, a payload and a clock reading. *)
Definition on_tunnel (tunnel_id : string) (p : string * string * Z) : packet_data * Z :=
({| pd_tunnel_id := Some tunnel_id;
    pd_direction := p.1.1;
    pd_header := {| gh_teid := "87654321";
                    gh_length := Z.of_nat (String.length p.1.2);
                    sequence_number := None |};
    pd_payload := p.1.2 |}, p.2).

(** The bytes of the packets answered SUCCESS. *)
Fixpoint accepted_bytes (requests : list (packet_data * Z)) (answers : list (outcome string))
  : Z :=
match requests, answers with
| (d, _) :: rest, Return "SUCCESS" :: answers' =>
    Z.of_nat (String.length (pd_payload d)) + accepted_bytes rest answers'
| _ :: rest, _ :: answers' => accepted_bytes rest answers'
| _, _ => 0
end.

(** A run of [enforce_qos] on one tunnel and direction, each packet with its
    clock reading: the bytes of the packets it lets pass. *)
Fixpoint admitted (tunnel_id direction : string) (packets : list (GtpuPacket * Z))
    (qos : list (string * QosParameters)) (sch : scheduler) : Z :=
match packets with
| [] => 0
| (packet, now) :: rest =>
    let '(r, sch') := enforce_qos tunnel_id packet direction now qos sch in
    match r with
    | Return true => Z.of_nat (String.length (payload packet))
    | _ => 0
    end + admitted tunnel_id direction rest qos sch'
end.



(** *** The UPF as a transition system *)

(** The requests that write the UPF state, as a labelled transition. *)
Inductive request :=
| Establishment (uuid4 : nat → string) (now : Z) (r : PfcpSessionEstablishmentRequest)
| Modification (seid : string) (modification_request : list (string * json)) (now : Z)
| Deletion (seid : string)
| Packet (d : packet_data) (now : Z)
| Ipv6Prefix.

Definition handle (rq : request) (st : state) : state :=
match rq with
| Establishment uuid4 now r => (pfcp_session_establishment uuid4 now r st).2
| Modification seid body now => (pfcp_session_modification seid body now st).2
| Deletion seid => (pfcp_session_deletion seid st).2
| Packet d now => (process_packet d now st).2
| Ipv6Prefix => (allocate_ipv6_prefix st).2
end.

Definition run (hosts4 : list string) (subnets6 : list (string * string))
    (rqs : list request) : state :=
foldl (λ st rq, handle rq st) (boot hosts4 subnets6) rqs.



(** What a tunnel has counted, both directions together. *)
Definition packets_seen (s : TrafficStats) : Z := packets_ul s + packets_dl s.
Definition bytes_seen (s : TrafficStats) : Z := bytes_ul s + bytes_dl s.
Definition drops_seen (s : TrafficStats) : Z := dropped_packets_ul s + dropped_packets_dl s.

(** The answers that are ["DROPPED"], and the bytes offered. *)
Definition is_dropped (answer : outcome string) : bool :=
match answer with
| Return s => bool_decide (s = "DROPPED")
| Raise _ => false
end.
Definition dropped_answers (answers : list (outcome string)) : Z :=
Z.of_nat (length (filter is_dropped answers)).
Definition offered_bytes (requests : list (packet_data * Z)) : Z :=
foldr (λ r acc, Z.of_nat (String.length (pd_payload r.1)) + acc) 0 requests.

End Upf.

(** ** PCF: [core_network/pcf.py] *)

Module Pcf.

(** The values of [PolicyControlRequestTrigger]; a member of this [str]
    enumeration is its value. *)
Definition PolicyControlRequestTrigger_values : list string :=
["PLMN_CH"; "RES_MO_RE"; "AC_TY_CH"; "UE_IP_CH"; "UE_MAC_CH"; "AN_CH_COR"; "US_RE";
 "APP_STA"; "APP_STO"; "AN_INFO"; "CM_SES_FAIL"; "PS_DA_OFF"; "DEF_QOS_CH";
 "SE_AMBR_CH"; "QOS_NOTIF"; "NO_CREDIT"; "REALLO_OF_CREDIT"; "PRA_CH"; "SAREA_CH";
 "SCNN_CH"; "RE_TIMEOUT"; "RES_RELEASE"; "SUCC_RESOURCE_ALLO"; "RAI_CH"; "RFSP_CH";
 "PCC_UPD"].

(** [PolicyControlRequestTrigger(t)]: [ValueError] for anything that is not
    one of the values. *)
Definition PolicyControlRequestTrigger (t : json) : outcome string :=
match t with
| JStr s => if bool_decide (s ∈ PolicyControlRequestTrigger_values)
            then Return s else Raise ValueError
| _ => Raise ValueError
end.

Record Arp := {
  priority_level : Z;
  pre_emption_capability : string;
  pre_emption_vulnerability : string
}.

Record QosData := {
  qosId : string;
  fiveqi : option Z;
  maxbrUl : option string;
  maxbrDl : option string;
  gbrUl : option string;
  gbrDl : option string;
  arp : option Arp;
  priorityLevel : option Z;
  averWindow : option Z;
  maxPacketLossRateDl : option Z;
  maxPacketLossRateUl : option Z;
  qosFlowUsage : option string
}.

Record FlowInformation := { flowDescription : string; flowDirection : string }.

Record PccRule := {
  pccRuleId : string;
  flowInfos : list FlowInformation;
  appId : option string;
  pccRuleStatus : string;
  precedence : Z;
  refQosData : list string
}.

Record SmPolicyContextData := {
  cd_supi : string;
  pduSessionId : Z;
  pduSessionType : string;
  dnn : string;
  notificationUri : string;
  accessType : string;
  cd_online : option bool;
  cd_offline : option bool
}.

(** A decision.  [pccRules] and [qosDecs] are dictionaries; a [QosData] is an
    object shared with the catalogue and with other decisions, so [qosDecs]
    holds references into the heap of [QosData] objects. *)
Record SmPolicyDecision := {
  pccRules : list (string * PccRule);
  qosDecs : list (string * nat);
  online : bool;
  offline : bool;
  policyCtrlReqTriggers : list string;
  revalidationTime : Z;
  supi : string;
  suppFeat : string
}.

Record PolicyAssociation := {
  request : SmPolicyContextData;
  pa_supi : string;
  pa_notificationUri : string;
  pa_suppFeat : string
}.

Record state := {
  qos_objects : list QosData;
  qos_data_database : list (string * nat);
  pcc_rules_database : list (string * PccRule);
  sm_policy_decisions : gmap string SmPolicyDecision;
  policy_associations : gmap string PolicyAssociation
}.

Definition supported_features : string := "0x1f".

(** *** [_initialize_default_policies] *)

Definition qos_internet : QosData :=
{| qosId := "qos_internet"; fiveqi := Some 9; maxbrUl := None; maxbrDl := None;
   gbrUl := None; gbrDl := None;
   arp := Some {| priority_level := 8; pre_emption_capability := "NOT_PREEMPT";
                  pre_emption_vulnerability := "NOT_PREEMPTABLE" |};
   priorityLevel := Some 8; averWindow := None; maxPacketLossRateDl := None;
   maxPacketLossRateUl := None; qosFlowUsage := None |}.
Definition qos_ims : QosData :=
{| qosId := "qos_ims"; fiveqi := Some 5; maxbrUl := Some "256 Kbps";
   maxbrDl := Some "256 Kbps"; gbrUl := Some "128 Kbps"; gbrDl := Some "128 Kbps";
   arp := Some {| priority_level := 1; pre_emption_capability := "MAY_PREEMPT";
                  pre_emption_vulnerability := "NOT_PREEMPTABLE" |};
   priorityLevel := Some 1; averWindow := None; maxPacketLossRateDl := None;
   maxPacketLossRateUl := None; qosFlowUsage := Some "IMS_SIG" |}.
Definition qos_video : QosData :=
{| qosId := "qos_video"; fiveqi := Some 2; maxbrUl := Some "5 Mbps";
   maxbrDl := Some "25 Mbps"; gbrUl := Some "2 Mbps"; gbrDl := Some "10 Mbps";
   arp := Some {| priority_level := 4; pre_emption_capability := "NOT_PREEMPT";
                  pre_emption_vulnerability := "PREEMPTABLE" |};
   priorityLevel := Some 4; averWindow := Some 2000; maxPacketLossRateDl := Some 1;
   maxPacketLossRateUl := Some 1; qosFlowUsage := None |}.
Definition qos_gaming : QosData :=
{| qosId := "qos_gaming"; fiveqi := Some 83; maxbrUl := Some "1 Mbps";
   maxbrDl := Some "2 Mbps"; gbrUl := Some "500 Kbps"; gbrDl := Some "1 Mbps";
   arp := Some {| priority_level := 7; pre_emption_capability := "NOT_PREEMPT";
                  pre_emption_vulnerability := "PREEMPTABLE" |};
   priorityLevel := Some 7; averWindow := None; maxPacketLossRateDl := None;
   maxPacketLossRateUl := None; qosFlowUsage := None |}.
Definition qos_voice : QosData :=
{| qosId := "qos_voice"; fiveqi := Some 1; maxbrUl := None; maxbrDl := None;
   gbrUl := Some "64 Kbps"; gbrDl := Some "64 Kbps";
   arp := Some {| priority_level := 2; pre_emption_capability := "NOT_PREEMPT";
                  pre_emption_vulnerability := "NOT_PREEMPTABLE" |};
   priorityLevel := None; averWindow := None; maxPacketLossRateDl := None;
   maxPacketLossRateUl := None; qosFlowUsage := None |}.

Definition rule (id : string) (prec : Z) (app : option string)
    (flows : list FlowInformation) (qos : string) : string * PccRule :=
(id, {| pccRuleId := id; flowInfos := flows; appId := app; pccRuleStatus := "ACTIVE";
        precedence := prec; refQosData := [qos] |}).

Definition default_pcc_rules : list (string * PccRule) :=
[rule "rule_internet_default" 1000 None
   [{| flowDescription := "permit out ip from any to assigned"; flowDirection := "DOWNLINK" |};
    {| flowDescription := "permit in ip from any to assigned"; flowDirection := "UPLINK" |}]
   "qos_internet";
 rule "rule_ims_signalling" 100 None
   [{| flowDescription := "permit out 17 from any 5060 to assigned";
       flowDirection := "BIDIRECTIONAL" |}]
   "qos_ims";
 rule "rule_video_streaming" 200 (Some "video_streaming_app")
   [{| flowDescription := "permit out tcp from any 80,443 to assigned";
       flowDirection := "DOWNLINK" |}]
   "qos_video";
 rule "rule_gaming" 300 (Some "gaming_app")
   [{| flowDescription := "permit out udp from any 7000-8000 to assigned";
       flowDirection := "BIDIRECTIONAL" |}]
   "qos_gaming"].

Definition boot : state :=
{| qos_objects := [qos_internet; qos_ims; qos_video; qos_gaming];
   qos_data_database := [("qos_internet", 0); ("qos_ims", 1); ("qos_video", 2);
                         ("qos_gaming", 3)]%nat;
   pcc_rules_database := default_pcc_rules;
   sm_policy_decisions := ∅;
   policy_associations := ∅ |}.

(** [d[key]] on a dictionary of the service. *)
Definition item {V} (key : string) (d : list (string * V)) : outcome V :=
from_option Return (Raise KeyError) (dict_get key d).

(** *** [create_sm_policy_decision] *)

Definition policy_triggers : list string :=
["PLMN_CH"; "RES_MO_RE"; "AC_TY_CH"; "UE_IP_CH"; "AN_CH_COR"; "US_RE"; "APP_STA";
 "APP_STO"; "DEF_QOS_CH"; "SE_AMBR_CH"; "QOS_NOTIF"; "SUCC_RESOURCE_ALLO"; "RAI_CH";
 "PCC_UPD"].

Definition create_sm_policy_decision (now : Z) (context_data : SmPolicyContextData)
    (st : state) : outcome SmPolicyDecision :=
r0 ← item "rule_internet_default" (pcc_rules_database st);
q0 ← item "qos_internet" (qos_data_database st);
let base := ([("rule_internet_default", r0)], [("qos_internet", q0)]) in
let add (rule_id qos_id : string) :=
  r ← item rule_id (pcc_rules_database st);
  q ← item qos_id (qos_data_database st);
  mret (dict_set rule_id r base.1, dict_set qos_id q base.2) in
applicable ←
  (if decide (dnn context_data = "ims") then add "rule_ims_signalling" "qos_ims"
   else if str_in "video" (dnn context_data) then add "rule_video_streaming" "qos_video"
   else if str_in "gaming" (dnn context_data) then add "rule_gaming" "qos_gaming"
   else Return base);
mret {| pccRules := applicable.1;
        qosDecs := applicable.2;
        online := default true (cd_online context_data) || true;
        offline := default true (cd_offline context_data) || true;
        policyCtrlReqTriggers := policy_triggers;
        revalidationTime := now + 24 * 3600 * 1000000;
        supi := cd_supi context_data;
        suppFeat := supported_features |}.

(** [POST /npcf-smpolicycontrol/v1/sm-policies]; [policy_association_id] is the
    [uuid.uuid4()] of the request. *)
Definition create_sm_policy (policy_association_id : string) (now : Z)
    (context_data : SmPolicyContextData) (st : state)
  : outcome SmPolicyDecision * state :=
let association :=
  {| request := context_data; pa_supi := cd_supi context_data;
     pa_notificationUri := notificationUri context_data;
     pa_suppFeat := supported_features |} in
let st1 :=
  {| qos_objects := qos_objects st; qos_data_database := qos_data_database st;
     pcc_rules_database := pcc_rules_database st;
     sm_policy_decisions := sm_policy_decisions st;
     policy_associations :=
       <[policy_association_id := association]> (policy_associations st) |} in
match create_sm_policy_decision now context_data st1 with
| Return decision =>
    (except_Exception_500 (Return decision),
     {| qos_objects := qos_objects st1; qos_data_database := qos_data_database st1;
        pcc_rules_database := pcc_rules_database st1;
        sm_policy_decisions :=
          <[policy_association_id := decision]> (sm_policy_decisions st1);
        policy_associations := policy_associations st1 |})
| Raise e => (except_Exception_500 (Raise e), st1)
end.

(** *** [update_sm_policy_decision] *)

(** [context_updates and key in context_updates] *)
Definition has_key (key : string) (context_updates : json) : outcome bool :=
if truthy context_updates then
  match context_updates with
  | JObj o => Return (bool_decide (is_Some (dict_get key o)))
  | JList l => Return (existsb (λ v, match v with JStr s => bool_decide (s = key)
                                              | _ => false end) l)
  | JStr s => Return (str_in key s)
  | _ => Raise TypeError
  end
else Return false.

(** [v.get(key)]: only a dictionary has the method. *)
Definition get_attr (v : json) (key : string) : outcome json :=
match v with
| JObj o => Return (default JNull (dict_get key o))
| _ => Raise AttributeError
end.

(** What the triggers work on: the two dictionaries the copy shares with the
    stored decision, and the heap of [QosData] objects. *)
Record working := {
  w_pccRules : list (string * PccRule);
  w_qosDecs : list (string * nat);
  w_objects : list QosData
}.

Definition congested (q : QosData) : QosData :=
{| qosId := qosId q; fiveqi := fiveqi q;
   maxbrUl := Some "500 Kbps"; maxbrDl := Some "1 Mbps";
   gbrUl := gbrUl q; gbrDl := gbrDl q; arp := arp q; priorityLevel := priorityLevel q;
   averWindow := averWindow q; maxPacketLossRateDl := maxPacketLossRateDl q;
   maxPacketLossRateUl := maxPacketLossRateUl q; qosFlowUsage := qosFlowUsage q |}.

(** The body of the loop over the triggers, for one trigger.  The dictionaries
    are changed in place, so what was done before an exception stays. *)
Definition apply_trigger (db : state) (context_updates : json) (trigger : string)
    (w : working) : option exn * working :=
if decide (trigger = "RES_MO_RE") then
  attempt
    (present ← has_key "qos_requirements" context_updates;
     if present : bool then
       new_qos ← subscript context_updates "qos_requirements";
       q ← get_attr new_qos "fiveqi";
       if bool_decide (as_int q = Some 1) then
         mret {| w_pccRules := w_pccRules w;
                 w_qosDecs := dict_set "qos_voice" (length (w_objects w)) (w_qosDecs w);
                 w_objects := w_objects w ++ [qos_voice] |}
       else mret w
     else mret w) w
else if decide (trigger = "APP_STA") then
  match (present ← has_key "app_id" context_updates;
         if present : bool then
           app_id ← subscript context_updates "app_id";
           if str_eq_json "video_streaming_app" app_id then
             r ← item "rule_video_streaming" (pcc_rules_database db); mret (Some r)
           else mret None
         else mret None) with
  | Raise e => (Some e, w)
  | Return None => (None, w)
  | Return (Some r) =>
      let w1 := {| w_pccRules := dict_set "rule_video_streaming" r (w_pccRules w);
                   w_qosDecs := w_qosDecs w; w_objects := w_objects w |} in
      attempt
        (q ← item "qos_video" (qos_data_database db);
         mret {| w_pccRules := w_pccRules w1;
                 w_qosDecs := dict_set "qos_video" q (w_qosDecs w1);
                 w_objects := w_objects w1 |}) w1
  end
else if decide (trigger = "APP_STO") then
  match (present ← has_key "app_id" context_updates;
         if present : bool then
           app_id ← subscript context_updates "app_id";
           mret (str_eq_json "video_streaming_app" app_id
                 && bool_decide (is_Some (dict_get "rule_video_streaming" (w_pccRules w))))
         else mret false) with
  | Raise e => (Some e, w)
  | Return false => (None, w)
  | Return true =>
      let w1 := {| w_pccRules := dict_del "rule_video_streaming" (w_pccRules w);
                   w_qosDecs := w_qosDecs w; w_objects := w_objects w |} in
      attempt
        (_ ← item "qos_video" (w_qosDecs w1);
         mret {| w_pccRules := w_pccRules w1;
                 w_qosDecs := dict_del "qos_video" (w_qosDecs w1);
                 w_objects := w_objects w1 |}) w1
  end
else if decide (trigger = "QOS_NOTIF") then
  attempt
    (present ← has_key "qos_notification" context_updates;
     if present : bool then
       qos_notif ← subscript context_updates "qos_notification";
       level ← get_attr qos_notif "congestion_level";
       if str_eq_json "high" level then
         mret {| w_pccRules := w_pccRules w;
                 w_qosDecs := w_qosDecs w;
                 w_objects :=
                   foldl (λ objects kr,
                            match objects !! kr.2 with
                            | Some q => if bool_decide (fiveqi q = Some 9)
                                        then <[kr.2 := congested q]> objects else objects
                            | None => objects
                            end)
                         (w_objects w) (w_qosDecs w) |}
       else mret w
     else mret w) w
else (None, w).

Definition with_working (w : working) (revalidation : Z) (d : SmPolicyDecision)
  : SmPolicyDecision :=
{| pccRules := w_pccRules w; qosDecs := w_qosDecs w; online := online d;
   offline := offline d; policyCtrlReqTriggers := policyCtrlReqTriggers d;
   revalidationTime := revalidation; supi := supi d; suppFeat := suppFeat d |}.

Definition store (policy_association_id : string) (d : SmPolicyDecision)
    (objects : list QosData) (st : state) : state :=
{| qos_objects := objects; qos_data_database := qos_data_database st;
   pcc_rules_database := pcc_rules_database st;
   sm_policy_decisions := <[policy_association_id := d]> (sm_policy_decisions st);
   policy_associations := policy_associations st |}.

(** [update_sm_policy_decision] and the assignment of its result: the copy
    shares [pccRules] and [qosDecs] with the stored decision, so an exception
    in the loop leaves the stored decision with the changes made so far and
    its old [revalidationTime]. *)
Definition update_sm_policy_decision (policy_association_id : string)
    (triggers : list string) (context_updates : json) (now : Z) (st : state)
  : outcome SmPolicyDecision * state :=
match sm_policy_decisions st !! policy_association_id with
| None => (Raise ValueError, st)
| Some current_decision =>
    let w0 := {| w_pccRules := pccRules current_decision;
                 w_qosDecs := qosDecs current_decision;
                 w_objects := qos_objects st |} in
    match for_each (apply_trigger st context_updates) triggers w0 with
    | (Some e, w) =>
        (Raise e,
         store policy_association_id
           (with_working w (revalidationTime current_decision) current_decision)
           (w_objects w) st)
    | (None, w) =>
        let updated_decision :=
          with_working w (now + 24 * 3600 * 1000000) current_decision in
        (Return updated_decision,
         store policy_association_id updated_decision (w_objects w) st)
    end
end.

(** [[PolicyControlRequestTrigger(t) for t in update_data["triggers"]]] *)
Definition parse_triggers (update_data : option (list (string * json)))
  : outcome (list string) :=
match update_data ≫= dict_get "triggers" with
| Some v => items ← iterate v; mapM PolicyControlRequestTrigger items
| None => Return []
end.

(** [PATCH /npcf-smpolicycontrol/v1/sm-policies/{smPolicyId}].  The 404, the
    parsing of the triggers and the update are all inside
    [try: ... except Exception as e: raise HTTPException(500, ...)]. *)
Definition update_sm_policy (smPolicyId : string)
    (update_data : option (list (string * json))) (now : Z) (st : state)
  : outcome SmPolicyDecision * state :=
match sm_policy_decisions st !! smPolicyId with
| None => (except_Exception_500 (Raise (HTTPException 404)), st)
| Some _ =>
    match parse_triggers update_data with
    | Raise e => (except_Exception_500 (Raise e), st)
    | Return triggers =>
        let context_updates :=
          default (JObj []) (update_data ≫= dict_get "context_updates") in
        let '(r, st') :=
          update_sm_policy_decision smPolicyId triggers context_updates now st in
        (except_Exception_500 r, st')
    end
end.

(** [GET /npcf-smpolicycontrol/v1/sm-policies/{smPolicyId}], outside any [try]. *)
Definition get_sm_policy (smPolicyId : string) (st : state) : outcome SmPolicyDecision :=
from_option Return (Raise (HTTPException 404)) (sm_policy_decisions st !! smPolicyId).

(** Reading a stored decision: its rule ids, and the 5QI of one of its QoS. *)
Definition rule_ids (smPolicyId : string) (st : state) : list string :=
match sm_policy_decisions st !! smPolicyId with
| Some d => dict_keys (pccRules d)
| None => []
end.
Definition qos_fiveqi (smPolicyId qos_id : string) (st : state) : option Z :=
match sm_policy_decisions st !! smPolicyId with
| Some d =>
    match dict_get qos_id (qosDecs d) with
    | Some ref => match qos_objects st !! ref with Some q => fiveqi q | None => None end
    | None => None
    end
| None => None
end.

(** *** Deletion and the catalogue endpoints *)

(** [DELETE /npcf-smpolicycontrol/v1/sm-policies/{smPolicyId}], the 404
    inside the [try] like the others. *)
Definition delete_sm_policy (smPolicyId : string) (st : state) : outcome unit * state :=
match sm_policy_decisions st !! smPolicyId with
| None => (except_Exception_500 (Raise (HTTPException 404)), st)
| Some _ =>
    (Return (),
     {| qos_objects := qos_objects st; qos_data_database := qos_data_database st;
        pcc_rules_database := pcc_rules_database st;
        sm_policy_decisions := delete smPolicyId (sm_policy_decisions st);
        policy_associations := delete smPolicyId (policy_associations st) |})
end.

(** [POST /pcf/pcc-rules] *)
Definition create_pcc_rule (pcc_rule : PccRule) (st : state) : outcome string * state :=
match dict_get (pccRuleId pcc_rule) (pcc_rules_database st) with
| Some _ => (Raise (HTTPException 409), st)
| None =>
    (Return (pccRuleId pcc_rule),
     {| qos_objects := qos_objects st; qos_data_database := qos_data_database st;
        pcc_rules_database :=
          dict_set (pccRuleId pcc_rule) pcc_rule (pcc_rules_database st);
        sm_policy_decisions := sm_policy_decisions st;
        policy_associations := policy_associations st |})
end.

(** [POST /pcf/qos-data]: the new object joins the heap. *)
Definition create_qos_data (qos_data : QosData) (st : state) : outcome string * state :=
match dict_get (qosId qos_data) (qos_data_database st) with
| Some _ => (Raise (HTTPException 409), st)
| None =>
    (Return (qosId qos_data),
     {| qos_objects := qos_objects st ++ [qos_data];
        qos_data_database :=
          dict_set (qosId qos_data) (length (qos_objects st)) (qos_data_database st);
        pcc_rules_database := pcc_rules_database st;
        sm_policy_decisions := sm_policy_decisions st;
        policy_associations := policy_associations st |})
end.

(** The requests that write the PCF state ([request] is a field of the
    policy association). *)
Inductive operation :=
| CreateSmPolicy (policy_association_id : string) (now : Z)
                 (context_data : SmPolicyContextData)
| UpdateSmPolicy (smPolicyId : string) (update_data : option (list (string * json)))
                 (now : Z)
| DeleteSmPolicy (smPolicyId : string)
| CreatePccRule (pcc_rule : PccRule)
| CreateQosData (qos_data : QosData).

Definition handle (rq : operation) (st : state) : state :=
match rq with
| CreateSmPolicy id now context_data => (create_sm_policy id now context_data st).2
| UpdateSmPolicy id update_data now => (update_sm_policy id update_data now st).2
| DeleteSmPolicy id => (delete_sm_policy id st).2
| CreatePccRule pcc_rule => (create_pcc_rule pcc_rule st).2
| CreateQosData qos_data => (create_qos_data qos_data st).2
end.

Definition run (rqs : list operation) : state := foldl (λ st rq, handle rq st) boot rqs.

(** The rules of a decision are rules of the default catalogue under their
    own identifiers, and every QoS reference of a rule is a key of the QoS
    decisions. *)
Definition rules_resolve (rules : list (string * PccRule)) (qos : list (string * nat))
  : Prop :=
∀ k r, dict_get k rules = Some r →
  dict_get k default_pcc_rules = Some r
  ∧ ∀ q, q ∈ refQosData r → is_Some (dict_get q qos).

(** The catalogue keeps its default entries. *)
Definition catalogue_kept (st : state) : Prop :=
(∀ k r, dict_get k default_pcc_rules = Some r → dict_get k (pcc_rules_database st) = Some r)
∧ (∀ q, q ∈ ["qos_internet"; "qos_ims"; "qos_video"; "qos_gaming"] →
        is_Some (dict_get q (qos_data_database st))).

Definition decisions_resolve (st : state) : Prop :=
catalogue_kept st
∧ map_Forall (λ _ d, rules_resolve (pccRules d) (qosDecs d)) (sm_policy_decisions st).

(** The updates of the policy scenario: the video application starts, and
    stops. *)
Definition app_update (trigger : string) : option (list (string * json)) :=
Some [("triggers", JList [JStr trigger]);
      ("context_updates", JObj [("app_id", JStr "video_streaming_app")])].

End Pcf.

(** ** NRF: [core_network/nrf.py] *)

Module Nrf.

Inductive NFType :=
| NRF | UDM | AMF | SMF | AUSF | NEF | PCF | SMSF | NSSF | UDR | LMF | GMLC | UPF
| N3IWF | AF | UDSF | BSF | CHF.

Inductive NFStatus := REGISTERED | UNDISCOVERABLE | SUSPENDED.

#[global] Instance NFType_eq_dec : EqDecision NFType.
Proof. solve_decision. Defined.
#[global] Instance NFStatus_eq_dec : EqDecision NFStatus.
Proof. solve_decision. Defined.

Record PlmnId := { mcc : string; mnc : string }.
Record Snssai := { sst : Z; sd : option string }.
Record NFService := { serviceInstanceId : string; serviceName : string }.

Record NFProfile := {
  nfInstanceId : string;
  nfType : NFType;
  nfStatus : NFStatus;
  plmnList : option (list PlmnId);
  sNssais : option (list Snssai);
  allowedNfTypes : option (list NFType);
  priority : option Z;
  capacity : option Z;
  load : option Z;
  nfServices : option (list NFService)
}.

(** [x and y] on two optional lists: both given and non-empty. *)
Definition both {A B} (x : option (list A)) (y : option (list B))
  : option (list A * list B) :=
match x, y with
| Some ((_ :: _) as a), Some ((_ :: _) as b) => Some (a, b)
| _, _ => None
end.

(** The filters of the loop body before the status test: [true] when the
    profile is not skipped by a [continue]. *)
Definition passes_filters
    (target_nf_type requester_nf_type : option NFType)
    (service_names : option (list string))
    (snssais : option (list Snssai)) (plmn_list : option (list PlmnId))
    (nf_profile : NFProfile) : bool :=
match target_nf_type with
| Some t => bool_decide (nfType nf_profile = t)
| None => true
end
&& match requester_nf_type, allowedNfTypes nf_profile with
   | Some r, Some ((_ :: _) as allowed) => bool_decide (r ∈ allowed)
   | _, _ => true
   end
&& match both service_names (nfServices nf_profile) with
   | Some (names, services) =>
       existsb (λ service, bool_decide (serviceName service ∈ names)) services
   | None => true
   end
&& match both snssais (sNssais nf_profile) with
   | Some (targets, own) =>
       existsb (λ target_snssai,
                  existsb (λ nf_snssai,
                             bool_decide (sst target_snssai = sst nf_snssai)
                             && bool_decide (sd target_snssai = sd nf_snssai)) own)
               targets
   | None => true
   end
&& match both plmn_list (plmnList nf_profile) with
   | Some (targets, own) =>
       existsb (λ target_plmn,
                  existsb (λ nf_plmn,
                             bool_decide (mcc target_plmn = mcc nf_plmn)
                             && bool_decide (mnc target_plmn = mnc nf_plmn)) own)
               targets
   | None => true
   end.

(** The sort key [(nf.priority or 0, -(nf.capacity or 0))]. *)
Definition sort_key (nf : NFProfile) : Z * Z :=
(default 0 (priority nf), - default 0 (capacity nf)).

(** [a <= b] on two such tuples. *)
Definition key_le (a b : Z * Z) : Prop := a.1 < b.1 ∨ (a.1 = b.1 ∧ a.2 ≤ b.2).

#[global] Instance key_le_dec (a b : Z * Z) : Decision (key_le a b).
Proof. unfold key_le. apply _. Defined.

(** [list.sort(key=...)] is stable: an element goes before the first element
    it does not exceed among those that followed it. *)
Fixpoint insert_by_key (x : NFProfile) (l : list NFProfile) : list NFProfile :=
match l with
| [] => [x]
| y :: rest =>
    if decide (key_le (sort_key x) (sort_key y)) then x :: y :: rest
    else y :: insert_by_key x rest
end.
Definition sort_by_key (l : list NFProfile) : list NFProfile := foldr insert_by_key [] l.

(** [l[:n]] *)
Definition slice_to {A} (n : Z) (l : list A) : list A :=
if decide (0 ≤ n) then take (Z.to_nat n) l
else take (Z.to_nat (Z.of_nat (length l) + n)) l.

(** [NRF.find_nf_instances] over [nf_profiles], a dictionary in insertion
    order.  [dnn] is accepted and not used. *)
Definition find_nf_instances (nf_profiles : list (string * NFProfile))
    (target_nf_type requester_nf_type : option NFType)
    (service_names : option (list string))
    (snssais : option (list Snssai)) (plmn_list : option (list PlmnId))
    (dnn : option string) (limit : option Z) : list NFProfile :=
let filtered_nfs :=
  filter (λ nf_profile,
            passes_filters target_nf_type requester_nf_type service_names snssais
                           plmn_list nf_profile
            ∧ nfStatus nf_profile = REGISTERED)
         nf_profiles.*2 in
let sorted := sort_by_key filtered_nfs in
match limit with
| Some n => if decide (n = 0) then sorted else slice_to n sorted
| None => sorted
end.

(** Ascending by priority, then descending by capacity, an absent value
    counting as 0. *)
Definition discovery_order (a b : NFProfile) : Prop :=
default 0 (priority a) < default 0 (priority b)
∨ (default 0 (priority a) = default 0 (priority b)
   ∧ default 0 (capacity b) ≤ default 0 (capacity a)).

(** *** Management of the registry *)

(** The values of the [NFType] enumeration. *)
Definition NFType_values : list (string * NFType) :=
[("NRF", NRF); ("UDM", UDM); ("AMF", AMF); ("SMF", SMF); ("AUSF", AUSF); ("NEF", NEF);
 ("PCF", PCF); ("SMSF", SMSF); ("NSSF", NSSF); ("UDR", UDR); ("LMF", LMF);
 ("GMLC", GMLC); ("UPF", UPF); ("N3IWF", N3IWF); ("AF", AF); ("UDSF", UDSF);
 ("BSF", BSF); ("CHF", CHF)].

(** [NFType(value)] on a [str]. *)
Definition NFType_of (value : string) : outcome NFType :=
from_option Return (Raise ValueError) (dict_get value NFType_values).

(** [PUT /nnrf-nfm/v1/nf-instances/{nfInstanceId}], the bearer token
    verified; the profile is the validated body, if any. *)
Definition register_nf_instance (nfInstanceId : string) (nf_profile : option NFProfile)
    (nf_profiles : list (string * NFProfile))
  : outcome NFProfile * list (string * NFProfile) :=
match nf_profile with
| None => (except_HTTPException_reraise (Raise (HTTPException 400)), nf_profiles)
| Some profile =>
    if decide (Nrf.nfInstanceId profile ≠ nfInstanceId)
    then (except_HTTPException_reraise (Raise (HTTPException 400)), nf_profiles)
    else (Return profile, dict_set nfInstanceId profile nf_profiles)
end.

(** [GET /nnrf-nfm/v1/nf-instances/{nfInstanceId}] *)
Definition get_nf_instance (nfInstanceId : string) (nf_profiles : list (string * NFProfile))
  : outcome NFProfile :=
from_option Return (Raise (HTTPException 404)) (dict_get nfInstanceId nf_profiles).

(** [DELETE /nnrf-nfm/v1/nf-instances/{nfInstanceId}] *)
Definition deregister_nf_instance (nfInstanceId : string)
    (nf_profiles : list (string * NFProfile))
  : outcome unit * list (string * NFProfile) :=
match dict_get nfInstanceId nf_profiles with
| Some _ => (Return (), dict_del nfInstanceId nf_profiles)
| None => (Raise (HTTPException 404), nf_profiles)
end.

(** The body of [POST /register] as the network functions of the emulator
    send it: [nf_type] and [ip] are [str] and [port] is an [int], each
    possibly absent. *)
Record legacy_nf_data := {
  nf_type : option string;
  ip : option string;
  port : option Z
}.

(** [c.lower()] on an ASCII character. *)
Definition ascii_lower (c : Ascii.ascii) : Ascii.ascii :=
let n := Ascii.nat_of_ascii c in
if bool_decide (65 ≤ n ≤ 90)%nat then Ascii.ascii_of_nat (n + 32) else c.
Fixpoint lower (s : string) : string :=
match s with
| EmptyString => EmptyString
| String c rest => String (ascii_lower c) (lower rest)
end.

(** [POST /register]; [uuid] is the [uuid.uuid4()] of the request.  The
    profile is built and validated ([NFType(...)], the port within
    1..65535) and stored under [uuid], all inside
    [try: ... except Exception: raise HTTPException(500, ...)]. *)
Definition legacy_register_nf (uuid : string) (nf_data : legacy_nf_data)
    (nf_profiles : list (string * NFProfile))
  : outcome string * list (string * NFProfile) :=
let built :=
  t ← NFType_of (default "AMF" (nf_type nf_data));
  let p := default 8080 (port nf_data) in
  if bool_decide (1 ≤ p ≤ 65535) then
    mret {| nfInstanceId := uuid; nfType := t; nfStatus := REGISTERED;
            plmnList := None; sNssais := None; allowedNfTypes := None;
            priority := None; capacity := None; load := None;
            nfServices :=
              Some [{| serviceInstanceId :=
                         default "unknown" (nf_type nf_data) +:+ "-service-001";
                       serviceName :=
                         "n" +:+ lower (default "unknown" (nf_type nf_data))
                         +:+ "-service" |}] |}
  else Raise ValueError in
match built with
| Return nf_profile =>
    (Return (default "None" (nf_type nf_data) +:+ " registered successfully"),
     dict_set uuid nf_profile nf_profiles)
| Raise e => (except_Exception_500 (Raise e), nf_profiles)
end.

(** The requests that write the registry, the bearer token verified. *)
Inductive request :=
| Register (nfInstanceId : string) (nf_profile : option NFProfile)
| LegacyRegister (uuid : string) (nf_data : legacy_nf_data)
| Deregister (nfInstanceId : string).

Definition handle (rq : request) (nf_profiles : list (string * NFProfile))
  : list (string * NFProfile) :=
match rq with
| Register id p => (register_nf_instance id p nf_profiles).2
| LegacyRegister uuid d => (legacy_register_nf uuid d nf_profiles).2
| Deregister id => (deregister_nf_instance id nf_profiles).2
end.

Definition run (rqs : list request) : list (string * NFProfile) :=
foldl (λ nf_profiles rq, handle rq nf_profiles) [] rqs.

(** Every profile is stored under its own identifier. *)
Definition keyed_by_id (nf_profiles : list (string * NFProfile)) : Prop :=
Forall (λ kp, nfInstanceId kp.2 = kp.1) nf_profiles.

End Nrf.

(** ** DU, the RLC layer: [ran/du.py] *)

Module Du.

Record RlcHeader := { sn : Z; so : option Z; si : string; p : bool }.

Record RlcPdu := {
  header : RlcHeader;
  payload : string;
  mode : string;
  bearer_id : Z;
  timestamp : Z
}.

(** One RLC AM entity (TS 38.322 state variables). *)
Record am_entity := {
  tx_window : gmap Z RlcPdu;
  rx_window : gmap Z RlcPdu;
  vt_s : Z;
  vt_a : Z;
  vr_r : Z;
  vr_mr : Z;
  poll_sn : Z;
  poll_byte : Z;
  byte_without_poll : Z;
  pdu_without_poll : Z;
  t_poll_retransmit : Z;
  t_reassembly : Z;
  t_status_prohibit : Z;
  max_retx_threshold : Z;
  sn_field_length : Z
}.

(** [am_entities].  Its keys are the strings [f"am_{ue_id}_{bearer_id}"] that
    [create_am_entity] builds, so it is keyed by the pair [(ue_id, bearer_id)]
    and [int(entity_id.split("_")[2])] is the second component. *)
Definition entity_id : Type := Z * Z.

Definition new_am_entity : am_entity :=
{| tx_window := ∅; rx_window := ∅; vt_s := 0; vt_a := 0; vr_r := 0; vr_mr := 2048;
   poll_sn := -1; poll_byte := 0; byte_without_poll := 0; pdu_without_poll := 0;
   t_poll_retransmit := 250; t_reassembly := 200; t_status_prohibit := 10;
   max_retx_threshold := 4; sn_field_length := 12 |}.

(** [RlcLayer.create_am_entity] *)
Definition create_am_entity (bearer ue : Z) (am_entities : gmap entity_id am_entity)
  : entity_id * gmap entity_id am_entity :=
((ue, bearer), <[(ue, bearer) := new_am_entity]> am_entities).

(** [RlcLayer.transmit_am_pdu]; [now] is the PDU's default timestamp. *)
Definition transmit_am_pdu (id : entity_id) (sdu : string) (now : Z)
    (am_entities : gmap entity_id am_entity)
  : outcome RlcPdu * gmap entity_id am_entity :=
match am_entities !! id with
| None => (Raise ValueError, am_entities)
| Some entity =>
    let rlc_pdu :=
      {| header := {| sn := vt_s entity; so := None; si := "COMPLETE";
                      p := bool_decide (4 ≤ pdu_without_poll entity) |};
         payload := sdu; mode := "AM"; bearer_id := id.2; timestamp := now |} in
    (Return rlc_pdu,
     <[id := {| tx_window := <[vt_s entity := rlc_pdu]> (tx_window entity);
                rx_window := rx_window entity;
                vt_s := (vt_s entity + 1) `mod` (2 ^ sn_field_length entity);
                vt_a := vt_a entity; vr_r := vr_r entity; vr_mr := vr_mr entity;
                poll_sn := poll_sn entity; poll_byte := poll_byte entity;
                byte_without_poll := byte_without_poll entity;
                pdu_without_poll := pdu_without_poll entity + 1;
                t_poll_retransmit := t_poll_retransmit entity;
                t_reassembly := t_reassembly entity;
                t_status_prohibit := t_status_prohibit entity;
                max_retx_threshold := max_retx_threshold entity;
                sn_field_length := sn_field_length entity |}]> am_entities)
end.

(** [RlcLayer._is_in_receive_window] *)
Definition _is_in_receive_window (sn vr_r vr_mr : Z) : bool :=
if decide (vr_r ≤ vr_mr) then bool_decide (vr_r ≤ sn ∧ sn < vr_mr)
else bool_decide (vr_r ≤ sn ∨ sn < vr_mr).

Definition received (rx : gmap Z RlcPdu) (r : Z) (entity : am_entity) : am_entity :=
{| tx_window := tx_window entity; rx_window := rx;
   vt_s := vt_s entity; vt_a := vt_a entity; vr_r := r; vr_mr := vr_mr entity;
   poll_sn := poll_sn entity; poll_byte := poll_byte entity;
   byte_without_poll := byte_without_poll entity;
   pdu_without_poll := pdu_without_poll entity;
   t_poll_retransmit := t_poll_retransmit entity;
   t_reassembly := t_reassembly entity;
   t_status_prohibit := t_status_prohibit entity;
   max_retx_threshold := max_retx_threshold entity;
   sn_field_length := sn_field_length entity |}.

(** [RlcLayer.receive_am_pdu]: the SDU handed to the upper layer, if any. *)
Definition receive_am_pdu (id : entity_id) (rlc_pdu : RlcPdu)
    (am_entities : gmap entity_id am_entity)
  : outcome (option string) * gmap entity_id am_entity :=
match am_entities !! id with
| None => (Raise ValueError, am_entities)
| Some entity =>
    let sn := sn (header rlc_pdu) in
    if _is_in_receive_window sn (vr_r entity) (vr_mr entity) then
      let rx := <[sn := rlc_pdu]> (rx_window entity) in
      if decide (sn = vr_r entity) then
        (Return (Some (payload rlc_pdu)),
         <[id := received rx ((vr_r entity + 1) `mod` (2 ^ sn_field_length entity)) entity]>
           am_entities)
      else (Return None, <[id := received rx (vr_r entity) entity]> am_entities)
    else (Return None, am_entities)
end.

(** The SDUs in order through [transmit_am_pdu]: the PDUs made. *)
Fixpoint transmit_all (id : entity_id) (sdus : list string)
    (am_entities : gmap entity_id am_entity) : list RlcPdu :=
match sdus with
| [] => []
| sdu :: rest =>
    match transmit_am_pdu id sdu 0 am_entities with
    | (Return pdu, am') => pdu :: transmit_all id rest am'
    | (Raise _, _) => []
    end
end.

(** The PDUs in arrival order through [receive_am_pdu]: what each call
    handed up, and the entities left. *)
Fixpoint receive_all (id : entity_id) (pdus : list RlcPdu)
    (am_entities : gmap entity_id am_entity)
  : list (option string) * gmap entity_id am_entity :=
match pdus with
| [] => ([], am_entities)
| pdu :: rest =>
    let '(r, am1) := receive_am_pdu id pdu am_entities in
    let '(rs, am2) := receive_all id rest am1 in
    (match r with Return v => v | Raise _ => None end :: rs, am2)
end.

(** The SDUs released to the upper layer, in the order of their release. *)
Definition released (handed : list (option string)) : list string := omap id handed.

(** The PDUs, among those arriving, whose SDU the call they arrived in
    handed up. *)
Fixpoint handed_up (id : entity_id) (pdus : list RlcPdu)
    (am_entities : gmap entity_id am_entity) : list RlcPdu :=
match pdus with
| [] => []
| pdu :: rest =>
    let '(r, am1) := receive_am_pdu id pdu am_entities in
    match r with
    | Return (Some _) => pdu :: handed_up id rest am1
    | _ => handed_up id rest am1
    end
end.

(** The state variables an entity of [create_am_entity] keeps while it
    receives: VR(R) at [r], the window end at 2048, the SN field at 12 bits. *)
Definition receiving (r : Z) (e : am_entity) : Prop :=
vr_r e = r ∧ vr_mr e = 2048 ∧ sn_field_length e = 12.

(** *** MAC: HARQ feedback *)





(** *** PDCP *)

Record PdcpHeader := { pdcp_sn : Z; r : bool }.

Record PdcpPdu := {
  pdcp_header : PdcpHeader;
  pdcp_payload : string;
  pdcp_bearer_id : Z;
  integrity_protected : bool;
  ciphered : bool;
  pdcp_timestamp : Z
}.

(** One PDCP entity. *)
Record pdcp_entity := {
  tx_count : Z;
  rx_count : Z;
  hfn : Z;
  sn_size : Z;
  integrity_algorithm : string;
  ciphering_algorithm : string;
  integrity_key : string;
  ciphering_key : string;
  rohc_enabled : bool;
  discard_timer : option Z
}.

(** [PdcpLayer.create_entity]; the key [f"pdcp_{ue_id}_{bearer_id}"] is the
    pair [(ue_id, bearer_id)], as for the RLC entities. *)
Definition create_entity (bearer ue : Z) (bearer_type : string)
    (entities : gmap entity_id pdcp_entity) : entity_id * gmap entity_id pdcp_entity :=
((ue, bearer),
 <[(ue, bearer) :=
     {| tx_count := 0; rx_count := 0; hfn := 0;
        sn_size := if decide (bearer_type = "DRB") then 12 else 5;
        integrity_algorithm := "NIA2"; ciphering_algorithm := "NEA2";
        integrity_key := "placeholder_integrity_key";
        ciphering_key := "placeholder_ciphering_key";
        rohc_enabled := bool_decide (bearer_type = "DRB");
        discard_timer := if decide (bearer_type = "DRB") then Some 100 else None |}]>
   entities).

(** [s.replace(old, "")] for a non-empty [old]: the occurrences of [old] are
    found from left to right without overlap and left out.  [skip] counts
    the characters of an occurrence still to be passed. *)
Fixpoint replace_go (old : string) (skip : nat) (s : string) : string :=
match s with
| EmptyString => EmptyString
| String c rest =>
    match skip with
    | S k => replace_go old k rest
    | O => if String.prefix old s
           then replace_go old (Nat.pred (String.length old)) rest
           else String c (replace_go old 0 rest)
    end
end.
Definition remove_all (old s : string) : string := replace_go old 0 s.

Definition _apply_rohc_compression (data : string) : string := "compressed_" +:+ data.
Definition _apply_rohc_decompression (data : string) : string :=
remove_all "compressed_" data.
Definition _apply_ciphering (data : string) (entity : pdcp_entity) : string :=
"ciphered_" +:+ data.
Definition _apply_deciphering (data : string) (entity : pdcp_entity) : string :=
remove_all "ciphered_" data.

Definition _apply_integrity_protection (pdcp_pdu : PdcpPdu) (entity : pdcp_entity)
  : PdcpPdu :=
{| pdcp_header := pdcp_header pdcp_pdu; pdcp_payload := pdcp_payload pdcp_pdu;
   pdcp_bearer_id := pdcp_bearer_id pdcp_pdu; integrity_protected := true;
   ciphered := ciphered pdcp_pdu; pdcp_timestamp := pdcp_timestamp pdcp_pdu |}.
Definition _verify_integrity_protection (pdcp_pdu : PdcpPdu) (entity : pdcp_entity)
  : bool :=
integrity_protected pdcp_pdu.

Definition with_counts (tx rx : Z) (entity : pdcp_entity) : pdcp_entity :=
{| tx_count := tx; rx_count := rx; hfn := hfn entity; sn_size := sn_size entity;
   integrity_algorithm := integrity_algorithm entity;
   ciphering_algorithm := ciphering_algorithm entity;
   integrity_key := integrity_key entity; ciphering_key := ciphering_key entity;
   rohc_enabled := rohc_enabled entity; discard_timer := discard_timer entity |}.

(** [PdcpLayer.transmit_pdu]; [now] is the PDU's default timestamp. *)
Definition transmit_pdu (id : entity_id) (sdu : string) (now : Z)
    (entities : gmap entity_id pdcp_entity)
  : outcome PdcpPdu * gmap entity_id pdcp_entity :=
match entities !! id with
| None => (Raise ValueError, entities)
| Some entity =>
    let payload := if rohc_enabled entity then _apply_rohc_compression sdu else sdu in
    let payload := if decide (ciphering_algorithm entity ≠ "NEA0")
                   then _apply_ciphering payload entity else payload in
    let pdcp_pdu :=
      {| pdcp_header := {| pdcp_sn := tx_count entity `mod` (2 ^ sn_size entity);
                           r := false |};
         pdcp_payload := payload;
         pdcp_bearer_id := id.2;
         integrity_protected := bool_decide (integrity_algorithm entity ≠ "NIA0");
         ciphered := bool_decide (ciphering_algorithm entity ≠ "NEA0");
         pdcp_timestamp := now |} in
    let pdcp_pdu := if decide (integrity_algorithm entity ≠ "NIA0")
                    then _apply_integrity_protection pdcp_pdu entity else pdcp_pdu in
    (Return pdcp_pdu,
     <[id := with_counts (tx_count entity + 1) (rx_count entity) entity]> entities)
end.

(** [PdcpLayer.receive_pdu]: the SDU delivered, if any. *)
Definition receive_pdu (id : entity_id) (pdcp_pdu : PdcpPdu)
    (entities : gmap entity_id pdcp_entity)
  : outcome (option string) * gmap entity_id pdcp_entity :=
match entities !! id with
| None => (Raise ValueError, entities)
| Some entity =>
    if bool_decide (integrity_algorithm entity ≠ "NIA0")
       && negb (_verify_integrity_protection pdcp_pdu entity)
    then (Return None, entities)
    else
      let payload := pdcp_payload pdcp_pdu in
      let payload := if decide (ciphering_algorithm entity ≠ "NEA0")
                     then _apply_deciphering payload entity else payload in
      let payload := if rohc_enabled entity
                     then _apply_rohc_decompression payload else payload in
      (Return (Some payload),
       <[id := with_counts (tx_count entity) (rx_count entity + 1) entity]> entities)
end.

(** An SDU sent by the entity [id] and received by it from the PDU made. *)
Definition through_pdcp (id : entity_id) (sdu : string) (now : Z)
    (entities : gmap entity_id pdcp_entity) : outcome (option string) :=
let '(sent, entities') := transmit_pdu id sdu now entities in
pdcp_pdu ← sent; (receive_pdu id pdcp_pdu entities').1.

(** *** Start-up and the protocol-stack endpoints *)

(** The layers of [du_instance] that hold entities. *)
Record layers := {
  am_entities : gmap entity_id am_entity;
  pdcp_entities : gmap entity_id pdcp_entity
}.

(** What [lifespan] posts to the NRF's [/register]. *)
Definition nf_registration : Nrf.legacy_nf_data :=
{| Nrf.nf_type := Some "gNB-DU"; Nrf.ip := Some "127.0.0.1"; Nrf.port := Some 38473 |}.

(** The entities [lifespan] creates for one UE. *)
Definition create_entities_of (ue_id : Z) (l : layers) : layers :=
let am := (create_am_entity 2 ue_id (create_am_entity 1 ue_id (am_entities l)).2).2 in
let pdcp :=
  (create_entity 5 ue_id "DRB"
     (create_entity 2 ue_id "SRB"
        (create_entity 1 ue_id "SRB" (pdcp_entities l)).2).2).2 in
{| am_entities := am; pdcp_entities := pdcp |}.

(** [lifespan], start-up: the entities exist when the registration at the
    NRF went through.  [nrf_status] is the status of the NRF's answer,
    [None] when there was none; [raise_for_status] raises on 4xx and 5xx,
    and the [except requests.RequestException] skips the loop. *)
Definition lifespan (nrf_status : option Z) : layers :=
let none := {| am_entities := ∅; pdcp_entities := ∅ |} in
match nrf_status with
| Some status =>
    if bool_decide (400 ≤ status < 600) then none
    else foldl (λ l ue_id, create_entities_of ue_id l) none [1; 2; 3; 4]
| None => none
end.

(** The bodies of [/rlc/process-sdu] and [/pdcp/process-sdu] with integer
    [ue_id] and [bearer_id]; [sdu] is any JSON value, [None] when absent. *)
Record sdu_data := { ue_id : Z; sd_bearer_id : Z; sdu : json }.

(** [POST /rlc/process-sdu]: the [rlc_sn] of the answer.  The payload of
    the PDU is validated as a [str]. *)
Definition process_rlc_sdu (rlc_data : sdu_data) (now : Z) (l : layers)
  : outcome Z * layers :=
let id := (ue_id rlc_data, sd_bearer_id rlc_data) in
match am_entities l !! id, Ausf.str_field (sdu rlc_data) with
| Some _, Return payload =>
    let '(sent, am) := transmit_am_pdu id payload now (am_entities l) in
    (except_Exception_500 (sn ∘ header <$> sent),
     {| am_entities := am; pdcp_entities := pdcp_entities l |})
| _, _ => (except_Exception_500 (Raise ValueError), l)
end.

(** [POST /pdcp/process-sdu]: the [pdcp_sn] of the answer.  The markers
    are prepended by [f"..._{data}"], so the SDU is formatted; an entity
    that neither compresses nor ciphers would pass it on to the validation
    of the PDU, and every entity of [create_entity] ciphers. *)
Definition process_pdcp_sdu (py_repr : json → string) (pdcp_data : sdu_data) (now : Z)
    (l : layers) : outcome Z * layers :=
let id := (ue_id pdcp_data, sd_bearer_id pdcp_data) in
match pdcp_entities l !! id with
| Some entity =>
    let formatted :=
      if rohc_enabled entity || bool_decide (ciphering_algorithm entity ≠ "NEA0")
      then Return (py_str py_repr (sdu pdcp_data))
      else Ausf.str_field (sdu pdcp_data) in
    match formatted with
    | Return payload =>
        let '(sent, pdcp) := transmit_pdu id payload now (pdcp_entities l) in
        (except_Exception_500 (pdcp_sn ∘ pdcp_header <$> sent),
         {| am_entities := am_entities l; pdcp_entities := pdcp |})
    | Raise e => (except_Exception_500 (Raise e), l)
    end
| None => (except_Exception_500 (Raise ValueError), l)
end.

(** The requests to the two endpoints. *)
Inductive request :=
| RlcSdu (rlc_data : sdu_data) (now : Z)
| PdcpSdu (pdcp_data : sdu_data) (now : Z).

Definition answer (py_repr : json → string) (rq : request) (l : layers)
  : outcome Z * layers :=
match rq with
| RlcSdu d now => process_rlc_sdu d now l
| PdcpSdu d now => process_pdcp_sdu py_repr d now l
end.

(** The statuses answered to a run of requests. *)
Fixpoint statuses (py_repr : json → string) (rqs : list request) (l : layers) : list Z :=
match rqs with
| [] => []
| rq :: rest =>
    http_status (answer py_repr rq l).1 :: statuses py_repr rest (answer py_repr rq l).2
end.

End Du.

(** ** UDM: [core_network/udm.py], the authentication service *)

Module Udm.

Record AuthenticationSubscription := {
  authenticationMethod : string;
  encPermanentKey : option string;
  sequenceNumber : option string;
  authenticationManagementField : option string;
  algorithmId : option string
}.

Record AuthenticationVector := {
  rand : string; xres : string; autn : string; kausf : string
}.

Record AuthEvent := {
  nfInstanceId : string;
  success : bool;
  timeStamp : Z;
  authType : string;
  servingNetworkName : string
}.

Record state := {
  authentication_subscriptions : gmap string AuthenticationSubscription;
  authentication_events : gmap string (list AuthEvent)
}.

(** What [secrets.token_hex] returns in one call of
    [generate_authentication_vector]: the challenge, and the key drawn when
    the subscription has none. *)
Record entropy := { e_rand : string; e_key : string }.

Section Handlers.

(** [hashlib.sha256(s.encode()).hexdigest()] *)
Variable sha256_hex : string → string.

(** [UDM.generate_authentication_vector]; [None] for an unknown SUPI.  The
    serving network name is what [auth_request.get] returned, and is
    concatenated to two [str]. *)
Definition generate_authentication_vector (e : entropy) (supi : string)
    (serving_network_name : json) (st : state) : outcome (option AuthenticationVector) :=
match authentication_subscriptions st !! supi with
| None => Return None
| Some auth_sub =>
    let rand := e_rand e in
    let k := default (e_key e) (match encPermanentKey auth_sub with
                                | Some "" => None
                                | key => key
                                end) in
    let xres := String.substring 0 16 (sha256_hex (k +:+ rand +:+ "XRES")) in
    let autn := String.substring 0 32 (sha256_hex (k +:+ rand +:+ "AUTN")) in
    match serving_network_name with
    | JStr snn =>
        Return (Some {| rand := rand; xres := xres; autn := autn;
                        kausf := sha256_hex (k +:+ rand +:+ snn) |})
    | _ => Raise TypeError
    end
end.

(** [AuthenticationVector.dict()] *)
Definition vector_dict (v : AuthenticationVector) : json :=
JObj [("rand", JStr (rand v)); ("xres", JStr (xres v)); ("autn", JStr (autn v));
      ("kausf", JStr (kausf v))].

(** [POST /nudm-ueau/v1/{supi}/security-information/generate-auth-data];
    the body is a dictionary, if any. *)
Definition generate_authentication_data (e : entropy) (supi : string)
    (auth_request : option (list (string * json))) (now : Z) (st : state)
  : outcome json * state :=
match auth_request with
| None | Some [] => (except_HTTPException_reraise (Raise (HTTPException 400)), st)
| Some request =>
    let serving_network_name := default JNull (dict_get "servingNetworkName" request) in
    let ausf_instance_id := default JNull (dict_get "ausfInstanceId" request) in
    let made :=
      auth_vector ← generate_authentication_vector e supi serving_network_name st;
      match auth_vector with
      | None => Raise (HTTPException 404)
      | Some auth_vector =>
          nf ← Ausf.str_field ausf_instance_id;
          snn ← Ausf.str_field serving_network_name;
          mret (auth_vector,
                {| nfInstanceId := nf; success := true; timeStamp := now;
                   authType := "5G_AKA"; servingNetworkName := snn |})
      end in
    match made with
    | Return (auth_vector, auth_event) =>
        (Return (JObj [("authenticationVector", vector_dict auth_vector);
                       ("supi", JStr supi)]),
         {| authentication_subscriptions := authentication_subscriptions st;
            authentication_events :=
              <[supi := default [] (authentication_events st !! supi) ++ [auth_event]]>
                (authentication_events st) |})
    | Raise e => (except_HTTPException_reraise (Raise e), st)
    end
end.

(** The request [AUSF.get_authentication_vectors_from_udm] sends. *)
Definition udm_request (supi serving_network_name ausf_instance_id : string)
  : list (string * json) :=
[("supi", JStr supi); ("servingNetworkName", JStr serving_network_name);
 ("ausfInstanceId", JStr ausf_instance_id)].

(** What [AUSF.get_authentication_vectors_from_udm] returns from an answer
    of this UDM: the body when the status is 200, [None] otherwise. *)
Definition to_ausf (answer : outcome json) : option json :=
match answer with
| Return body => Some body
| Raise _ => None
end.

End Handlers.

End Udm.

(** ** Concrete requests and peers *)

Module Scenario.

(** [str] of a container, for runs in which none is formatted. *)
Definition no_repr : json → string := λ _, "".

(** A UPF that is discovered and accepts the PFCP establishment. *)
Definition upf_up : Smf.upf_peer :=
{| Smf.upf_url := Some "http://127.0.0.1:9002";
   Smf.upf_post := λ _, Some (JObj [("status", JStr "SUCCESS");
                                    ("upfSeid", JStr "upf-seid-1")]) |}.

(** The Create SM Context request of the PDU-session scenario. *)
Definition sm_context_request : list (string * json) :=
[("supi", JStr "imsi-001010000000001");
 ("pduSessionId", JInt 1);
 ("dnn", JStr "internet");
 ("sNssai", JObj [("sst", JInt 1); ("sd", JStr "010203")]);
 ("anType", JStr "3GPP_ACCESS")].

(** The same request without [anType]. *)
Definition sm_context_request_no_antype : list (string * json) :=
[("supi", JStr "imsi-001010000000001");
 ("pduSessionId", JInt 1);
 ("dnn", JStr "internet");
 ("sNssai", JObj [("sst", JInt 1); ("sd", JStr "010203")])].

(** The registration request of the registration scenario. *)
Definition registration_request : Amf.RegistrationRequest :=
{| Amf.ngksi := 0;
   Amf.registration_type := 1;
   Amf.suci := "suci-001-01-0000-000000001";
   Amf.ue_security_capability := JObj [];
   Amf.requested_nssai := None |}.

Definition challenge : Amf.AuthenticationInfoResult :=
{| Amf.authType := "5G_AKA";
   Amf.authenticationVector :=
     {| Amf.av_rand := "00112233445566778899aabbccddeeff";
        Amf.av_autn := "0123456789ab8000fedcba9876543210";
        Amf.av_hxresstar := "0f1e2d3c4b5a6978";
        Amf.av_kausf := "a0a1a2a3" |};
   Amf.air_supi := Some "imsi-000000001";
   Amf._links := None |}.

(** An AMF whose AUSF answers every authentication request with
    [challenge], and which has no SMF address. *)
Definition amf_peers_with_ausf : Amf.peers :=
{| Amf.initiate_authentication := λ _, Some challenge;
   Amf.register_with_udm := λ _, true;
   Amf.ausf_confirm := λ _ _, None;
   Amf.smf_url := None;
   Amf.smf_post := λ _, None |}.

Definition zero_hash : string → Z := λ _, 0.

(** A stand-in for SHA-256 in runs whose outcome does not depend on it. *)
Definition id_hash : string → string := λ s, s.

Definition auth_entropy : Ausf.entropy :=
{| Ausf.e_rand := "00112233445566778899aabbccddeeff";
   Ausf.e_sqn := "0123456789ab";
   Ausf.e_ak := "ba9876543210";
   Ausf.e_mac := "fedcba9876543210" |}.

Definition auth_ctx_id : string := "3f2b8c1e-0d4a-4b7e-9c55-7a1d2e3f4a5b".

(** A challenge built locally (no UDM answer), its right response, and a
    wrong one. *)
Definition challenge_request : Ausf.request :=
Ausf.UeAuthentication None auth_entropy auth_ctx_id 0
  "suci-001-01-0000-000000001" "5G:mnc001.mcc001.3gppnetwork.org".
Definition right_response : Ausf.request :=
Ausf.Confirmation auth_ctx_id "imsi-00000000100" 1.
Definition wrong_response : Ausf.request :=
Ausf.Confirmation auth_ctx_id "ffffffffffffffff" 2.

(** The [uuid.uuid4()] values drawn while request number [r] is handled. *)
Definition uuids (r : nat) (k : nat) : string :=
"0000000" +:+ pretty r +:+ "-0000-4000-8000-00000000000" +:+ pretty k.

(** A PFCP establishment with one PDR on an F-TEID, its FAR, and one QER
    with an MBR of 1 000 000 bit/s in both directions. *)
Definition qos_session_request : Upf.PfcpSessionEstablishmentRequest :=
{| Upf.node_id := "smf.mnc001.mcc001.3gppnetwork.org";
   Upf.f_seid := {| Upf.teid := "12345678"; Upf.ipv4_address := Some "192.168.1.100";
                    Upf.ipv6_address := None |};
   Upf.create_pdr :=
     [{| Upf.pdr_id := 1; Upf.precedence := 100;
         Upf.pdi := {| Upf.source_interface := 0;
                       Upf.f_teid := Some {| Upf.teid := "87654321";
                                             Upf.ipv4_address := Some "192.168.200.1";
                                             Upf.ipv6_address := None |} |};
         Upf.far_id := Some 1 |}];
   Upf.create_far :=
     [{| Upf.cf_far_id := 1; Upf.apply_action := 2;
         Upf.forwarding_parameters :=
           Some {| Upf.destination_interface := 1;
                   Upf.outer_header_creation :=
                     Some {| Upf.ohc_teid := Some "ABCDEF01";
                             Upf.ohc_ipv4_address := Some "203.0.113.100";
                             Upf.ohc_ipv6_address := None |} |} |}];
   Upf.create_urr := None;
   Upf.create_qer :=
     Some [{| Upf.qer_id := 1;
              Upf.mbr := Some {| Upf.ul_mbr := 1000000; Upf.dl_mbr := 1000000 |};
              Upf.gbr := None; Upf.qfi := Some 9; Upf.averaging_window := None |}];
   Upf.pdn_type := Some "IPV4" |}.

(** The UPF after that establishment, from a boot with the default IPv4 pool. *)
Definition upf_with_qos_session : Upf.state :=
(Upf.pfcp_session_establishment (uuids 1) 0 qos_session_request
   (Upf.boot Upf.default_ipv4_hosts [])).2.

(** The SEID of that session and the identifier of its tunnel. *)
Definition qos_seid : string := uuids 1 0.
Definition qos_tunnel : string := uuids 1 1.

Fixpoint repeat_string (n : nat) (s : string) : string :=
match n with
| O => ""
| S n' => s +:+ repeat_string n' s
end.

(** 2 000 downlink packets of 1 000 bytes, one every 500 microseconds. *)
Definition burst : list (Upf.packet_data * Z) :=
(λ k, Upf.on_tunnel qos_tunnel ("downlink", repeat_string 1000 "x", 1 + 500 * Z.of_nat k))
  <$> seq 0 2000.

(** A scheduler that does hold a bucket for the tunnel's downlink, as
    [enforce_qos] makes it for an MBR of 1 000 000 bit/s at time 0, and a QoS
    table with an entry whose key contains the tunnel's identifier. *)
Definition engaged_qos : list (string * Upf.QosParameters) :=
[(qos_tunnel +:+ "_1", Upf.qos_of_qer {| Upf.qer_id := 1;
     Upf.mbr := Some {| Upf.ul_mbr := 1000000; Upf.dl_mbr := 1000000 |};
     Upf.gbr := None; Upf.qfi := Some 9; Upf.averaging_window := None |})].
Definition full_bucket : Upf.bucket :=
{| Upf.tokens := 125000; Upf.max_tokens := 125000; Upf.last_refill := 0;
   Upf.refill_rate := 125000 |}.
Definition engaged_scheduler : Upf.scheduler :=
{| Upf.token_buckets := {[ qos_tunnel +:+ "_downlink" := full_bucket ]};
   Upf.priority_queues := [] |}.
Definition burst_packets : list (Upf.GtpuPacket * Z) :=
(λ d, ({| Upf.header := Upf.pd_header d.1; Upf.payload := Upf.pd_payload d.1 |}, d.2))
  <$> burst.

(** A UPF whose IPv4 pool is a /30: two hosts. *)
Definition upf_slash_30 : Upf.state :=
Upf.boot ["192.168.100.1"; "192.168.100.2"] [].

(** An establishment that asks for an IPv4 address only. *)
Definition ipv4_session_request : Upf.PfcpSessionEstablishmentRequest :=
{| Upf.node_id := "smf.mnc001.mcc001.3gppnetwork.org";
   Upf.f_seid := {| Upf.teid := "12345678"; Upf.ipv4_address := None;
                    Upf.ipv6_address := None |};
   Upf.create_pdr := []; Upf.create_far := [];
   Upf.create_urr := None; Upf.create_qer := None;
   Upf.pdn_type := Some "IPV4" |}.

(** Three such establishments in a row on the /30 pool. *)
Definition three_sessions
  : list (outcome Upf.establishment_response) * Upf.state :=
let e1 := Upf.pfcp_session_establishment (uuids 1) 0 ipv4_session_request upf_slash_30 in
let e2 := Upf.pfcp_session_establishment (uuids 2) 1 ipv4_session_request e1.2 in
let e3 := Upf.pfcp_session_establishment (uuids 3) 2 ipv4_session_request e2.2 in
([e1.1; e2.1; e3.1], e3.2).

(** A PCF holding one policy association, for DNN internet. *)
Definition policy_context : Pcf.SmPolicyContextData :=
{| Pcf.cd_supi := "imsi-001010000000001"; Pcf.pduSessionId := 1;
   Pcf.pduSessionType := "IPV4"; Pcf.dnn := "internet";
   Pcf.notificationUri := "http://127.0.0.1:9002/notify"; Pcf.accessType := "3GPP_ACCESS";
   Pcf.cd_online := None; Pcf.cd_offline := None |}.
Definition association_id : string := "5b1f0c52-8e3c-4a57-9d21-0c4e6f7a8b90".
Definition pcf_with_policy : Pcf.state :=
(Pcf.create_sm_policy association_id 0 policy_context Pcf.boot).2.

(** Update bodies: a trigger outside the enumeration, and the application
    start of the policy scenario. *)
Definition bogus_update : option (list (string * json)) :=
Some [("triggers", JList [JStr "APP_STA"; JStr "NOT_A_TRIGGER"])].
Definition app_start_update : option (list (string * json)) :=
Some [("triggers", JList [JStr "APP_STA"]);
      ("context_updates", JObj [("app_id", JStr "video_streaming_app")])].

(** A registry of four profiles. *)
Definition profile (id : string) (t : Nrf.NFType) (s : Nrf.NFStatus)
    (prio cap : option Z) : string * Nrf.NFProfile :=
(id, {| Nrf.nfInstanceId := id; Nrf.nfType := t; Nrf.nfStatus := s;
        Nrf.plmnList := Some [{| Nrf.mcc := "001"; Nrf.mnc := "01" |}];
        Nrf.sNssais := Some [{| Nrf.sst := 1; Nrf.sd := Some "010203" |}];
        Nrf.allowedNfTypes := None; Nrf.priority := prio; Nrf.capacity := cap;
        Nrf.load := None; Nrf.nfServices := None |}).
Definition registry : list (string * Nrf.NFProfile) :=
[profile "amf-1" Nrf.AMF Nrf.REGISTERED (Some 2) (Some 10);
 profile "amf-2" Nrf.AMF Nrf.SUSPENDED (Some 1) (Some 10);
 profile "amf-3" Nrf.AMF Nrf.REGISTERED (Some 1) (Some 50);
 profile "amf-4" Nrf.AMF Nrf.REGISTERED (Some 1) (Some 80);
 profile "smf-1" Nrf.SMF Nrf.REGISTERED None None].

(** Two SDUs sent by one RLC AM entity, to be received by another. *)
Definition sender : Du.entity_id := (1, 1).
Definition receiver : Du.entity_id := (2, 1).
Definition rlc_entities : gmap Du.entity_id Du.am_entity :=
(Du.create_am_entity 1 2 (Du.create_am_entity 1 1 ∅).2).2.
Definition two_pdus : list Du.RlcPdu :=
Du.transmit_all sender ["sdu-0"; "sdu-1"] rlc_entities.


(** Three packets for the tunnel of [upf_with_qos_session]. *)
Definition three_packets : list (string * string * Z) :=
[("downlink", "abc", 1); ("uplink", "de", 2); ("downlink", "f", 3)].

(** A modification that sets the MBR of QER 1. *)
Definition mbr_update : list (string * json) :=
[("qerId", JInt 1);
 ("mbr", JObj [("ulMbr", JInt 2000000); ("dlMbr", JInt 3000000)])].
Definition mbr_modification : list (string * json) :=
[("updateQer", JList [JObj mbr_update])].

(** The PDCP entity of DRB 5 of UE 1, as [lifespan] creates it. *)
Definition drb : Du.entity_id := (1, 5).
Definition pdcp_entities : gmap Du.entity_id Du.pdcp_entity :=
(Du.create_entity 5 1 "DRB" ∅).2.

(** Six SDUs for the sending RLC entity. *)
Definition six_sdus : list string := ["s0"; "s1"; "s2"; "s3"; "s4"; "s5"].

(** A UPF and an AMF profile, and a registry they are registered in. *)
Definition upf_registration : Nrf.legacy_nf_data :=
{| Nrf.nf_type := Some "UPF"; Nrf.ip := Some "127.0.0.1"; Nrf.port := Some 9002 |}.
Definition amf_profile : Nrf.NFProfile := (profile "amf-1" Nrf.AMF Nrf.REGISTERED None None).2.
Definition registrations : list Nrf.request :=
[Nrf.LegacyRegister (uuids 1 0) upf_registration; Nrf.Register "amf-1" (Some amf_profile)].

(** A UDM with one subscriber, and what it draws for a vector. *)
Definition subscriber : string := "imsi-001010000000001".
Definition udm_with_subscriber : Udm.state :=
{| Udm.authentication_subscriptions :=
     {[ subscriber :=
          {| Udm.authenticationMethod := "5G_AKA";
             Udm.encPermanentKey := Some "465b5ce8b199b49faa5f0a2ee238a6bc";
             Udm.sequenceNumber := Some "000000000001";
             Udm.authenticationManagementField := Some "8000";
             Udm.algorithmId := Some "milenage" |} ]};
   Udm.authentication_events := ∅ |}.
Definition udm_entropy : Udm.entropy :=
{| Udm.e_rand := "ffeeddccbbaa99887766554433221100"; Udm.e_key := "" |}.
Definition serving_network : string := "5G:mnc001.mcc001.3gppnetwork.org".

(** The UDM's answer to the AUSF's request for that subscriber. *)
Definition udm_answer : outcome json :=
(Udm.generate_authentication_data id_hash udm_entropy subscriber
   (Some (Udm.udm_request subscriber serving_network "ausf-1")) 0 udm_with_subscriber).1.

(** An AMF without AUSF, SMF or UDM in reach: registrations are accepted
    at once. *)
Definition amf_peers_alone : Amf.peers :=
{| Amf.initiate_authentication := λ _, None;
   Amf.register_with_udm := λ _, false;
   Amf.ausf_confirm := λ _ _, None;
   Amf.smf_url := None;
   Amf.smf_post := λ _, None |}.

(** The AUSF's confirmation of the challenge. *)
Definition confirmation : Amf.ConfirmationDataResponse :=
{| Amf.authResult := "AUTHENTICATION_SUCCESS";
   Amf.cdr_supi := Some "imsi-000000001";
   Amf.cdr_kseaf := Some "c0c1c2c3" |}.

(** A policy for a video DNN, and the start of the video application
    reported for it. *)
Definition video_policy_context : Pcf.SmPolicyContextData :=
{| Pcf.cd_supi := "imsi-001010000000001"; Pcf.pduSessionId := 2;
   Pcf.pduSessionType := "IPV4"; Pcf.dnn := "video";
   Pcf.notificationUri := "http://127.0.0.1:9002/notify"; Pcf.accessType := "3GPP_ACCESS";
   Pcf.cd_online := None; Pcf.cd_offline := None |}.
Definition policy_requests : list Pcf.operation :=
[Pcf.CreateSmPolicy association_id 0 video_policy_context;
 Pcf.UpdateSmPolicy association_id (Pcf.app_update "APP_STA") 1].

End Scenario.

(** Inverts [H : (x ← m; k) = Return a] into the results of the steps. *)
Ltac invert_binds H :=
  repeat match type of H with
         | mbind _ ?m = Return _ =>
             let E := fresh "E" in
             destruct m eqn:E; cbn [mbind outcome_bind] in H; [|discriminate H]
         | mret _ = Return _ => injection H as <-
         | Return _ = Return _ => injection H as <-
         end.

(** * Properties of the handlers *)

(** ** SMF *)

Section SmfProperties.
Import Smf.
Variable py_repr : json → string.

Lemma missing_fields_spec (body : list (string * json)) (field : string) :
  field ∈ missing_fields body ↔ field ∈ required_fields ∧ get_truthy field body = false.
Proof.
  unfold missing_fields. rewrite list_elem_of_filter.
  destruct (get_truthy field body); simpl; intuition (try done).
Qed.

Lemma absent_field_is_missing (body : list (string * json)) (field : string) :
  field ∈ required_fields → dict_get field body = None → missing_fields body ≠ [].
Proof.
  intros Hreq Hnone Hnil.
  assert (field ∈ missing_fields body) as Hin.
  { apply missing_fields_spec. split; [done|]. unfold get_truthy. by rewrite Hnone. }
  rewrite Hnil in Hin. by apply not_elem_of_nil in Hin.
Qed.

(** C7. Create SM Context answers 400 (invalid-argument) to a request that
    lacks one of supi, pduSessionId, dnn, sNssai, anType; a request that
    succeeds carries an integer pduSessionId [n], and its response has
    ueIpAddress ["10.<(n % 254) + 1>.0.1"] and
    n2SmInfo.qosFlowSetupRequestList[0].qfi = 9. *)
Theorem create_sm_context_contract
    (upf : upf_peer) (body : list (string * json)) (st : gmap string json) :
  (∀ field, field ∈ required_fields → dict_get field body = None →
     http_status (create_sm_context py_repr upf (JObj body) st).1 = invalid_argument)
  ∧ (∀ resp, (create_sm_context py_repr upf (JObj body) st).1 = Return resp →
       ∃ n, (dict_get "pduSessionId" body ≫= as_int) = Some n
            ∧ json_at [Key "ueIpAddress"] resp
              = Some (JStr ("10." +:+ pretty (n `mod` 254 + 1) +:+ ".0.1"))
            ∧ json_at [Key "n2SmInfo"; Key "qosFlowSetupRequestList"; Index 0; Key "qfi"]
                resp = Some (JInt 9)).
Proof using Type.
  split.
  - intros field Hreq Hnone. unfold create_sm_context.
    destruct (missing_fields body) eqn:Hm; [|done].
    by destruct (absent_field_is_missing body field).
  - intros resp. unfold create_sm_context.
    destruct (missing_fields body) eqn:Hm; [|done].
    unfold create_sm_context_body, get_or_null, ue_ip_octet.
    destruct (dict_get "pduSessionId" body) as [sid|] eqn:Hsid;
      cbn [from_option]; unfold id.
    + destruct (as_int sid) as [n|] eqn:Hn; [|done].
      cbn [mbind outcome_bind].
      destruct (_send_pfcp_establishment_request _ _ _) as [n4|e] eqn:Hn4.
      * cbn. intros [= <-]. by exists n.
      * by destruct e.
    + done.
Qed.

End SmfProperties.

(** Witness of C7: the request without [anType] is refused with 400, and the
    scenario's request (pduSessionId 1) is answered with ["10.2.0.1"] and qfi 9. *)
Lemma create_sm_context_contract_witness :
  http_status (Smf.create_sm_context Scenario.no_repr Scenario.upf_up
                 (JObj Scenario.sm_context_request_no_antype) ∅).1 = invalid_argument
  ∧ ∃ n, (dict_get "pduSessionId" Scenario.sm_context_request ≫= as_int) = Some n
         ∧ Smf.json_at [Smf.Key "ueIpAddress"]
             (Smf.serve Scenario.no_repr Scenario.upf_up ∅
                (JObj Scenario.sm_context_request)).2
           = Some (JStr ("10." +:+ pretty (n `mod` 254 + 1) +:+ ".0.1"))
         ∧ Smf.json_at [Smf.Key "n2SmInfo"; Smf.Key "qosFlowSetupRequestList";
                        Smf.Index 0; Smf.Key "qfi"]
             (Smf.serve Scenario.no_repr Scenario.upf_up ∅
                (JObj Scenario.sm_context_request)).2
           = Some (JInt 9).
Proof.
  split.
  - apply (proj1 (create_sm_context_contract Scenario.no_repr Scenario.upf_up
                    Scenario.sm_context_request_no_antype ∅) "anType").
    + repeat constructor.
    + reflexivity.
  - eapply (proj2 (create_sm_context_contract Scenario.no_repr Scenario.upf_up
                     Scenario.sm_context_request ∅)).
    vm_compute. reflexivity.
Defined.

(** The PDU-session scenario, evaluated: status 200, ueIpAddress 10.2.0.1. *)
Example create_sm_context_scenario :
  let r := Smf.serve Scenario.no_repr Scenario.upf_up ∅ (JObj Scenario.sm_context_request) in
  r.1 = 200 ∧ Smf.json_at [Smf.Key "ueIpAddress"] r.2 = Some (JStr "10.2.0.1").
Proof. vm_compute. done. Qed.

(** ** AMF *)

Section AmfProperties.
Import Amf.
Variable py_hash : string → Z.

(** The SMF refuses the payload the AMF builds: [supi] comes first among the
    mandatory fields and the payload has no such key. *)
Lemma smf_request_is_refused
    (py_repr : json → string) (upf : Smf.upf_peer) (smf_st : gmap string json)
    (pdu_req : PduSessionEstablishmentRequest) :
  Smf.serve py_repr upf smf_st (JObj (smf_request pdu_req))
  = (400, JObj [("detail", JStr "")]).
Proof using Type.
  unfold Smf.serve, Smf.create_sm_context.
  assert (∃ rest, Smf.missing_fields (smf_request pdu_req) = "supi" :: rest) as [rest ->];
    [|done].
  unfold Smf.missing_fields, Smf.required_fields.
  rewrite filter_cons_True; [by eexists | by vm_compute].
Qed.

(** C10. The SM-context payload of the AMF has exactly the keys pduSessionId,
    dnn, sNssai, pduSessionType, sscMode, so neither supi nor anType; an SMF
    that is reachable answers it with 400 (invalid-argument), and the AMF
    then returns the local accept with allocated_ip 192.168.1.100. *)
Theorem pdu_session_delegation_falls_back
    (py_repr : json → string) (upf : Smf.upf_peer) (smf_st : gmap string json)
    (ia : string → option AuthenticationInfoResult) (ru : string → bool)
    (ac : json → json → option (Z * ConfirmationDataResponse)) (url : string)
    (session_id : string) (now : Z)
    (pdu_req : PduSessionEstablishmentRequest) (st : state) :
  let env := {| initiate_authentication := ia; register_with_udm := ru;
                ausf_confirm := ac; smf_url := Some url;
                smf_post := λ payload, Some (Smf.serve py_repr upf smf_st payload) |} in
  dict_keys (smf_request pdu_req)
  = ["pduSessionId"; "dnn"; "sNssai"; "pduSessionType"; "sscMode"]
  ∧ dict_get "supi" (smf_request pdu_req) = None
  ∧ dict_get "anType" (smf_request pdu_req) = None
  ∧ (Smf.serve py_repr upf smf_st (JObj (smf_request pdu_req))).1 = invalid_argument
  ∧ (process_pdu_session_establishment_request env session_id now pdu_req st).1
    = Return (ACCEPT_LOCAL (pdu_session_id pdu_req) "192.168.1.100").
Proof using Type.
  intros env.
  split_and!; [reflexivity | reflexivity | reflexivity
              | by rewrite smf_request_is_refused |].
  unfold process_pdu_session_establishment_request, env; cbn [smf_url smf_post].
  by rewrite smf_request_is_refused.
Qed.

Lemma registration_request_writes
    (env : peers) (now : Z) (r : RegistrationRequest) (st : state) :
  states_written st → states_written (process_registration_request py_hash env now r st).2.
Proof using Type.
  unfold states_written, process_registration_request. intros Hst.
  destruct (if bool_decide _ then _ else _); cbn [snd ue_contexts].
  - apply map_Forall_insert_2; [|done]. cbn. set_solver.
  - repeat (apply map_Forall_insert_2; [cbn; set_solver|]). done.
Qed.

Lemma authentication_response_keeps_contexts
    (env : peers) (d : list (string * json)) (st : state) :
  ue_contexts (process_authentication_response env d st).2 = ue_contexts st.
Proof using Type.
  unfold process_authentication_response, process_authentication_response_body.
  repeat (case_match; simplify_eq/=; try done).
Qed.

Lemma security_mode_complete_writes (d : list (string * json)) (st : state) :
  states_written st → states_written (process_security_mode_complete py_hash d st).2.
Proof using Type.
  unfold states_written, process_security_mode_complete. intros Hst.
  repeat (case_match; try done).
  cbn [snd ue_contexts]. apply map_Forall_insert_2; [|done]. cbn. set_solver.
Qed.

Lemma handle_writes (rq : request) (st : state) :
  states_written st → states_written (handle py_hash rq st).
Proof using Type.
  destruct rq; cbn [handle]; intros Hst.
  - by apply registration_request_writes.
  - unfold states_written. by rewrite authentication_response_keeps_contexts.
  - by apply security_mode_complete_writes.
  - unfold states_written, process_pdu_session_establishment_request.
    repeat (case_match; try done).
Qed.

Lemma run_writes (rqs : list request) (st : state) :
  states_written st → states_written (foldl (λ st rq, handle py_hash rq st) st rqs).
Proof using Type.
  revert st. induction rqs as [|rq rqs IH]; intros st Hst; [done|].
  cbn [foldl]. apply IH. by apply handle_writes.
Qed.

(** C4, as amended.  When authentication is initiated (the response is
    AUTHENTICATION_REQUIRED) the UE context is stored in registration state
    INITIAL, and the stored registration state is always one of INITIAL and
    REGISTERED. *)
Theorem registration_states_written :
  (∀ env now req st m l,
     (process_registration_request py_hash env now req st).1
     = Return (AUTHENTICATION_REQUIRED m l) →
     registration_state
       <$> ue_contexts (process_registration_request py_hash env now req st).2
           !! supi_of_suci (suci req)
     = Some "INITIAL")
  ∧ (∀ rqs supi c,
       ue_contexts (run py_hash rqs) !! supi = Some c →
       registration_state c ∈ written_states).
Proof using Type.
  split.
  - intros env now req st m l. unfold process_registration_request.
    destruct (if bool_decide _ then _ else _); [|done].
    intros _. cbn [snd ue_contexts]. by rewrite lookup_insert_eq.
  - intros rqs supi c Hc.
    assert (states_written (run py_hash rqs)) as Hall.
    { apply run_writes. unfold states_written, boot. cbn. apply map_Forall_empty. }
    by apply (Hall supi c).
Qed.

End AmfProperties.

(** C4 as stated fails: the registration scenario is answered
    AUTHENTICATION_REQUIRED while the stored state is INITIAL, which is not
    AUTH_PENDING and not one of the four states of the specification. *)
Lemma registration_state_is_not_auth_pending :
  let r := Amf.process_registration_request Scenario.zero_hash Scenario.amf_peers_with_ausf
             0 Scenario.registration_request Amf.boot in
  (∃ m, r.1 = Return (Amf.AUTHENTICATION_REQUIRED m (JObj [])))
  ∧ Amf.registration_state <$> Amf.ue_contexts r.2 !! "imsi-000000001" = Some "INITIAL"
  ∧ Amf.registration_state <$> Amf.ue_contexts r.2 !! "imsi-000000001" ≠ Some "AUTH_PENDING"
  ∧ "INITIAL" ∉ Amf.spec_states.
Proof.
  vm_compute. repeat split; [by eexists | done |].
  intros H. repeat (apply elem_of_cons in H as [H|H]; [done|]). by apply elem_of_nil in H.
Qed.

(** Witness of C4 (amended) on the registration scenario. *)
Lemma registration_states_written_witness :
  Amf.registration_state
    <$> Amf.ue_contexts
          (Amf.process_registration_request Scenario.zero_hash Scenario.amf_peers_with_ausf
             0 Scenario.registration_request Amf.boot).2
        !! Amf.supi_of_suci (Amf.suci Scenario.registration_request)
  = Some "INITIAL"
  ∧ ∃ c, Amf.ue_contexts
           (Amf.run Scenario.zero_hash
              [Amf.RegistrationReq Scenario.amf_peers_with_ausf 0
                 Scenario.registration_request])
         !! "imsi-000000001" = Some c
         ∧ Amf.registration_state c ∈ Amf.written_states.
Proof.
  split.
  - eapply (proj1 (registration_states_written Scenario.zero_hash)).
    vm_compute. reflexivity.
  - pose proof (proj2 (registration_states_written Scenario.zero_hash)
                  [Amf.RegistrationReq Scenario.amf_peers_with_ausf 0
                     Scenario.registration_request]
                  "imsi-000000001") as Hstate.
    eexists. split; [|apply Hstate]; vm_compute; reflexivity.
Defined.

(** ** AUSF *)

Section AusfProperties.
Import Ausf.
Variable sha256_hex : string → string.

Lemma completed_status (s : string) (k : option string) (now : Z) (c : AuthCtx) :
  status (completed s k now c) = s ∧ kseaf (completed s k now c) = k.
Proof using Type. done. Qed.

(** What a confirmation leaves under its identifier. *)
Lemma confirmation_effect (id res : string) (now : Z) (st : gmap string AuthCtx)
    (c : AuthCtx) :
  st !! id = Some c →
  let st' := (authentication_confirmation sha256_hex id res now st).2 in
  st' = st
  ∨ (str_eq_json res (hxresstar c) = true
     ∧ ∃ k, st' = <[id := completed "SUCCESS" (Some k) now c]> st)
  ∨ (str_eq_json res (hxresstar c) = false
     ∧ st' = <[id := completed "FAILURE" (kseaf c) now c]> st).
Proof using Type.
  intros Hc. unfold authentication_confirmation, verify_authentication_response.
  rewrite Hc. destruct (str_eq_json res (hxresstar c)) eqn:Heq.
  - destruct (kausf c); cbn [snd]; eauto.
  - cbn [snd]. eauto.
Qed.

Lemma handle_keeps_terminal (rq : request) (st : gmap string AuthCtx)
    (id : string) (c c' : AuthCtx) :
  fresh_id rq st → st !! id = Some c → terminal c →
  handle sha256_hex rq st !! id = Some c' → terminal c'.
Proof using Type.
  intros Hfresh Hc Hterm. destruct rq as [udm e id0 now s n|id0 res now|id0|id0];
    cbn [handle fresh_id] in *.
  - unfold ue_authentication_request.
    destruct (mbind _ _) as [ctx|err]; cbn [snd].
    + rewrite lookup_insert_ne; [congruence|]. intros ->. congruence.
    + congruence.
  - destruct (decide (id0 = id)) as [->|Hne].
    + destruct (confirmation_effect id res now st c Hc) as [->|[[_ [k ->]]|[_ ->]]].
      * congruence.
      * rewrite lookup_insert_eq. intros [= <-]. by left.
      * rewrite lookup_insert_eq. intros [= <-]. by right.
    + unfold authentication_confirmation.
      destruct (st !! id0) as [c0|]; [|cbn; congruence].
      repeat case_match; cbn [snd]; rewrite ?lookup_insert_ne by done; congruence.
  - congruence.
  - unfold delete_authentication_context.
    destruct (st !! id0); cbn [snd]; [|congruence].
    destruct (decide (id0 = id)) as [->|Hne].
    + by rewrite lookup_delete_eq.
    + rewrite lookup_delete_ne by done. congruence.
Qed.

Lemma handle_keeps_kseaf (rq : request) (st : gmap string AuthCtx) :
  success_has_kseaf st → success_has_kseaf (handle sha256_hex rq st).
Proof using Type.
  unfold success_has_kseaf. intros Hst.
  destruct rq as [udm e id0 now s n|id0 res now|id0|id0]; cbn [handle].
  - unfold ue_authentication_request.
    destruct (mbind _ _) as [ctx|err] eqn:Hctx; cbn [snd]; [|done].
    apply map_Forall_insert_2; [|done].
    invert_binds Hctx. done.
  - unfold authentication_confirmation, verify_authentication_response.
    destruct (st !! id0) as [c0|] eqn:Hc0; [|done].
    destruct (str_eq_json res (hxresstar c0)).
    + destruct (kausf c0); cbn [snd]; try done.
      apply map_Forall_insert_2; [|done]. by eexists.
    + cbn [snd]. apply map_Forall_insert_2; [|done]. done.
  - done.
  - unfold delete_authentication_context.
    destruct (st !! id0); cbn [snd]; [|done]. by apply map_Forall_delete.
Qed.

Lemma run_keeps_kseaf (rqs : list request) (st : gmap string AuthCtx) :
  success_has_kseaf st →
  success_has_kseaf (foldl (λ contexts rq, handle sha256_hex rq contexts) st rqs).
Proof using Type.
  revert st. induction rqs as [|rq rqs IH]; intros st Hst; [done|].
  cbn [foldl]. apply IH. by apply handle_keeps_kseaf.
Qed.

(** C3, as amended.  A context that has reached SUCCESS or FAILURE is never
    ONGOING again under any later operation (a later POST drawing a fresh
    identifier), but a further confirmation PUT on it decides its status
    anew: SUCCESS when resStar equals the stored hxresstar, FAILURE
    otherwise.  Every context in status SUCCESS carries a non-null kseaf. *)
Theorem terminal_status_stays_terminal :
  (∀ rq st id c c',
     fresh_id rq st → st !! id = Some c → terminal c →
     handle sha256_hex rq st !! id = Some c' → terminal c')
  ∧ (∀ id res now st c r,
       st !! id = Some c →
       (authentication_confirmation sha256_hex id res now st).1 = Return r →
       status <$> (authentication_confirmation sha256_hex id res now st).2 !! id
       = Some (if str_eq_json res (hxresstar c) then "SUCCESS" else "FAILURE"))
  ∧ (∀ rqs id c,
       run sha256_hex rqs !! id = Some c → status c = "SUCCESS" → is_Some (kseaf c)).
Proof using Type.
  split_and!.
  - intros rq st id c c'. apply handle_keeps_terminal.
  - intros id res now st c r Hc.
    unfold authentication_confirmation, verify_authentication_response. rewrite Hc.
    destruct (str_eq_json res (hxresstar c)).
    + destruct (kausf c); cbn [fst snd]; try done.
      intros _. by rewrite lookup_insert_eq.
    + intros _. cbn [snd]. by rewrite lookup_insert_eq.
  - intros rqs id c Hc.
    assert (success_has_kseaf (run sha256_hex rqs)) as Hall.
    { apply run_keeps_kseaf. apply map_Forall_empty. }
    by apply (Hall id c).
Qed.

End AusfProperties.

(** C3 as stated fails: a context in status SUCCESS turns to FAILURE when a
    further confirmation PUT on the same authCtxId carries a wrong resStar. *)
Lemma terminal_status_changes :
  let after_success :=
    Ausf.run Scenario.id_hash [Scenario.challenge_request; Scenario.right_response] in
  let after_wrong :=
    Ausf.handle Scenario.id_hash Scenario.wrong_response after_success in
  Ausf.status <$> after_success !! Scenario.auth_ctx_id = Some "SUCCESS"
  ∧ Ausf.status <$> after_wrong !! Scenario.auth_ctx_id = Some "FAILURE".
Proof. vm_compute. done. Qed.

(** Witness of C3 (amended) on that run: the context is terminal after the
    wrong response too, its status is the one the comparison gives, and it
    carried a key while it was in status SUCCESS. *)
Lemma terminal_status_stays_terminal_witness :
  let after_success :=
    Ausf.run Scenario.id_hash [Scenario.challenge_request; Scenario.right_response] in
  (∃ c c', after_success !! Scenario.auth_ctx_id = Some c
           ∧ Ausf.handle Scenario.id_hash Scenario.wrong_response after_success
             !! Scenario.auth_ctx_id = Some c'
           ∧ Ausf.terminal c')
  ∧ Ausf.status
      <$> (Ausf.authentication_confirmation Scenario.id_hash Scenario.auth_ctx_id
             "ffffffffffffffff" 2 after_success).2 !! Scenario.auth_ctx_id
    = Some "FAILURE"
  ∧ (∃ c, after_success !! Scenario.auth_ctx_id = Some c ∧ is_Some (Ausf.kseaf c)).
Proof.
  pose proof (terminal_status_stays_terminal Scenario.id_hash) as (Hterm & Hput & Hkey).
  intros after_success. split_and!.
  - eexists _, _. split_and!; [vm_compute; reflexivity | vm_compute; reflexivity |].
    eapply (Hterm Scenario.wrong_response after_success Scenario.auth_ctx_id);
      [exact I | vm_compute; reflexivity | left; reflexivity | vm_compute; reflexivity].
  - etrans.
    + eapply (Hput Scenario.auth_ctx_id "ffffffffffffffff" 2 after_success);
        vm_compute; reflexivity.
    + vm_compute. reflexivity.
  - eexists. split; [vm_compute; reflexivity|].
    eapply (Hkey [Scenario.challenge_request; Scenario.right_response]
              Scenario.auth_ctx_id); vm_compute; reflexivity.
Defined.

(** ** UPF *)

Section UpfProperties.
Import Upf.

(** Without an entry of [qos_enforcement] whose key contains the tunnel's
    identifier, the scheduler lets the packet pass and stays as it is. *)
Lemma enforce_qos_without_entry (tunnel_id : string) (packet : GtpuPacket)
    (direction : string) (now : Z) (qos : list (string * QosParameters)) (sch : scheduler) :
  applicable_qos tunnel_id qos = None →
  enforce_qos tunnel_id packet direction now qos sch = (Return true, sch).
Proof. intros Hnone. unfold enforce_qos. by rewrite Hnone. Qed.

Lemma process_packet_without_entry (tunnel_id : string) (p : string * string * Z)
    (st : state) :
  applicable_qos tunnel_id (qos_enforcement st) = None →
  is_Some (gtp_tunnels st !! tunnel_id) →
  ∃ st', process_packet (on_tunnel tunnel_id p).1 (on_tunnel tunnel_id p).2 st
         = (Return "SUCCESS", st')
         ∧ qos_enforcement st' = qos_enforcement st
         ∧ is_Some (gtp_tunnels st' !! tunnel_id).
Proof.
  intros Hnone [t Ht]. unfold process_packet, process_gtp_packet, on_tunnel.
  cbn [pd_tunnel_id pd_direction pd_header pd_payload fst snd mbind option_bind].
  rewrite Ht. cbn [fmap option_fmap option_map].
  rewrite enforce_qos_without_entry by done.
  eexists. split_and!; [reflexivity | reflexivity |].
  cbn. rewrite lookup_insert_eq. by eexists.
Qed.

Lemma process_packets_without_entry (tunnel_id : string) (l : list (string * string * Z))
    (st : state) :
  applicable_qos tunnel_id (qos_enforcement st) = None →
  is_Some (gtp_tunnels st !! tunnel_id) →
  (process_packets (on_tunnel tunnel_id <$> l) st).1
  = replicate (length l) (Return "SUCCESS").
Proof.
  revert st. induction l as [|p l IH]; intros st Hnone Htun; [done|].
  cbn [fmap list_fmap process_packets length replicate].
  destruct (process_packet_without_entry tunnel_id p st Hnone Htun)
    as (st' & Hstep & Hqos & Htun').
  destruct (on_tunnel tunnel_id p) as [d now] eqn:Hd. cbn [fst snd] in Hstep.
  rewrite Hstep. specialize (IH st'). rewrite Hqos in IH.
  destruct (process_packets _ st') as [answers st2]. cbn [fst] in *.
  by rewrite IH.
Qed.

(** C1, at the failing input.  After a PFCP establishment that installs a QER
    with an MBR of 1 000 000 bit/s, the entry of [qos_enforcement] is keyed
    by the SEID and no key contains the tunnel's identifier: every packet on
    the tunnel is answered SUCCESS, whatever its size, direction and time, and
    no token bucket is ever made.  The 2 000 packets of 1 000 bytes sent
    within one second are all accepted: 2 000 000 bytes, where the bound
    claimed is 125 000 bytes plus one packet. *)
Theorem mbr_is_not_enforced_on_the_tunnel :
  (maximum_bitrate_dl <$> dict_get (Scenario.qos_seid +:+ "_1")
                            (qos_enforcement Scenario.upf_with_qos_session)
   = Some (JInt 1000000))
  ∧ is_Some (gtp_tunnels Scenario.upf_with_qos_session !! Scenario.qos_tunnel)
  ∧ (∀ l : list (string * string * Z),
       (process_packets (on_tunnel Scenario.qos_tunnel <$> l)
          Scenario.upf_with_qos_session).1
       = replicate (length l) (Return "SUCCESS"))
  ∧ accepted_bytes Scenario.burst
      (process_packets Scenario.burst Scenario.upf_with_qos_session).1 = 2000000
  ∧ token_buckets
      (qos_scheduler (process_packets Scenario.burst Scenario.upf_with_qos_session).2) = ∅.
Proof.
  assert (applicable_qos Scenario.qos_tunnel
            (qos_enforcement Scenario.upf_with_qos_session) = None) as Hnone
    by (vm_compute; reflexivity).
  assert (is_Some (gtp_tunnels Scenario.upf_with_qos_session !! Scenario.qos_tunnel))
    as Htun by (vm_compute; eexists; reflexivity).
  split_and!.
  - vm_compute. reflexivity.
  - exact Htun.
  - intros l. by apply process_packets_without_entry.
  - vm_compute. reflexivity.
  - vm_compute. reflexivity.
Qed.




(** The establishment answers 200 with cause REQUEST_ACCEPTED on every
    request and in every state: no path of it raises or refuses. *)
Lemma establishment_always_accepts (uuid4 : nat → string) (now : Z)
    (request : PfcpSessionEstablishmentRequest) (st : state) :
  ∃ r, (pfcp_session_establishment uuid4 now request st).1 = Return r ∧ cause r = 1.
Proof.
  unfold pfcp_session_establishment.
  destruct (allocate_ip_address _ _) as [allocated pool'].
  destruct (establish_pdrs _ _ _) as [recorded tunnels].
  by eexists.
Qed.

(** C2, at the failing input.  On a pool of two hosts the first two IPv4
    establishments get 192.168.100.1 and 192.168.100.2; the third, with no
    address left, is answered 200 with cause REQUEST_ACCEPTED and an empty
    allocatedUeIpAddresses, where resource-exhausted (503) is claimed.  In
    general the establishment answers 200 whatever the pool holds. *)
Theorem exhausted_pool_is_accepted :
  (fmap (M:=list) (fmap (M:=outcome) allocatedUeIpAddresses) Scenario.three_sessions.1
   = [Return [("ipv4", "192.168.100.1")]; Return [("ipv4", "192.168.100.2")]; Return []])
  ∧ (fmap (M:=list) (fmap (M:=outcome) cause) Scenario.three_sessions.1 = [Return 1; Return 1; Return 1])
  ∧ (fmap (M:=list) http_status Scenario.three_sessions.1 = [200; 200; 200])
  ∧ allocated_ipv4 (pool Scenario.three_sessions.2)
    = {["192.168.100.1"; "192.168.100.2"]}
  ∧ (∀ uuid4 now request st,
       http_status (pfcp_session_establishment uuid4 now request st).1 = 200).
Proof.
  split_and!; try (vm_compute; reflexivity).
  intros uuid4 now request st.
  by destruct (establishment_always_accepts uuid4 now request st) as (r & -> & _).
Qed.

(** The sibling that does check: the IPv6 prefix endpoint raises 503 when the
    pool gives nothing (and its own [except Exception] turns that into 500). *)
Lemma ipv6_prefix_endpoint_checks_the_pool :
  (allocate_ipv6_prefix Scenario.upf_slash_30).1 = Raise (HTTPException 500).
Proof. reflexivity. Qed.

(** C6, on the code.  A modification or a deletion for a SEID that is not in
    [pfcp_sessions] raises the 404 inside the handler's own [try], whose
    [except Exception] answers 500: the status is internal, not not-found. *)
Theorem unknown_seid_is_answered_500 (seid : string)
    (modification_request : list (string * json)) (now : Z) (st : state) :
  pfcp_sessions st !! seid = None →
  http_status (pfcp_session_modification seid modification_request now st).1 = internal
  ∧ http_status (pfcp_session_deletion seid st).1 = internal.
Proof.
  intros Hnone. unfold pfcp_session_modification, pfcp_session_deletion.
  by rewrite Hnone.
Qed.

End UpfProperties.


(** With the bucket in place the same burst lets 248 packets through: the
    full bucket and what one second refills. *)
Example engaged_bucket_burst :
  Upf.admitted Scenario.qos_tunnel "downlink" Scenario.burst_packets
    Scenario.engaged_qos Scenario.engaged_scheduler = 248000.
Proof. vm_compute. reflexivity. Qed.

(** Witness of C6: an unknown SEID on a UPF that holds one session. *)
Lemma unknown_seid_is_answered_500_witness :
  http_status (Upf.pfcp_session_modification "no-such-seid" [] 5
                 Scenario.upf_with_qos_session).1 = internal
  ∧ http_status (Upf.pfcp_session_deletion "no-such-seid"
                   Scenario.upf_with_qos_session).1 = internal.
Proof.
  apply (unknown_seid_is_answered_500 "no-such-seid" [] 5 Scenario.upf_with_qos_session).
  vm_compute. reflexivity.
Defined.

(** ** PCF *)

Section PcfProperties.
Import Pcf.

Lemma parse_one_outside (s : string) :
  s ∉ PolicyControlRequestTrigger_values → PolicyControlRequestTrigger (JStr s) = Raise ValueError.
Proof. intros Hout. unfold PolicyControlRequestTrigger. by rewrite bool_decide_eq_false_2. Qed.

(** One item that is no trigger makes the whole comprehension raise. *)
Lemma mapM_raises (ts : list json) (t : json) :
  t ∈ ts → PolicyControlRequestTrigger t = Raise ValueError →
  mapM PolicyControlRequestTrigger ts = Raise ValueError.
Proof.
  intros Hin Hbad. induction ts as [|t0 ts IH]; [by apply elem_of_nil in Hin|].
  cbn [mapM]. apply elem_of_cons in Hin as [<-|Hin].
  - by rewrite Hbad.
  - destruct (PolicyControlRequestTrigger t0) as [v|e] eqn:Ht0.
    + cbn. by rewrite IH.
    + cbn. unfold PolicyControlRequestTrigger in Ht0.
      repeat case_match; congruence.
Qed.

(** C5, as amended.  On a known policy association, an update whose trigger
    list holds a string outside the trigger enumeration is answered 500
    (internal) and changes nothing: the handler has no invalid-argument
    answer. *)
Theorem unknown_trigger_is_answered_500 (smPolicyId : string)
    (update_data : option (list (string * json))) (ts : list json) (s : string)
    (now : Z) (st : state) :
  is_Some (sm_policy_decisions st !! smPolicyId) →
  update_data ≫= dict_get "triggers" = Some (JList ts) →
  JStr s ∈ ts → s ∉ PolicyControlRequestTrigger_values →
  http_status (update_sm_policy smPolicyId update_data now st).1 = internal
  ∧ (update_sm_policy smPolicyId update_data now st).2 = st.
Proof.
  intros [d Hd] Hts Hin Hout. unfold update_sm_policy, parse_triggers.
  rewrite Hd, Hts. cbn [iterate mbind outcome_bind].
  rewrite (mapM_raises ts (JStr s)); [done | done | by apply parse_one_outside].
Qed.

End PcfProperties.

(** C5 as stated fails: on the PCF with one association, the update with a
    trigger outside the enumeration is answered 500, not 400, and an update
    for an unknown association is answered 500, not 404. *)
Lemma update_sm_policy_statuses :
  http_status (Pcf.update_sm_policy Scenario.association_id Scenario.bogus_update 1
                 Scenario.pcf_with_policy).1 = 500
  ∧ http_status (Pcf.update_sm_policy "no-such-association" Scenario.app_start_update 1
                   Scenario.pcf_with_policy).1 = 500
  ∧ invalid_argument ≠ 500 ∧ not_found ≠ 500.
Proof. vm_compute. split_and!; done. Qed.

(** Witness of C5 (amended) on the same update. *)
Lemma unknown_trigger_is_answered_500_witness :
  http_status (Pcf.update_sm_policy Scenario.association_id Scenario.bogus_update 1
                 Scenario.pcf_with_policy).1 = internal
  ∧ (Pcf.update_sm_policy Scenario.association_id Scenario.bogus_update 1
       Scenario.pcf_with_policy).2 = Scenario.pcf_with_policy.
Proof.
  apply (unknown_trigger_is_answered_500 Scenario.association_id Scenario.bogus_update
           [JStr "APP_STA"; JStr "NOT_A_TRIGGER"] "NOT_A_TRIGGER" 1
           Scenario.pcf_with_policy).
  - vm_compute. by eexists.
  - reflexivity.
  - repeat constructor.
  - apply (bool_decide_eq_false _). vm_compute. reflexivity.
Defined.

(** The policy scenario: the application start adds the video rule and its
    QoS, whose 5QI is 2, and is answered 200. *)
Example app_start_adds_video_rule :
  let r := Pcf.update_sm_policy Scenario.association_id Scenario.app_start_update 1
             Scenario.pcf_with_policy in
  http_status r.1 = 200
  ∧ Pcf.rule_ids Scenario.association_id r.2
    = ["rule_internet_default"; "rule_video_streaming"]
  ∧ Pcf.qos_fiveqi Scenario.association_id "qos_video" r.2 = Some 2.
Proof. vm_compute. done. Qed.

(** ** NRF *)

Section NrfProperties.
Import Nrf.

Lemma insert_by_key_perm (x : NFProfile) (l : list NFProfile) :
  insert_by_key x l ≡ₚ x :: l.
Proof.
  induction l as [|y l IH]; [done|]. cbn [insert_by_key].
  case_decide; [done|]. rewrite IH. apply Permutation_swap.
Qed.

Lemma sort_by_key_perm (l : list NFProfile) : sort_by_key l ≡ₚ l.
Proof.
  induction l as [|x l IH]; [done|].
  unfold sort_by_key in *. cbn [foldr]. by rewrite insert_by_key_perm, IH.
Qed.

Lemma discovery_order_key (a b : NFProfile) :
  discovery_order a b ↔ key_le (sort_key a) (sort_key b).
Proof. unfold discovery_order, key_le, sort_key. cbn [fst snd]. lia. Qed.

Lemma discovery_order_total (a b : NFProfile) :
  ¬ key_le (sort_key a) (sort_key b) → discovery_order b a.
Proof. rewrite discovery_order_key. unfold key_le. lia. Qed.

Lemma discovery_order_trans (a b c : NFProfile) :
  discovery_order a b → discovery_order b c → discovery_order a c.
Proof. unfold discovery_order. lia. Qed.

Lemma insert_by_key_sorted (x : NFProfile) (l : list NFProfile) :
  StronglySorted discovery_order l → StronglySorted discovery_order (insert_by_key x l).
Proof.
  induction 1 as [|y l Hl IH Hy]; cbn [insert_by_key].
  - repeat constructor.
  - case_decide as Hxy.
    + apply discovery_order_key in Hxy.
      constructor; [by constructor|].
      constructor; [done|].
      eapply Forall_impl; [exact Hy|]. intros z Hz.
      by eapply discovery_order_trans.
    + apply discovery_order_total in Hxy.
      constructor; [done|].
      rewrite insert_by_key_perm. by constructor.
Qed.

Lemma sort_by_key_sorted (l : list NFProfile) :
  StronglySorted discovery_order (sort_by_key l).
Proof.
  induction l as [|x l IH]; [constructor|].
  unfold sort_by_key in *. cbn [foldr]. by apply insert_by_key_sorted.
Qed.

Lemma take_sorted {A} (R : A → A → Prop) (n : nat) (l : list A) :
  StronglySorted R l → StronglySorted R (take n l).
Proof.
  intros Hl. revert n. induction Hl as [|x l Hl IH Hx]; intros [|n]; cbn [take];
    try constructor; [apply IH|].
  apply Forall_take. exact Hx.
Qed.

(** Whatever the limit, the answer is a prefix of the sorted list. *)
Lemma found_is_prefix (nf_profiles : list (string * NFProfile))
    (target requester : option NFType) (names : option (list string))
    (snssais : option (list Snssai)) (plmns : option (list PlmnId))
    (dnn : option string) (limit : option Z) :
  ∃ k, find_nf_instances nf_profiles target requester names snssais plmns dnn limit
       = take k (find_nf_instances nf_profiles target requester names snssais plmns dnn None).
Proof.
  unfold find_nf_instances, slice_to. destruct limit as [n|].
  - repeat case_decide; eauto. exists (length nf_profiles). rewrite take_ge; [done|].
    rewrite sort_by_key_perm. etrans; [apply length_filter|]. by rewrite length_fmap.
  - exists (length nf_profiles). rewrite take_ge; [done|].
    rewrite sort_by_key_perm. etrans; [apply length_filter|]. by rewrite length_fmap.
Qed.

Lemma found_unlimited (nf_profiles : list (string * NFProfile))
    (target requester : option NFType) (names : option (list string))
    (snssais : option (list Snssai)) (plmns : option (list PlmnId))
    (dnn : option string) (p : NFProfile) :
  p ∈ find_nf_instances nf_profiles target requester names snssais plmns dnn None
  ↔ (passes_filters target requester names snssais plmns p ∧ nfStatus p = REGISTERED)
    ∧ p ∈ nf_profiles.*2.
Proof. unfold find_nf_instances. by rewrite sort_by_key_perm, list_elem_of_filter. Qed.

(** C8. A discovery returns only REGISTERED profiles; a stored profile [p] is
    in the answer to the discovery for its own NF type with no other filter
    iff it is REGISTERED; the answer is sorted ascending by priority, then
    descending by capacity; and with a limit [n] (at least 1, as the endpoint
    requires) it is the first [n] profiles of the answer without limit. *)
Theorem discovery_contract (nf_profiles : list (string * NFProfile)) :
  (∀ p, p ∈ nf_profiles.*2 →
        p ∈ find_nf_instances nf_profiles (Some (nfType p)) None None None None None None
        ↔ nfStatus p = REGISTERED)
  ∧ (∀ target requester names snssais plmns dnn limit,
       Forall (λ p, nfStatus p = REGISTERED)
              (find_nf_instances nf_profiles target requester names snssais plmns dnn limit)
       ∧ StronglySorted discovery_order
           (find_nf_instances nf_profiles target requester names snssais plmns dnn limit))
  ∧ (∀ target requester names snssais plmns dnn (n : Z),
       1 ≤ n →
       find_nf_instances nf_profiles target requester names snssais plmns dnn (Some n)
       = take (Z.to_nat n)
           (find_nf_instances nf_profiles target requester names snssais plmns dnn None)).
Proof.
  split_and!.
  - intros p Hp. rewrite found_unlimited. unfold passes_filters.
    rewrite bool_decide_eq_true_2 by done. cbn. tauto.
  - intros target requester names snssais plmns dnn limit.
    destruct (found_is_prefix nf_profiles target requester names snssais plmns dnn limit)
      as [k ->].
    split.
    + apply Forall_take, Forall_forall. intros p Hp.
      apply found_unlimited in Hp. tauto.
    + apply take_sorted. unfold find_nf_instances. apply sort_by_key_sorted.
  - intros target requester names snssais plmns dnn n Hn.
    unfold find_nf_instances, slice_to. repeat case_decide; (done || lia).
Qed.

End NrfProperties.

(** Witness of C8 on a registry of four AMFs and one SMF: the suspended AMF
    is left out, the others come by priority and then by capacity, and a
    limit of 2 keeps the first two. *)
Lemma discovery_contract_witness :
  (Scenario.profile "amf-1" Nrf.AMF Nrf.REGISTERED (Some 2) (Some 10)).2
    ∈ Nrf.find_nf_instances Scenario.registry (Some Nrf.AMF) None None None None None None
  ∧ (Nrf.nfInstanceId
     <$> Nrf.find_nf_instances Scenario.registry (Some Nrf.AMF) None None None None None None
   = ["amf-4"; "amf-3"; "amf-1"])
  ∧ StronglySorted Nrf.discovery_order
      (Nrf.find_nf_instances Scenario.registry (Some Nrf.AMF) None None None None None None)
  ∧ Nrf.find_nf_instances Scenario.registry (Some Nrf.AMF) None None None None None (Some 2)
    = take 2 (Nrf.find_nf_instances Scenario.registry (Some Nrf.AMF)
                None None None None None None).
Proof.
  pose proof (discovery_contract Scenario.registry) as (Hiff & Hsorted & Hlimit).
  split_and!.
  - apply (Hiff (Scenario.profile "amf-1" Nrf.AMF Nrf.REGISTERED (Some 2) (Some 10)).2);
      [apply list_elem_of_here | reflexivity].
  - vm_compute. reflexivity.
  - apply (Hsorted (Some Nrf.AMF) None None None None None None).
  - apply (Hlimit (Some Nrf.AMF) None None None None None 2). lia.
Defined.

(** ** DU: RLC AM *)

Section DuProperties.
Import Du.

(** A call of [receive_am_pdu] hands up the payload of the PDU it was given
    or nothing: a PDU buffered by an earlier call is not looked at again. *)
Lemma receive_hands_up_the_arrival_only (id : entity_id) (pdu : RlcPdu)
    (am : gmap entity_id am_entity) (s : string) :
  (receive_am_pdu id pdu am).1 = Return (Some s) →
  s = payload pdu ∧ ∃ e, am !! id = Some e ∧ sn (header pdu) = vr_r e.
Proof.
  unfold receive_am_pdu. destruct (am !! id) as [e|]; [|done].
  repeat case_match; try done. intros [= <-]. eauto.
Qed.

(** C9, at the failing input.  Two SDUs are transmitted with SN 0 and 1 and
    the PDUs arrive in the order SN 1, SN 0.  The PDU with SN 1 is buffered
    and nothing is handed up; the PDU with SN 0 is handed up and VR(R)
    becomes 1; the buffered PDU stays in the receive window and its SDU is
    not released.  In-order arrival releases both. *)
Theorem reordered_sdu_is_not_released :
  (sn ∘ header <$> Scenario.two_pdus = [0; 1])
  ∧ released (receive_all Scenario.receiver (reverse Scenario.two_pdus)
                Scenario.rlc_entities).1 = ["sdu-0"]
  ∧ (vr_r <$> (receive_all Scenario.receiver (reverse Scenario.two_pdus)
                 Scenario.rlc_entities).2 !! Scenario.receiver) = Some 1
  ∧ (payload <$> ((receive_all Scenario.receiver (reverse Scenario.two_pdus)
                     Scenario.rlc_entities).2 !! Scenario.receiver
                  ≫= λ e, rx_window e !! 1)) = Some "sdu-1"
  ∧ released (receive_all Scenario.receiver Scenario.two_pdus
                Scenario.rlc_entities).1 = ["sdu-0"; "sdu-1"].
Proof. vm_compute. done. Qed.

(** What [handed_up] lists is what was released. *)
Lemma released_handed_up (id : entity_id) (pdus : list RlcPdu)
    (am : gmap entity_id am_entity) :
  released (receive_all id pdus am).1 = payload <$> handed_up id pdus am.
Proof.
  revert am. induction pdus as [|pdu pdus IH]; intros am; [done|].
  cbn [receive_all handed_up].
  destruct (receive_am_pdu id pdu am) as [r am1] eqn:Hr.
  specialize (IH am1). destruct (receive_all id pdus am1) as [rs am2].
  cbn [fst] in *. unfold released in *. cbn [omap list_omap].
  destruct r as [[s|]|e]; cbn; rewrite ?IH; [|done..].
  f_equal. apply (receive_hands_up_the_arrival_only id pdu am s). by rewrite Hr.
Qed.


End DuProperties.


(** * Further properties of the handlers *)

(** ** Dictionaries and loops *)

Section PythonValues.


Lemma dict_get_set_eq {V} (k : string) (v : V) (d : list (string * V)) :
  dict_get k (dict_set k v d) = Some v.
Proof.
  induction d as [|[k' v'] d IH]; cbn [dict_set dict_get].
  - by rewrite decide_True.
  - case_decide as Hk; cbn [dict_get].
    + by rewrite decide_True.
    + by rewrite decide_False.
Qed.

Lemma dict_get_set_ne {V} (k k' : string) (v : V) (d : list (string * V)) :
  k ≠ k' → dict_get k (dict_set k' v d) = dict_get k d.
Proof.
  intros Hne. induction d as [|[k0 v0] d IH]; cbn [dict_set dict_get].
  - by rewrite decide_False.
  - case_decide as Hk; cbn [dict_get].
    + subst. by rewrite !decide_False.
    + by rewrite IH.
Qed.


End PythonValues.

(** ** SMF: what Create SM Context stores *)

Section SmfCoverage.
Import Smf.
Variable py_repr : json → string.

(** X27. What Create SM Context leaves behind.  For a request with the
    five mandatory fields and an integer pduSessionId: when the UPF is known
    and answers the PFCP establishment with an object, the request is
    answered, the context is stored under [f"{supi}:{pduSessionId}"], the
    key the answer names, in session state ACTIVE with the UPF's [upfSeid]
    (["upf-seid-unknown"] when the UPF names none); when no UPF is known or
    the UPF does not answer, the request is answered 502 and nothing is
    stored. *)
Theorem sm_context_is_stored_when_the_upf_answers
    (upf : upf_peer) (body : list (string * json)) (sid : json) (n : Z)
    (st : gmap string json) :
  missing_fields body = [] →
  dict_get "pduSessionId" body = Some sid →
  as_int sid = Some n →
  let key := py_str py_repr (get_or_null "supi" body) +:+ ":" +:+ py_str py_repr sid in
  let answer := create_sm_context py_repr upf (JObj body) st in
  (∀ url n4, upf_url upf = Some url → (∀ req, upf_post upf req = Some (JObj n4)) →
     ∃ resp stored,
       answer.1 = Return resp
       ∧ json_at [Key "smContext"; Key "contextId"] resp = Some (JStr key)
       ∧ answer.2 = <[key := JObj stored]> st
       ∧ dict_get "sessionState" stored = Some (JStr "ACTIVE")
       ∧ dict_get "pfcpSeid" stored
         = Some (default (JStr "upf-seid-unknown") (dict_get "upfSeid" n4))
       ∧ dict_get "ueIpAddress" stored
         = Some (JStr ("10." +:+ pretty (n `mod` 254 + 1) +:+ ".0.1")))
  ∧ (upf_url upf = None ∨ (∀ req, upf_post upf req = None) →
     answer = (Raise (HTTPException 502), st)).
Proof using Type.
  intros Hmissing Hsid Hn key answer.
  assert (dict_get "pduSessionId"
            (dict_update body
               [("ueIpAddress", JStr ("10." +:+ pretty (n `mod` 254 + 1) +:+ ".0.1"));
                ("sessionState", JStr "ESTABLISHING")]) = Some sid) as Hsid'.
  { unfold dict_update. cbn [foldl fst snd]. by rewrite !dict_get_set_ne. }
  split.
  - intros url n4 Hurl Hpost.
    unfold answer, create_sm_context. rewrite Hmissing.
    unfold create_sm_context_body, get_or_null, ue_ip_octet.
    rewrite Hsid. cbn [default from_option id]. rewrite Hn.
    cbn [mbind outcome_bind]. unfold _send_pfcp_establishment_request.
    rewrite Hurl. unfold pfcp_request. rewrite Hsid'.
    cbn [from_option mbind outcome_bind mret outcome_ret]. rewrite Hpost.
    cbn [except_HTTPException_reraise fst snd].
    eexists _, _. split; [reflexivity|]. split; [reflexivity|]. split; [reflexivity|].
    unfold dict_update. cbn [foldl fst snd].
    split_and!.
    + rewrite !dict_get_set_ne by done. apply dict_get_set_eq.
    + rewrite dict_get_set_ne by done. apply dict_get_set_eq.
    + rewrite !dict_get_set_ne by done. apply dict_get_set_eq.
  - intros Hdown. unfold answer, create_sm_context. rewrite Hmissing.
    unfold create_sm_context_body, get_or_null, ue_ip_octet.
    rewrite Hsid. cbn [default from_option id]. rewrite Hn.
    cbn [mbind outcome_bind]. unfold _send_pfcp_establishment_request.
    destruct Hdown as [->|Hpost]; [done|].
    destruct (upf_url upf); [|done]. unfold pfcp_request. rewrite Hsid'.
    cbn [from_option mbind outcome_bind mret outcome_ret]. by rewrite Hpost.
Qed.

End SmfCoverage.

(** Witness of X27 on the PDU-session scenario, with the UPF up and with no
    UPF known. *)
Lemma sm_context_is_stored_when_the_upf_answers_witness :
  let key := "imsi-001010000000001:1" in
  let answer := Smf.create_sm_context Scenario.no_repr Scenario.upf_up
                  (JObj Scenario.sm_context_request) ∅ in
  (∃ resp stored,
     answer.1 = Return resp
     ∧ Smf.json_at [Smf.Key "smContext"; Smf.Key "contextId"] resp = Some (JStr key)
     ∧ answer.2 = <[key := JObj stored]> ∅
     ∧ dict_get "sessionState" stored = Some (JStr "ACTIVE")
     ∧ dict_get "pfcpSeid" stored = Some (JStr "upf-seid-1")
     ∧ dict_get "ueIpAddress" stored = Some (JStr "10.2.0.1"))
  ∧ Smf.create_sm_context Scenario.no_repr
      {| Smf.upf_url := None; Smf.upf_post := λ _, None |}
      (JObj Scenario.sm_context_request) ∅
    = (Raise (HTTPException 502), ∅).
Proof.
  intros key answer. split.
  - apply (proj1 (sm_context_is_stored_when_the_upf_answers Scenario.no_repr Scenario.upf_up
                    Scenario.sm_context_request (JInt 1) 1 ∅ eq_refl eq_refl eq_refl)
             "http://127.0.0.1:9002"
             [("status", JStr "SUCCESS"); ("upfSeid", JStr "upf-seid-1")]);
      [reflexivity | intros req; reflexivity].
  - apply (proj2 (sm_context_is_stored_when_the_upf_answers Scenario.no_repr
                    {| Smf.upf_url := None; Smf.upf_post := λ _, None |}
                    Scenario.sm_context_request (JInt 1) 1 ∅ eq_refl eq_refl eq_refl)).
    by left.
Defined.

(** ** AMF: identifiers, slices, the registration flow *)

Section AmfCoverage.
Import Amf.
Variable py_hash : string → Z.





Lemma accept_carries_the_guti (supi : string) (requested : option (list Snssai)) :
  mobile_identity (create_registration_accept py_hash supi requested)
  = generate_5g_guti py_hash supi.
Proof using Type.
  unfold create_registration_accept. by repeat case_match.
Qed.

Lemma handle_keeps_guti (rq : request) (st : state) :
  guti_follows_state py_hash st → guti_follows_state py_hash (handle py_hash rq st).
Proof using Type.
  unfold guti_follows_state. intros Hst.
  destruct rq as [env now r|env d|d|env sid now r]; cbn [handle].
  - unfold process_registration_request.
    destruct (if bool_decide _ then _ else _); cbn [snd ue_contexts].
    + apply map_Forall_insert_2; [by right|done].
    + apply map_Forall_insert_2.
      * left. cbn. by rewrite accept_carries_the_guti.
      * by apply map_Forall_insert_2; [right|].
  - by rewrite authentication_response_keeps_contexts.
  - unfold process_security_mode_complete.
    repeat (case_match; try done).
    cbn [snd ue_contexts]. apply map_Forall_insert_2; [|done].
    left. cbn. by rewrite accept_carries_the_guti.
  - unfold process_pdu_session_establishment_request.
    repeat (case_match; try done).
Qed.

Lemma run_keeps_guti (rqs : list request) : guti_follows_state py_hash (run py_hash rqs).
Proof using Type.
  unfold run. assert (guti_follows_state py_hash boot) as Hboot by apply map_Forall_empty.
  revert Hboot. generalize boot.
  induction rqs as [|rq rqs IH]; intros st Hst; [done|].
  cbn [foldl]. apply IH. by apply handle_keeps_guti.
Qed.

(** X23. A UE context has a GUTI iff it is REGISTERED, and the GUTI is the
    one of the SUPI it is stored under, in every state the AMF reaches. *)
Theorem guti_iff_registered (rqs : list request) (supi : string) (c : ue_context) :
  ue_contexts (run py_hash rqs) !! supi = Some c →
  (registration_state c = "REGISTERED" ↔ is_Some (guti c))
  ∧ (∀ g, guti c = Some g → g = generate_5g_guti py_hash supi).
Proof using Type.
  intros Hc.
  destruct (run_keeps_guti rqs supi c Hc) as [[Hstate Hguti]|[Hstate Hguti]]; rewrite Hstate, Hguti.
  - split; [by split; [eexists|]|]. by intros g [= <-].
  - split; [|done]. split; [done|]. by intros [g [=]].
Qed.



Lemma nonempty_is_truthy (s : string) : s ≠ "" → truthy (JStr s) = true.
Proof using Type.
  intros Hs. cbn. apply negb_true_iff. by apply String.eqb_neq.
Qed.

Lemma authentication_response_accepted (env : peers) (supi res ctx : string)
    (confirmation : ConfirmationDataResponse) (c : ue_context) (st : state) :
  supi ≠ "" → res ≠ "" → ctx ≠ "" →
  ausf_confirm env (JStr ctx) (JStr res) = Some (200, confirmation) →
  authResult confirmation = "AUTHENTICATION_SUCCESS" →
  ue_contexts st !! supi = Some c →
  process_authentication_response env
    [("supi", JStr supi); ("authResponse", JStr res); ("authContextId", JStr ctx)] st
  = (Return (AUTHENTICATION_SUCCESS
               (create_security_mode_command supi (uc_ue_security_capability c))),
     {| ue_contexts := ue_contexts st;
        pdu_sessions := pdu_sessions st;
        nas_security_contexts :=
          <[supi := {| sc_kseaf := cdr_kseaf confirmation;
                       selected_algorithms :=
                         selected_nas_security_algorithms
                           (create_security_mode_command supi (uc_ue_security_capability c));
                       sc_ngksi := 1 |}]> (nas_security_contexts st) |}).
Proof using Type.
  intros Hsupi Hres Hctx Hconfirm Hresult Hc.
  unfold process_authentication_response, process_authentication_response_body.
  cbn [dict_get].
  repeat first [rewrite decide_True by done | rewrite decide_False by done].
  cbn [default from_option id].
  rewrite !nonempty_is_truthy by done. cbn [andb negb]. rewrite Hconfirm.
  rewrite decide_True by done. rewrite decide_True by done.
  cbn [mbind outcome_bind]. rewrite Hc. reflexivity.
Qed.

Lemma security_mode_complete_accepted (supi : string) (imeisv_v : json) (c : ue_context)
    (st : state) :
  ue_contexts st !! supi = Some c →
  ∃ c',
    process_security_mode_complete py_hash [("supi", JStr supi); ("imeisv", imeisv_v)] st
    = (Return (create_registration_accept py_hash supi (uc_requested_nssai c)),
       {| ue_contexts := <[supi := c']> (ue_contexts st);
          pdu_sessions := pdu_sessions st;
          nas_security_contexts := nas_security_contexts st |})
    ∧ registration_state c' = "REGISTERED"
    ∧ guti c' = Some (generate_5g_guti py_hash supi)
    ∧ security_mode_complete c' = true.
Proof using Type.
  intros Hc. unfold process_security_mode_complete. cbn [dict_get].
  repeat first [rewrite decide_True by done | rewrite decide_False by done].
  cbn [default from_option id]. rewrite Hc.
  eexists. split; [reflexivity|]. cbn. by rewrite accept_carries_the_guti.
Qed.

(** X26. The registration flow ends REGISTERED: with an AUSF that
    challenges the UE and confirms its response, an initial (or emergency)
    registration is answered AUTHENTICATION_REQUIRED, the authentication
    response of the UE is answered with the security mode command, and the
    security mode complete with the registration accept that carries the
    GUTI of the SUPI; the context is then REGISTERED with this GUTI, and the
    security context of the SUPI holds the [kseaf] the AUSF sent. *)
Theorem registration_flow_ends_registered
    (challenge : AuthenticationInfoResult) (confirmation : ConfirmationDataResponse)
    (udm : string → bool) (now : Z) (req : RegistrationRequest)
    (res ctx : string) (imeisv_v : json) (st : state) :
  let env := ausf_accepting challenge confirmation udm in
  let supi := supi_of_suci (suci req) in
  registration_type req ∈ [1; 3] →
  authResult confirmation = "AUTHENTICATION_SUCCESS" →
  supi ≠ "" → res ≠ "" → ctx ≠ "" →
  let r1 := process_registration_request py_hash env now req st in
  let r2 := process_authentication_response env
              [("supi", JStr supi); ("authResponse", JStr res); ("authContextId", JStr ctx)]
              r1.2 in
  let r3 := process_security_mode_complete py_hash
              [("supi", JStr supi); ("imeisv", imeisv_v)] r2.2 in
  (∃ m l, r1.1 = Return (AUTHENTICATION_REQUIRED m l))
  ∧ (∃ m, r2.1 = Return (AUTHENTICATION_SUCCESS m))
  ∧ mobile_identity <$> r3.1 = Return (generate_5g_guti py_hash supi)
  ∧ (λ c, (registration_state c, guti c, security_mode_complete c))
      <$> ue_contexts r3.2 !! supi
    = Some ("REGISTERED", Some (generate_5g_guti py_hash supi), true)
  ∧ sc_kseaf <$> nas_security_contexts r3.2 !! supi = Some (cdr_kseaf confirmation).
Proof using Type.
  intros env supi Htype Hresult Hsupi Hres Hctx r1 r2 r3.
  assert (∃ m l st1 c, r1 = (Return (AUTHENTICATION_REQUIRED m l), st1)
                       ∧ ue_contexts st1 !! supi = Some c) as (m & l & st1 & c & Hr1 & Hc).
  { unfold r1, process_registration_request. fold supi.
    rewrite (bool_decide_eq_true_2 _ Htype).
    cbn [env ausf_accepting initiate_authentication].
    eexists _, _, _, _. split; [reflexivity|]. cbn [ue_contexts]. apply lookup_insert_eq. }
  pose proof (authentication_response_accepted env supi res ctx confirmation c st1
                Hsupi Hres Hctx eq_refl Hresult Hc) as Hr2.
  unfold r3, r2. rewrite Hr1. cbn [fst snd]. rewrite Hr2. cbn [fst snd].
  destruct (security_mode_complete_accepted supi imeisv_v c
              {| ue_contexts := ue_contexts st1; pdu_sessions := pdu_sessions st1;
                 nas_security_contexts :=
                   <[supi := {| sc_kseaf := cdr_kseaf confirmation;
                                selected_algorithms :=
                                  selected_nas_security_algorithms
                                    (create_security_mode_command supi
                                       (uc_ue_security_capability c));
                                sc_ngksi := 1 |}]> (nas_security_contexts st1) |} Hc)
    as (c' & -> & Hstate & Hguti & Hsmc).
  cbn [fst snd ue_contexts nas_security_contexts fmap outcome_fmap].
  rewrite !lookup_insert_eq. cbn [fmap option_fmap option_map sc_kseaf].
  rewrite accept_carries_the_guti, Hstate, Hguti, Hsmc.
  split_and!; [by eexists _, _ | by eexists | done | done | done].
Qed.


Lemma default_nonempty_or_none {A} (l : list A) : default [] (nonempty_or_none l) = l.
Proof using Type. by destruct l. Qed.

(** X22. The registration accept splits the requested NSSAI: a requested
    slice is allowed iff its SST is 1 or 2 and rejected otherwise, both
    lists keep the order of the request, and a list that would be empty is
    absent; without a requested NSSAI the slice (1, 010203) is allowed and
    nothing is rejected. *)
Theorem requested_nssai_is_split (supi : string) (requested : list Snssai) :
  let accept := create_registration_accept py_hash supi (Some requested) in
  let none := create_registration_accept py_hash supi None in
  (requested ≠ [] →
   default [] (allowed_nssai accept) = filter (λ s, sst s = 1 ∨ sst s = 2) requested
   ∧ default [] (rejected_nssai accept) = filter (λ s, ¬ (sst s = 1 ∨ sst s = 2)) requested
   ∧ default [] (allowed_nssai accept) ++ default [] (rejected_nssai accept) ≡ₚ requested
   ∧ (allowed_nssai accept = None ↔ Forall (λ s, ¬ (sst s = 1 ∨ sst s = 2)) requested))
  ∧ allowed_nssai none = Some [{| sst := 1; sd := Some "010203" |}]
  ∧ rejected_nssai none = None
  ∧ create_registration_accept py_hash supi (Some []) = none.
Proof using Type.
  cbn zeta. split; [|done]. intros Hne.
  destruct requested as [|s0 rest]; [done|].
  unfold create_registration_accept.
  cbn [allowed_nssai rejected_nssai]. rewrite !default_nonempty_or_none.
  set (l := s0 :: rest).
  assert (filter (λ s, sst s ∈ supported_sst) l = filter (λ s, sst s = 1 ∨ sst s = 2) l)
    as Hallowed.
  { apply list_filter_iff. intros s. unfold supported_sst.
    rewrite !elem_of_cons, elem_of_nil. tauto. }
  assert (filter (λ s, sst s ∉ supported_sst) l
          = filter (λ s, ¬ (sst s = 1 ∨ sst s = 2)) l) as Hrejected.
  { apply list_filter_iff. intros s. unfold supported_sst.
    rewrite !elem_of_cons, elem_of_nil. tauto. }
  rewrite Hallowed, Hrejected. split_and!; [done|done| |].
  - clearbody l. clear. induction l as [|s l IH]; [done|].
    rewrite !filter_cons. destruct (decide (sst s = 1 ∨ sst s = 2)) as [Hs|Hs].
    + rewrite decide_False by tauto. cbn. by rewrite IH.
    + rewrite decide_True by done. rewrite <- Permutation_middle. by rewrite IH.
  - split.
    + destruct (filter (λ s, sst s = 1 ∨ sst s = 2) l) as [|x l'] eqn:Hf; [|done].
      intros _. apply Forall_forall. intros s Hs Hsst.
      assert (s ∈ filter (λ s, sst s = 1 ∨ sst s = 2) l) as Hin
        by by apply list_elem_of_filter.
      rewrite Hf in Hin. by apply elem_of_nil in Hin.
    + intros Hall. destruct (filter (λ s, sst s = 1 ∨ sst s = 2) l) as [|x l'] eqn:Hf;
        [done|].
      assert (x ∈ filter (λ s, sst s = 1 ∨ sst s = 2) l) as Hin by (rewrite Hf; by left).
      apply list_elem_of_filter in Hin as [Hsst Hin].
      rewrite Forall_forall in Hall. by destruct (Hall x Hin).
Qed.

(** X25. A request the AMF cannot serve is answered 500 and changes
    nothing, where the handler raises 400 or 404: an authentication response
    without one of supi, authResponse and authContextId, and a security mode
    complete for a SUPI that has no context. *)
Theorem unserved_requests_are_answered_500 (st : state) :
  (∀ env auth_data field,
     field ∈ ["supi"; "authResponse"; "authContextId"] →
     dict_get field auth_data = None →
     process_authentication_response env auth_data st = (Raise (HTTPException 500), st))
  ∧ (∀ supi imeisv_v,
       ue_contexts st !! supi = None →
       process_security_mode_complete py_hash [("supi", JStr supi); ("imeisv", imeisv_v)] st
       = (Raise (HTTPException 500), st)).
Proof using Type.
  split.
  - intros env auth_data field Hfield Hnone.
    unfold process_authentication_response, process_authentication_response_body.
    assert (truthy (default JNull (dict_get "supi" auth_data))
            && truthy (default JNull (dict_get "authResponse" auth_data))
            && truthy (default JNull (dict_get "authContextId" auth_data)) = false) as ->;
      [|done].
    repeat (apply elem_of_cons in Hfield as [->|Hfield];
            [rewrite Hnone; cbn; by rewrite ?andb_false_r|]).
    by apply elem_of_nil in Hfield.
  - intros supi imeisv_v Hnone. unfold process_security_mode_complete. cbn [dict_get].
    repeat first [rewrite decide_True by done | rewrite decide_False by done].
    cbn [default from_option id]. by rewrite Hnone.
Qed.

End AmfCoverage.

(** Witness of X23 on a registration accepted at once. *)
Lemma guti_iff_registered_witness :
  ∃ c,
    Amf.ue_contexts
      (Amf.run Scenario.zero_hash
         [Amf.RegistrationReq Scenario.amf_peers_alone 0 Scenario.registration_request])
      !! "imsi-000000001" = Some c
    ∧ (Amf.registration_state c = "REGISTERED" ↔ is_Some (Amf.guti c))
    ∧ (∀ g, Amf.guti c = Some g
            → g = Amf.generate_5g_guti Scenario.zero_hash "imsi-000000001").
Proof.
  eexists. split; [vm_compute; reflexivity|].
  apply (guti_iff_registered Scenario.zero_hash
           [Amf.RegistrationReq Scenario.amf_peers_alone 0 Scenario.registration_request]
           "imsi-000000001").
  vm_compute. reflexivity.
Defined.

(** Witness of X26 on the registration scenario. *)
Lemma registration_flow_ends_registered_witness :
  let env := Amf.ausf_accepting Scenario.challenge Scenario.confirmation (λ _, true) in
  let r1 := Amf.process_registration_request Scenario.zero_hash env 0
              Scenario.registration_request Amf.boot in
  let r2 := Amf.process_authentication_response env
              [("supi", JStr "imsi-000000001"); ("authResponse", JStr "0f1e2d3c4b5a6978");
               ("authContextId", JStr Scenario.auth_ctx_id)] r1.2 in
  let r3 := Amf.process_security_mode_complete Scenario.zero_hash
              [("supi", JStr "imsi-000000001"); ("imeisv", JStr "3534900698733190")] r2.2 in
  (λ c, (Amf.registration_state c, Amf.guti c, Amf.security_mode_complete c))
    <$> Amf.ue_contexts r3.2 !! "imsi-000000001"
  = Some ("REGISTERED", Some "400101000100100000000", true)
  ∧ Amf.sc_kseaf <$> Amf.nas_security_contexts r3.2 !! "imsi-000000001"
    = Some (Some "c0c1c2c3").
Proof.
  intros env r1 r2 r3.
  pose proof (registration_flow_ends_registered Scenario.zero_hash Scenario.challenge
                Scenario.confirmation (λ _, true) 0 Scenario.registration_request
                "0f1e2d3c4b5a6978" Scenario.auth_ctx_id (JStr "3534900698733190") Amf.boot)
    as Hflow.
  cbn zeta in Hflow.
  destruct Hflow as (_ & _ & _ & Hcontext & Hkey);
    [repeat constructor | reflexivity | vm_compute; discriminate | discriminate
    | vm_compute; discriminate |].
  split; [exact Hcontext | exact Hkey].
Defined.

(** Witness of X22 on a request for the slices of SST 1 and SST 3. *)
Lemma requested_nssai_is_split_witness :
  let embb := {| Amf.sst := 1; Amf.sd := Some "010203" |} in
  let miot := {| Amf.sst := 3; Amf.sd := None |} in
  let accept := Amf.create_registration_accept Scenario.zero_hash "imsi-000000001"
                  (Some [embb; miot]) in
  default [] (Amf.allowed_nssai accept) = [embb]
  ∧ default [] (Amf.rejected_nssai accept) = [miot].
Proof.
  intros embb miot accept.
  destruct (proj1 (requested_nssai_is_split Scenario.zero_hash "imsi-000000001"
                     [embb; miot])) as (Hallowed & Hrejected & _); [done|].
  split; (etrans; [eassumption|]); vm_compute; reflexivity.
Defined.

(** Witness of X25 on an AMF that has just started. *)
Lemma unserved_requests_are_answered_500_witness :
  Amf.process_authentication_response Scenario.amf_peers_alone
    [("supi", JStr "imsi-000000001")] Amf.boot
  = (Raise (HTTPException 500), Amf.boot)
  ∧ Amf.process_security_mode_complete Scenario.zero_hash
      [("supi", JStr "imsi-000000001"); ("imeisv", JNull)] Amf.boot
    = (Raise (HTTPException 500), Amf.boot).
Proof.
  destruct (unserved_requests_are_answered_500 Scenario.zero_hash Amf.boot)
    as [Hresponse Hcomplete].
  split.
  - apply (Hresponse _ _ "authResponse"); [repeat constructor | reflexivity].
  - apply Hcomplete. reflexivity.
Defined.

(** ** AUSF: the challenge, the UDM, deletion *)

Section AusfCoverage.
Import Ausf.
Variable sha256_hex : string → string.

(** X18. The AUSF cannot use what the emulator's UDM answers: whatever
    request the UDM answers with 200, its body carries an authentication
    vector with the keys rand, xres, autn and kausf, and the AUSF, which
    reads [hxresstar] from the vector, answers the authentication request
    with 500 and stores no context. *)
Theorem udm_vectors_fail_the_ausf (udm_entropy : Udm.entropy) (udm_supi : string)
    (auth_request : option (list (string * json))) (udm_now : Z) (udm : Udm.state)
    (body : json) (e : entropy) (auth_ctx_id : string) (now : Z)
    (supiOrSuci serving : string) (contexts : gmap string AuthCtx) :
  (Udm.generate_authentication_data sha256_hex udm_entropy udm_supi auth_request udm_now
     udm).1 = Return body →
  ue_authentication_request sha256_hex (Some body) e auth_ctx_id now supiOrSuci serving
    contexts
  = (Raise (HTTPException 500), contexts).
Proof using Type.
  unfold Udm.generate_authentication_data.
  destruct auth_request as [[|kv request]|]; [done| |done].
  destruct (mbind _ _) as [[v ev]|err]; cbn [fst]; [|by destruct err].
  intros [= <-]. reflexivity.
Qed.


(** The challenge the AUSF makes on its own, and the context it stores. *)
Lemma local_challenge (e : entropy) (auth_ctx_id : string) (now : Z)
    (supiOrSuci serving : string) (contexts : gmap string AuthCtx) :
  let supi := if String.prefix "suci-" supiOrSuci
              then "imsi-" +:+ split_last hyphen supiOrSuci else supiOrSuci in
  let autn := e_sqn e +:+ "8000" +:+ e_mac e in
  let hxresstar := String.substring 0 16 (sha256_hex (supi +:+ e_rand e +:+ autn)) in
  let kausf := sha256_hex (supi +:+ e_rand e +:+ "KAUSF") in
  ue_authentication_request sha256_hex None e auth_ctx_id now supiOrSuci serving contexts
  = (Return {| air_authType := "5G_AKA";
               authenticationVector :=
                 {| av_rand := e_rand e; av_autn := autn; av_hxresstar := hxresstar;
                    av_kausf := kausf |};
               air_supi := Some supi;
               href := "/nausf-auth/v1/ue-authentications/" +:+ auth_ctx_id
                       +:+ "/5g-aka-confirmation" |},
     <[auth_ctx_id :=
         {| supi := supi; servingNetworkName := serving; authType := "5G_AKA";
            rand := JStr (e_rand e); autn := JStr autn; hxresstar := JStr hxresstar;
            kausf := JStr kausf; timestamp := now; status := "ONGOING"; kseaf := None;
            completedAt := None |}]> contexts).
Proof using Type.
  cbn zeta. unfold ue_authentication_request, generate_5g_aka_vectors.
  cbn [subscript dict_get].
  repeat first [rewrite decide_True by done | rewrite decide_False by done].
  reflexivity.
Qed.

(** X19. With the UDM out of reach the AUSF challenges with a vector of its
    own, and its answer carries the expected response: the confirmation
    that echoes the [hxresstar] of the answer is AUTHENTICATION_SUCCESS, with
    [kseaf = sha256(kausf + servingNetworkName + "KSEAF")] for the [kausf] of
    the answer, and the context is left in status SUCCESS with this key; any
    other [resStar] is AUTHENTICATION_FAILURE. *)
Theorem local_challenge_is_answered_by_its_own_vector (e : entropy) (auth_ctx_id : string)
    (now now' : Z) (supiOrSuci serving resStar : string) (contexts : gmap string AuthCtx) :
  let challenge :=
    ue_authentication_request sha256_hex None e auth_ctx_id now supiOrSuci serving contexts in
  let confirmation := authentication_confirmation sha256_hex auth_ctx_id resStar now' challenge.2 in
  ∃ v,
    authenticationVector <$> challenge.1 = Return v
    ∧ (resStar = av_hxresstar v →
       authResult <$> confirmation.1 = Return "AUTHENTICATION_SUCCESS"
       ∧ cdr_kseaf <$> confirmation.1 = Return (Some (derive_kseaf sha256_hex (av_kausf v) serving))
       ∧ (λ c, (status c, kseaf c)) <$> confirmation.2 !! auth_ctx_id
         = Some ("SUCCESS", Some (derive_kseaf sha256_hex (av_kausf v) serving)))
    ∧ (resStar ≠ av_hxresstar v →
       authResult <$> confirmation.1 = Return "AUTHENTICATION_FAILURE"
       ∧ cdr_kseaf <$> confirmation.1 = Return None
       ∧ status <$> confirmation.2 !! auth_ctx_id = Some "FAILURE").
Proof using Type.
  cbn zeta. rewrite local_challenge. cbn [fst snd fmap outcome_fmap authenticationVector].
  eexists. split; [reflexivity|]. cbn [av_hxresstar av_kausf].
  unfold authentication_confirmation, verify_authentication_response.
  rewrite !lookup_insert_eq. cbn [hxresstar str_eq_json kausf].
  split.
  - intros ->. rewrite bool_decide_eq_true_2 by done. cbn.
    by rewrite lookup_insert_eq.
  - intros Hne. rewrite bool_decide_eq_false_2 by done. cbn.
    by rewrite lookup_insert_eq.
Qed.

(** X20. Deleting an authentication context removes this context and no
    other: afterwards the GET, the confirmation and a second DELETE on its
    identifier are answered 404 and change nothing, and every other context
    is as it was. *)
Theorem deleted_context_is_gone (authCtxId resStar : string) (now : Z) (c : AuthCtx)
    (contexts : gmap string AuthCtx) :
  contexts !! authCtxId = Some c →
  let deleted := delete_authentication_context authCtxId contexts in
  deleted.1 = Return ()
  ∧ http_status (get_authentication_context authCtxId deleted.2) = 404
  ∧ authentication_confirmation sha256_hex authCtxId resStar now deleted.2
    = (Raise (HTTPException 404), deleted.2)
  ∧ delete_authentication_context authCtxId deleted.2
    = (Raise (HTTPException 404), deleted.2)
  ∧ ∀ other, other ≠ authCtxId → deleted.2 !! other = contexts !! other.
Proof using Type.
  intros Hc deleted.
  assert (deleted = (Return (), delete authCtxId contexts)) as ->.
  { unfold deleted, delete_authentication_context. by rewrite Hc. }
  cbn [fst snd].
  unfold get_authentication_context, authentication_confirmation,
    delete_authentication_context.
  rewrite lookup_delete_eq. split_and!; [done..|].
  intros other Hne. by rewrite lookup_delete_ne.
Qed.

End AusfCoverage.

(** Witness of X18: the UDM answers the request for its subscriber with
    200, and the AUSF, given this answer, answers 500. *)
Lemma udm_vectors_fail_the_ausf_witness :
  http_status Scenario.udm_answer = 200
  ∧ ∃ body,
      Udm.to_ausf Scenario.udm_answer = Some body
      ∧ Ausf.ue_authentication_request Scenario.id_hash (Some body) Scenario.auth_entropy
          Scenario.auth_ctx_id 0 Scenario.subscriber Scenario.serving_network ∅
        = (Raise (HTTPException 500), ∅).
Proof.
  split; [vm_compute; reflexivity|].
  eexists. split; [vm_compute; reflexivity|].
  eapply (udm_vectors_fail_the_ausf Scenario.id_hash Scenario.udm_entropy Scenario.subscriber
            (Some (Udm.udm_request Scenario.subscriber Scenario.serving_network "ausf-1"))
            0 Scenario.udm_with_subscriber).
  vm_compute. reflexivity.
Defined.

(** Witness of X20 on the context of the challenge scenario. *)
Lemma deleted_context_is_gone_witness :
  let contexts := Ausf.run Scenario.id_hash [Scenario.challenge_request] in
  let deleted := Ausf.delete_authentication_context Scenario.auth_ctx_id contexts in
  is_Some (contexts !! Scenario.auth_ctx_id)
  ∧ deleted.1 = Return ()
  ∧ http_status (Ausf.get_authentication_context Scenario.auth_ctx_id deleted.2) = 404.
Proof.
  intros contexts deleted. split; [eexists; vm_compute; reflexivity|].
  epose proof (deleted_context_is_gone Scenario.id_hash Scenario.auth_ctx_id "" 0 _ contexts _)
    as (Hdeleted & Hget & _).
  Unshelve.
  all: [> | try (vm_compute; reflexivity) ..].
  split; [exact Hdeleted | exact Hget].
Defined.

(** Witness of X19 on the challenge scenario: the response that echoes the
    [hxresstar] of the challenge, and another one. *)
Lemma local_challenge_is_answered_by_its_own_vector_witness :
  let challenge :=
    Ausf.ue_authentication_request Scenario.id_hash None Scenario.auth_entropy
      Scenario.auth_ctx_id 0 "suci-001-01-0000-000000001" Scenario.serving_network ∅ in
  Ausf.authResult
    <$> (Ausf.authentication_confirmation Scenario.id_hash Scenario.auth_ctx_id
           "imsi-00000000100" 1 challenge.2).1
  = Return "AUTHENTICATION_SUCCESS"
  ∧ Ausf.authResult
      <$> (Ausf.authentication_confirmation Scenario.id_hash Scenario.auth_ctx_id
             "ffffffffffffffff" 2 challenge.2).1
    = Return "AUTHENTICATION_FAILURE".
Proof.
  intros challenge. split.
  - destruct (local_challenge_is_answered_by_its_own_vector Scenario.id_hash
                Scenario.auth_entropy Scenario.auth_ctx_id 0 1
                "suci-001-01-0000-000000001" Scenario.serving_network
                "imsi-00000000100" ∅) as (v & Hv & Hright & _).
    apply Hright. vm_compute in Hv. by injection Hv as <-.
  - destruct (local_challenge_is_answered_by_its_own_vector Scenario.id_hash
                Scenario.auth_entropy Scenario.auth_ctx_id 0 2
                "suci-001-01-0000-000000001" Scenario.serving_network
                "ffffffffffffffff" ∅) as (v & Hv & _ & Hwrong).
    apply Hwrong. vm_compute in Hv. injection Hv as <-. discriminate.
Defined.

(** ** UPF: addresses, counters, modification *)

Section UpfCoverage.
Import Upf.

Lemma first_free_spec {A} (name : A → string) (used : gset string) (l : list A) (a : A) :
  first_free name used l = Some a →
  a ∈ l ∧ (name a ∉ used)
  ∧ ∃ i, l !! i = Some a ∧ ∀ j b, l !! j = Some b → (j < i)%nat → name b ∈ used.
Proof.
  unfold first_free. destruct (list_find _ l) as [[i x]|] eqn:Hfind; [|done].
  cbn. intros [= <-]. apply list_find_Some in Hfind as (Hi & Hfree & Hbefore).
  split_and!; [by eapply list_elem_of_lookup_2|done|].
  exists i. split; [done|]. intros j b Hj Hlt.
  destruct (decide (name b ∈ used)) as [|Hn]; [done|]. by destruct (Hbefore j b Hj Hlt).
Qed.










Section Addresses.
Variables (hosts4 : list string) (subnets6 : list (string * string)).
Hypothesis families_apart : ∀ a, a ∈ hosts4 → a ∉ subnets6.*1.





End Addresses.

(** X3. IPv4 allocation is first-fit: the address handed out is the first
    host of the pool, in the order [hosts()] enumerates them, that is not
    marked allocated; it is marked allocated afterwards, and nothing else
    is. *)
Theorem ipv4_allocation_is_first_fit (pdn_type : string) (p : pools) (ip : string) :
  dict_get "ipv4" (allocate_ip_address pdn_type p).1 = Some ip →
  (ip ∉ allocated_ipv4 p)
  ∧ allocated_ipv4 (allocate_ip_address pdn_type p).2 = {[ip]} ∪ allocated_ipv4 p
  ∧ ∃ i, ipv4_hosts p !! i = Some ip
         ∧ ∀ j b, ipv4_hosts p !! j = Some b → (j < i)%nat → b ∈ allocated_ipv4 p.
Proof.
  unfold allocate_ip_address.
  case_bool_decide as H4; cycle 1.
  { repeat (case_bool_decide || case_match); simplify_eq/=; done. }
  destruct (first_free id _ (ipv4_hosts p)) as [ip'|] eqn:Hip; cycle 1.
  { repeat (case_bool_decide || case_match); simplify_eq/=; done. }
  apply first_free_spec in Hip as (_ & Hfree & Hfirst).
  repeat (case_bool_decide || case_match); simplify_eq/=.
  all: by intros [= <-].
Qed.



Lemma count_packet_seen (direction : string) (size now : Z) (s : TrafficStats) :
  packets_seen (count_packet direction size now s) = packets_seen s + 1
  ∧ bytes_seen (count_packet direction size now s) = bytes_seen s + size
  ∧ drops_seen (count_packet direction size now s) = drops_seen s.
Proof.
  unfold count_packet, packets_seen, bytes_seen, drops_seen.
  case_decide; cbn; lia.
Qed.

Lemma count_drop_seen (direction : string) (s : TrafficStats) :
  packets_seen (count_drop direction s) = packets_seen s
  ∧ bytes_seen (count_drop direction s) = bytes_seen s
  ∧ drops_seen (count_drop direction s) = drops_seen s + 1.
Proof.
  unfold count_drop, packets_seen, bytes_seen, drops_seen.
  case_decide; cbn; lia.
Qed.

Lemma dropped_answers_cons (answer : outcome string) (answers : list (outcome string)) :
  dropped_answers (answer :: answers)
  = (if is_dropped answer then 1 else 0) + dropped_answers answers.
Proof.
  unfold dropped_answers. cbn [filter list_filter].
  destruct (is_dropped answer).
  - rewrite decide_True by done. cbn [length].
    rewrite Nat2Z.inj_succ. unfold Z.succ. by rewrite Z.add_comm.
  - rewrite decide_False by (cbn; intros []). by rewrite Z.add_0_l.
Qed.

(** X7. The counters of a tunnel follow the answers: over any run of packets
    on a tunnel, the tunnel counts every packet and every byte offered,
    whatever the answer was, and counts as dropped exactly the packets
    answered DROPPED. *)
Theorem tunnel_counters_follow_the_answers (tunnel_id : string) (tunnel : tunnel_info)
    (packets : list (string * string * Z)) (st : state) :
  gtp_tunnels st !! tunnel_id = Some tunnel →
  let requests := on_tunnel tunnel_id <$> packets in
  ∃ tunnel',
    gtp_tunnels (process_packets requests st).2 !! tunnel_id = Some tunnel'
    ∧ packets_seen (stats tunnel') = packets_seen (stats tunnel) + Z.of_nat (length packets)
    ∧ bytes_seen (stats tunnel') = bytes_seen (stats tunnel) + offered_bytes requests
    ∧ drops_seen (stats tunnel')
      = drops_seen (stats tunnel) + dropped_answers (process_packets requests st).1.
Proof.
  revert st tunnel. induction packets as [|p packets IH]; intros st tunnel Htunnel.
  { exists tunnel. cbn. unfold dropped_answers. cbn. split_and!; [done|lia..]. }
  cbn [fmap list_fmap process_packets].
  destruct (process_packet (on_tunnel tunnel_id p).1 (on_tunnel tunnel_id p).2 st)
    as [answer st1] eqn:Hstep.
  assert (∃ tunnel1,
            gtp_tunnels st1 !! tunnel_id = Some tunnel1
            ∧ packets_seen (stats tunnel1) = packets_seen (stats tunnel) + 1
            ∧ bytes_seen (stats tunnel1)
              = bytes_seen (stats tunnel) + Z.of_nat (String.length p.1.2)
            ∧ drops_seen (stats tunnel1)
              = drops_seen (stats tunnel)
                + (if is_dropped answer then 1 else 0))
    as (tunnel1 & Htunnel1 & Hp & Hb & Hd).
  { revert Hstep. unfold process_packet, process_gtp_packet, on_tunnel.
    cbn [fst snd pd_tunnel_id pd_direction pd_header pd_payload mbind option_bind payload].
    rewrite Htunnel. cbn [fmap option_fmap option_map].
    destruct (enforce_qos _ _ _ _ _ _) as [qos_result sch].
    intros [= <- <-]. eexists. cbn [gtp_tunnels set_scheduler set_tunnels].
    rewrite lookup_insert_eq. split; [done|]. cbn [stats with_stats].
    pose proof (count_packet_seen p.1.1 (Z.of_nat (String.length p.1.2)) p.2 (stats tunnel))
      as (Hp & Hb & Hd).
    destruct qos_result as [[|]|e]; cbn.
    - rewrite bool_decide_eq_false_2 by done. split_and!; lia.
    - rewrite bool_decide_eq_true_2 by done.
      pose proof (count_drop_seen p.1.1
                    (count_packet p.1.1 (Z.of_nat (String.length p.1.2)) p.2 (stats tunnel)))
        as (Hp' & Hb' & Hd').
      split_and!; lia.
    - split_and!; lia. }
  destruct (on_tunnel tunnel_id p) as [d t] eqn:Hd0. cbn [fst snd] in Hstep. rewrite Hstep.
  destruct (IH st1 tunnel1 Htunnel1) as (tunnel' & Hl & Hp' & Hb' & Hd').
  destruct (process_packets (on_tunnel tunnel_id <$> packets) st1) as [answers st2].
  cbn [fst snd] in *. exists tunnel'. split; [done|].
  assert (d = (on_tunnel tunnel_id p).1) as -> by (by rewrite Hd0).
  rewrite dropped_answers_cons. cbn [offered_bytes foldr].
  unfold on_tunnel at 1. cbn [fst pd_payload].
  fold (offered_bytes (on_tunnel tunnel_id <$> packets)).
  cbn [length]. split_and!; lia.
Qed.


Lemma deleted_tunnels_are_gone (ids : list string) (tunnels : gmap string tunnel_info)
    (id : string) :
  id ∈ ids ∨ tunnels !! id = None →
  foldl (λ m id, delete id m) tunnels ids !! id = None.
Proof.
  revert tunnels. induction ids as [|id' ids IH]; intros tunnels [Hin|Hnone]; cbn [foldl].
  - by apply elem_of_nil in Hin.
  - done.
  - apply IH. apply elem_of_cons in Hin as [->|Hin]; [right; apply lookup_delete_eq|by left].
  - apply IH. right. destruct (decide (id' = id)) as [->|Hne];
      [apply lookup_delete_eq|by rewrite lookup_delete_ne].
Qed.

(** X8. After the deletion of a session, a packet for one of its tunnels is
    answered DROPPED and changes nothing: the tunnel is gone with the
    session. *)
Theorem deleted_session_drops_its_packets (seid : string) (s : session) (st : state)
    (d : packet_data) (now : Z) (tunnel_id : string) :
  pfcp_sessions st !! seid = Some s →
  tunnel_id ∈ s_gtp_tunnels s →
  pd_tunnel_id d = Some tunnel_id →
  let st' := (pfcp_session_deletion seid st).2 in
  gtp_tunnels st' !! tunnel_id = None
  ∧ process_packet d now st' = (Return "DROPPED", st').
Proof.
  intros Hs Hin Hd st'.
  assert (gtp_tunnels st' !! tunnel_id = None) as Hgone.
  { unfold st', pfcp_session_deletion. rewrite Hs. cbn [snd gtp_tunnels].
    apply deleted_tunnels_are_gone. by left. }
  split; [done|].
  unfold process_packet, process_gtp_packet. rewrite Hd. cbn [mbind option_bind].
  by rewrite Hgone.
Qed.

(** X9. A QER update of a modification reaches the QoS table and stops
    there: for a session that has QER [k] and a QoS entry for it, a
    modification whose [updateQer] carries [qerId = k] with an [mbr] object is
    accepted, reports the QER as updated and writes [mbr.ulMbr] and
    [mbr.dlMbr] into the entry's maximum bit rates; the token buckets and the
    queues of the scheduler are not touched. *)
Theorem qer_update_reaches_the_qos_table_only (seid : string) (s : session) (k : Z)
    (rule upd m body : list (string * json)) (q : QosParameters) (now : Z) (st : state) :
  pfcp_sessions st !! seid = Some s →
  qers s !! k = Some rule →
  dict_get (seid +:+ "_" +:+ pretty k) (qos_enforcement st) = Some q →
  dict_get "updatePdr" body = None →
  dict_get "updateFar" body = None →
  dict_get "updateQer" body = Some (JList [JObj upd]) →
  dict_get "qerId" upd = Some (JInt k) →
  dict_get "mbr" upd = Some (JObj m) →
  let answer := pfcp_session_modification seid body now st in
  modificationsApplied <$> answer.1 = Return [("QER", JInt k)]
  ∧ dict_get (seid +:+ "_" +:+ pretty k) (qos_enforcement answer.2)
    = Some (set_bitrates (default JNull (dict_get "ulMbr" m))
                         (default JNull (dict_get "dlMbr" m)) q)
  ∧ qos_scheduler answer.2 = qos_scheduler st.
Proof.
  intros Hs Hrule Hq Hpdr Hfar Hqer Hid Hmbr.
  unfold pfcp_session_modification. rewrite Hs.
  unfold update_rules. rewrite Hpdr, Hfar, Hqer.
  cbn [iterate for_each]. unfold update_rule.
  cbn [subscript]. rewrite Hid.
  cbn [from_option mbind outcome_bind rule_key as_int mret outcome_ret option_bind
       m_session].
  unfold get_rules. rewrite !decide_False by done. rewrite Hrule.
  cbn [fmap option_fmap option_map]. rewrite decide_True by done.
  unfold update_qos_enforcement. cbn [py_str m_qos]. rewrite Hq, Hmbr.
  cbn. split_and!; [done| |done]. apply dict_get_set_eq.
Qed.

End UpfCoverage.

(** Witness of X3 on the two-host pool at boot: the first host is handed
    out. *)
Lemma ipv4_allocation_is_first_fit_witness :
  dict_get "ipv4" (Upf.allocate_ip_address "IPV4" (Upf.pool Scenario.upf_slash_30)).1
  = Some "192.168.100.1"
  ∧ ("192.168.100.1" ∉ Upf.allocated_ipv4 (Upf.pool Scenario.upf_slash_30))
  ∧ Upf.allocated_ipv4 (Upf.allocate_ip_address "IPV4" (Upf.pool Scenario.upf_slash_30)).2
    = {["192.168.100.1"]} ∪ Upf.allocated_ipv4 (Upf.pool Scenario.upf_slash_30)
  ∧ ∃ i, Upf.ipv4_hosts (Upf.pool Scenario.upf_slash_30) !! i = Some "192.168.100.1"
         ∧ ∀ j b, Upf.ipv4_hosts (Upf.pool Scenario.upf_slash_30) !! j = Some b →
                  (j < i)%nat → b ∈ Upf.allocated_ipv4 (Upf.pool Scenario.upf_slash_30).
Proof.
  split; [vm_compute; reflexivity|].
  apply (ipv4_allocation_is_first_fit "IPV4" (Upf.pool Scenario.upf_slash_30)).
  vm_compute. reflexivity.
Defined.




(** Witness of X7: three packets on the tunnel of the QoS session. *)
Lemma tunnel_counters_follow_the_answers_witness :
  ∃ tunnel,
    Upf.gtp_tunnels Scenario.upf_with_qos_session !! Scenario.qos_tunnel = Some tunnel
    ∧ ∃ tunnel',
        Upf.gtp_tunnels
          (Upf.process_packets (Upf.on_tunnel Scenario.qos_tunnel <$> Scenario.three_packets)
             Scenario.upf_with_qos_session).2 !! Scenario.qos_tunnel = Some tunnel'
        ∧ Upf.packets_seen (Upf.stats tunnel')
          = Upf.packets_seen (Upf.stats tunnel) + Z.of_nat (length Scenario.three_packets)
        ∧ Upf.bytes_seen (Upf.stats tunnel')
          = Upf.bytes_seen (Upf.stats tunnel)
            + Upf.offered_bytes (Upf.on_tunnel Scenario.qos_tunnel <$> Scenario.three_packets)
        ∧ Upf.drops_seen (Upf.stats tunnel')
          = Upf.drops_seen (Upf.stats tunnel)
            + Upf.dropped_answers
                (Upf.process_packets
                   (Upf.on_tunnel Scenario.qos_tunnel <$> Scenario.three_packets)
                   Scenario.upf_with_qos_session).1.
Proof.
  eexists. split; [vm_compute; reflexivity|].
  apply (tunnel_counters_follow_the_answers Scenario.qos_tunnel _ Scenario.three_packets
           Scenario.upf_with_qos_session).
  vm_compute. reflexivity.
Defined.

(** Witness of X8: the QoS session is deleted, and a packet for its tunnel
    follows. *)
Lemma deleted_session_drops_its_packets_witness :
  let st' := (Upf.pfcp_session_deletion Scenario.qos_seid Scenario.upf_with_qos_session).2 in
  let d := (Upf.on_tunnel Scenario.qos_tunnel ("downlink", "abc", 1)).1 in
  (Upf.s_gtp_tunnels
     <$> Upf.pfcp_sessions Scenario.upf_with_qos_session !! Scenario.qos_seid)
  = Some [Scenario.qos_tunnel]
  ∧ Upf.gtp_tunnels st' !! Scenario.qos_tunnel = None
  ∧ Upf.process_packet d 1 st' = (Return "DROPPED", st').
Proof.
  intros st' d. split; [vm_compute; reflexivity|].
  eapply (deleted_session_drops_its_packets Scenario.qos_seid _
            Scenario.upf_with_qos_session d 1 Scenario.qos_tunnel).
  - vm_compute. reflexivity.
  - vm_compute. apply list_elem_of_here.
  - reflexivity.
Defined.

(** Witness of X9: the MBR of QER 1 of the QoS session is raised. *)
Lemma qer_update_reaches_the_qos_table_only_witness :
  let answer := Upf.pfcp_session_modification Scenario.qos_seid Scenario.mbr_modification 5
                  Scenario.upf_with_qos_session in
  Upf.modificationsApplied <$> answer.1 = Return [("QER", JInt 1)]
  ∧ (Upf.maximum_bitrate_ul
       <$> dict_get (Scenario.qos_seid +:+ "_" +:+ pretty 1) (Upf.qos_enforcement answer.2))
    = Some (JInt 2000000)
  ∧ Upf.qos_scheduler answer.2 = Upf.qos_scheduler Scenario.upf_with_qos_session.
Proof.
  intros answer.
  epose proof (qer_update_reaches_the_qos_table_only Scenario.qos_seid _ 1 _
                 Scenario.mbr_update _ Scenario.mbr_modification _ 5
                 Scenario.upf_with_qos_session _ _ _ _ _ _ _ _)
    as (Happlied & Hentry & Hscheduler).
  Unshelve.
  all: [> | try (vm_compute; reflexivity) ..].
  split_and!; [exact Happlied | | exact Hscheduler].
  fold answer in Hentry. rewrite Hentry. reflexivity.
Defined.

(** ** PCF: the stored decisions *)

Section PcfCoverage.
Import Pcf.

Lemma dict_set_keeps {V} (k k' : string) (v : V) (d : list (string * V)) :
  is_Some (dict_get k d) → is_Some (dict_get k (dict_set k' v d)).
Proof.
  intros Hk. destruct (decide (k = k')) as [->|Hne].
  - rewrite dict_get_set_eq. by eexists.
  - by rewrite dict_get_set_ne.
Qed.

Lemma dict_get_del_ne {V} (k k' : string) (d : list (string * V)) :
  k ≠ k' → dict_get k (dict_del k' d) = dict_get k d.
Proof.
  intros Hne. unfold dict_del. induction d as [|[k0 v0] d IH]; [done|].
  rewrite filter_cons. cbn [fst dict_get]. destruct (decide (k0 ≠ k')) as [Hk|Hk].
  - cbn [dict_get]. case_decide; [done|apply IH].
  - assert (k0 = k') as -> by by destruct (decide (k0 = k')).
    rewrite decide_False by done. apply IH.
Qed.

Lemma dict_get_del_eq {V} (k : string) (d : list (string * V)) :
  dict_get k (dict_del k d) = None.
Proof.
  unfold dict_del. induction d as [|[k0 v0] d IH]; [done|].
  rewrite filter_cons. cbn [fst]. destruct (decide (k0 ≠ k)) as [Hk|Hk]; [|done].
  cbn [dict_get]. by rewrite decide_False.
Qed.

Lemma dict_del_set_absent {V} (k : string) (v : V) (d : list (string * V)) :
  dict_get k d = None → dict_del k (dict_set k v d) = d.
Proof.
  unfold dict_del. induction d as [|[k0 v0] d IH]; cbn [dict_set dict_get].
  - intros _. rewrite filter_cons. cbn. by rewrite decide_False by (by intros ?).
  - case_decide as Hk; [done|]. intros Hnone. rewrite filter_cons. cbn [fst].
    rewrite decide_True by done. by rewrite IH.
Qed.


Lemma default_rule_refs (k : string) (r : PccRule) :
  dict_get k default_pcc_rules = Some r →
  (∀ q, q ∈ refQosData r → q ∈ ["qos_internet"; "qos_ims"; "qos_video"; "qos_gaming"])
  ∧ (k ≠ "rule_video_streaming" → "qos_video" ∉ refQosData r).
Proof.
  unfold default_pcc_rules, rule. cbn [dict_get].
  repeat case_decide; intros [= <-]; cbn [refQosData]; (split; [|intros Hne]);
    try (intros q ->%list_elem_of_singleton; repeat constructor);
    try (by intros [=]%list_elem_of_singleton); done.
Qed.

Lemma rules_resolve_more_qos (rules : list (string * PccRule)) (qos : list (string * nat))
    (q : string) (ref : nat) :
  rules_resolve rules qos → rules_resolve rules (dict_set q ref qos).
Proof.
  intros Hres k r Hk. destruct (Hres k r Hk) as [Hdefault Hrefs].
  split; [done|]. intros q' Hq'. by apply dict_set_keeps, Hrefs.
Qed.

Lemma rules_resolve_add (rules : list (string * PccRule)) (qos : list (string * nat))
    (k : string) (r : PccRule) :
  dict_get k default_pcc_rules = Some r →
  (∀ q, q ∈ refQosData r → is_Some (dict_get q qos)) →
  rules_resolve rules qos → rules_resolve (dict_set k r rules) qos.
Proof.
  intros Hdefault Hrefs Hres k' r' Hk'. destruct (decide (k' = k)) as [->|Hne].
  - rewrite dict_get_set_eq in Hk'. by injection Hk' as <-.
  - rewrite dict_get_set_ne in Hk' by done. by apply Hres.
Qed.

Lemma rules_resolve_less_rules (rules : list (string * PccRule)) (qos : list (string * nat))
    (k : string) :
  rules_resolve rules qos → rules_resolve (dict_del k rules) qos.
Proof.
  intros Hres k' r' Hk'. destruct (decide (k' = k)) as [->|Hne].
  - by rewrite dict_get_del_eq in Hk'.
  - rewrite dict_get_del_ne in Hk' by done. by apply Hres.
Qed.

Lemma rules_resolve_without_video (rules : list (string * PccRule))
    (qos : list (string * nat)) :
  rules_resolve rules qos →
  rules_resolve (dict_del "rule_video_streaming" rules) (dict_del "qos_video" qos).
Proof.
  intros Hres k r Hk. destruct (decide (k = "rule_video_streaming")) as [->|Hne].
  { by rewrite dict_get_del_eq in Hk. }
  rewrite dict_get_del_ne in Hk by done. destruct (Hres k r Hk) as [Hdefault Hrefs].
  split; [done|]. intros q Hq.
  destruct (default_rule_refs k r Hdefault) as [_ Hvideo].
  rewrite dict_get_del_ne; [by apply Hrefs|]. intros ->. by apply Hvideo.
Qed.

Lemma attempt_keeps {S} (P : S → Prop) (m : outcome S) (s : S) :
  P s → (∀ s', m = Return s' → P s') → P (attempt m s).2.
Proof. intros Hs Hm. destruct m as [s'|e]; cbn; [by apply Hm|done]. Qed.

Ltac step_binds H :=
  repeat match type of H with
         | mbind _ ?m = Return _ =>
             destruct m eqn:?; cbn [mbind outcome_bind] in H; [|discriminate H]
         | (if ?b then _ else _) = Return _ => destruct b eqn:?
         | mret _ = Return _ => first [discriminate H | injection H as <-]
         | Return _ = Return _ => first [discriminate H | injection H as <-]
         end.

Lemma apply_trigger_resolves (db : state) (context_updates : json) (trigger : string)
    (w : working) :
  catalogue_kept db →
  rules_resolve (w_pccRules w) (w_qosDecs w) →
  rules_resolve (w_pccRules (apply_trigger db context_updates trigger w).2)
                (w_qosDecs (apply_trigger db context_updates trigger w).2).
Proof.
  intros [Hrules Hqos] Hres. unfold apply_trigger.
  repeat case_decide.
  - apply (attempt_keeps (λ w, rules_resolve (w_pccRules w) (w_qosDecs w))); [done|].
    intros w' Hw'. step_binds Hw'; cbn [w_pccRules w_qosDecs]; try done.
    by apply rules_resolve_more_qos.
  - destruct (mbind _ _) as [[r|]|e] eqn:Hstart; [|exact Hres..].
    assert (dict_get "rule_video_streaming" default_pcc_rules = Some r) as Hr.
    { destruct (dict_get "rule_video_streaming" default_pcc_rules) as [r0|] eqn:Hr0;
        [|by vm_compute in Hr0].
      pose proof (Hrules _ _ Hr0) as Hdb.
      step_binds Hstart; unfold item in *; rewrite ?Hdb in *;
        cbn [from_option] in *; by simplify_eq. }
    destruct (Hqos "qos_video") as [ref Href]; [repeat constructor|].
    unfold item. rewrite Href. cbn -[dict_set dict_get].
    apply rules_resolve_add; [done| |by apply rules_resolve_more_qos].
    intros q Hq. destruct (default_rule_refs _ _ Hr) as [_ Hvideo].
    assert (refQosData r = ["qos_video"]) as Hrefs by (by injection Hr as <-).
    rewrite Hrefs in Hq. apply list_elem_of_singleton in Hq as ->.
    cbn [w_qosDecs]. rewrite dict_get_set_eq. by eexists.
  - destruct (mbind _ _) as [[|]|e] eqn:Hstop; [|exact Hres..].
    apply (attempt_keeps (λ w, rules_resolve (w_pccRules w) (w_qosDecs w))).
    + cbn [w_pccRules w_qosDecs]. by apply rules_resolve_less_rules.
    + intros w' Hw'. step_binds Hw'. cbn [w_pccRules w_qosDecs].
      by apply rules_resolve_without_video.
  - apply (attempt_keeps (λ w, rules_resolve (w_pccRules w) (w_qosDecs w))); [done|].
    intros w' Hw'. step_binds Hw'; cbn [w_pccRules w_qosDecs]; done.
  - done.
Qed.

Lemma for_each_invariant {S A} (P : S → Prop) (body : A → S → option exn * S)
    (l : list A) (s : S) :
  (∀ a s, P s → P (body a s).2) → P s → P (for_each body l s).2.
Proof.
  intros Hbody. revert s. induction l as [|a l IH]; intros s Hs; [done|].
  cbn [for_each]. specialize (Hbody a s Hs).
  destruct (body a s) as [[e|] s']; cbn [snd] in *; [done|]. by apply IH.
Qed.

Lemma store_resolves (id : string) (d : SmPolicyDecision) (objects : list QosData)
    (st : state) :
  decisions_resolve st → rules_resolve (pccRules d) (qosDecs d) →
  decisions_resolve (store id d objects st).
Proof.
  intros [Hcat Hall] Hd. split; [exact Hcat|].
  cbn [store sm_policy_decisions]. by apply map_Forall_insert_2.
Qed.

Lemma update_sm_policy_decision_resolves (id : string) (triggers : list string)
    (context_updates : json) (now : Z) (st : state) :
  decisions_resolve st →
  decisions_resolve (update_sm_policy_decision id triggers context_updates now st).2.
Proof.
  intros Hst. unfold update_sm_policy_decision.
  destruct (sm_policy_decisions st !! id) as [d|] eqn:Hd; [|done].
  pose proof (for_each_invariant (λ w, rules_resolve (w_pccRules w) (w_qosDecs w))
                (apply_trigger st context_updates) triggers
                {| w_pccRules := pccRules d; w_qosDecs := qosDecs d;
                   w_objects := qos_objects st |}) as Hloop.
  destruct Hst as [Hcat Hall].
  specialize (Hloop (λ t w, apply_trigger_resolves st context_updates t w Hcat)
                    (Hall id d Hd)).
  destruct (for_each _ _ _) as [[e|] w]; cbn [snd] in *;
    by apply store_resolves.
Qed.

Ltac default_rule H :=
  vm_compute in H; injection H as <-; intros ? ->%list_elem_of_singleton;
  rewrite ?dict_get_set_eq; by eexists.

Lemma rules_resolve_base (r0 : PccRule) (q0 : nat) :
  dict_get "rule_internet_default" default_pcc_rules = Some r0 →
  rules_resolve [("rule_internet_default", r0)] [("qos_internet", q0)].
Proof.
  intros Hr0. apply (rules_resolve_add [] _ "rule_internet_default" r0 Hr0).
  - change [("qos_internet", q0)] with (dict_set "qos_internet" q0 []).
    default_rule Hr0.
  - by intros k r Hk.
Qed.

Ltac step_any :=
  repeat match goal with
         | H : mbind _ ?m = Return _ |- _ =>
             destruct m eqn:?; cbn [mbind outcome_bind] in H; [|discriminate H]
         | H : (if ?b then _ else _) = Return _ |- _ => destruct b eqn:?
         | H : mret _ = Return _ |- _ => first [discriminate H | injection H as <-]
         | H : Return _ = Return _ |- _ => first [discriminate H | injection H as <-]
         end.

Lemma create_sm_policy_decision_resolves (now : Z) (context_data : SmPolicyContextData)
    (st : state) (d : SmPolicyDecision) :
  catalogue_kept st → create_sm_policy_decision now context_data st = Return d →
  rules_resolve (pccRules d) (qosDecs d).
Proof.
  intros [Hrules Hqos] Hd. unfold create_sm_policy_decision in Hd.
  assert (∀ k r, item k (pcc_rules_database st) = Return r →
                 k ∈ ["rule_internet_default"; "rule_ims_signalling";
                      "rule_video_streaming"; "rule_gaming"] →
                 dict_get k default_pcc_rules = Some r) as Hitem.
  { intros k r Hk Hin.
    destruct (dict_get k default_pcc_rules) as [r0|] eqn:Hr0.
    - apply Hrules in Hr0. unfold item in Hk. rewrite Hr0 in Hk. by injection Hk as ->.
    - exfalso. revert Hr0. clear -Hin.
      repeat (apply elem_of_cons in Hin as [->|Hin]; [by vm_compute|]).
      by apply elem_of_nil in Hin. }
  step_any; cbn [pccRules qosDecs fst snd];
    repeat match goal with
           | H : item _ (pcc_rules_database st) = Return _ |- _ =>
               apply Hitem in H; [|repeat constructor]
           end;
    try (by apply rules_resolve_base);
    match goal with
    | |- rules_resolve [?x; (?k, ?r)] [?y; (?kq, ?q)] =>
        change (rules_resolve (dict_set k r [x]) (dict_set kq q [y]))
    end;
    (apply rules_resolve_add;
     [done| |by apply rules_resolve_more_qos, rules_resolve_base]);
    match goal with
    | H : dict_get _ default_pcc_rules = Some ?r |- ∀ q, q ∈ refQosData ?r → _ =>
        default_rule H
    end.
Qed.

Lemma handle_resolves (rq : operation) (st : state) :
  decisions_resolve st → decisions_resolve (handle rq st).
Proof.
  intros Hst. destruct rq as [id now context_data|id update_data now|id|r|q];
    cbn [handle].
  - unfold create_sm_policy.
    destruct (create_sm_policy_decision _ _ _) as [d|e] eqn:Hd; cbn [snd].
    + destruct Hst as [Hcat Hall]. split; [exact Hcat|].
      cbn [sm_policy_decisions]. apply map_Forall_insert_2; [|done].
      by eapply create_sm_policy_decision_resolves; [|exact Hd].
    + exact Hst.
  - unfold update_sm_policy. destruct (sm_policy_decisions st !! id); [|done].
    destruct (parse_triggers update_data) as [triggers|e]; [|done].
    pose proof (update_sm_policy_decision_resolves id triggers
                  (default (JObj []) (update_data ≫= dict_get "context_updates"))
                  now st Hst) as Hupdate.
    by destruct (update_sm_policy_decision _ _ _ _ _).
  - unfold delete_sm_policy. destruct (sm_policy_decisions st !! id); [|done].
    destruct Hst as [Hcat Hall]. split; [exact Hcat|].
    cbn [snd sm_policy_decisions]. by apply map_Forall_delete.
  - unfold create_pcc_rule.
    destruct (dict_get (pccRuleId r) (pcc_rules_database st)) eqn:Hnew; [done|].
    destruct Hst as [[Hrules Hqos] Hall]. split; [split|]; [|done..].
    intros k r' Hk. cbn [snd pcc_rules_database].
    rewrite dict_get_set_ne; [by apply Hrules|].
    intros ->. apply Hrules in Hk. by rewrite Hk in Hnew.
  - unfold create_qos_data.
    destruct (dict_get (qosId q) (qos_data_database st)) eqn:Hnew; [done|].
    destruct Hst as [[Hrules Hqos] Hall]. split; [split|]; [done| |done].
    intros q' Hq'. cbn [snd qos_data_database]. by apply dict_set_keeps, Hqos.
Qed.

Lemma boot_resolves : decisions_resolve boot.
Proof.
  split; [split|].
  - done.
  - intros q Hq. repeat (apply elem_of_cons in Hq as [->|Hq]; [by eexists|]).
    by apply elem_of_nil in Hq.
  - apply map_Forall_empty.
Qed.

Lemma run_resolves (rqs : list operation) : decisions_resolve (run rqs).
Proof.
  unfold run. generalize boot_resolves. generalize boot.
  induction rqs as [|rq rqs IH]; intros st Hst; [done|].
  cbn [foldl]. by apply IH, handle_resolves.
Qed.

(** X28. Referential integrity of the stored SM policy decisions, in every
    state reached from start-up by creations, updates and deletions of SM
    policies and by additions to the two catalogues: a PCC rule of a stored
    decision is the rule the default catalogue has under the same identifier
    (a rule added through [POST /pcf/pcc-rules] never reaches a decision, and
    a default rule is never replaced), and every QoS identifier the rule
    refers to is a key of the decision's [qosDecs]. This holds after updates
    that failed half-way as well, whose changes stay in the stored decision. *)
Theorem stored_rules_refer_to_stored_qos (rqs : list operation) (id : string)
    (d : SmPolicyDecision) (k : string) (r : PccRule) :
  sm_policy_decisions (run rqs) !! id = Some d →
  dict_get k (pccRules d) = Some r →
  dict_get k default_pcc_rules = Some r
  ∧ ∀ q, q ∈ refQosData r → is_Some (dict_get q (qosDecs d)).
Proof.
  intros Hd Hk. destruct (run_resolves rqs) as [_ Hall]. by apply (Hall id d Hd).
Qed.

(** X29. In every reachable state the update of a stored decision with the
    trigger [APP_STO] for the video application is answered with the updated
    decision, which is the one stored; it has no rule
    [rule_video_streaming], also when the decision had the rule from its
    creation for a video DNN and not from an [APP_STA]; every other rule and
    every QoS entry other than [qos_video] is as before.  (The deletion of
    [qos_video] cannot raise [KeyError]: the rule is never stored without
    it.) *)
Theorem app_stop_removes_the_video_rule (rqs : list operation) (id : string)
    (d : SmPolicyDecision) (now : Z) :
  sm_policy_decisions (run rqs) !! id = Some d →
  ∃ d',
    (update_sm_policy id (app_update "APP_STO") now (run rqs)).1 = Return d'
    ∧ sm_policy_decisions (update_sm_policy id (app_update "APP_STO") now (run rqs)).2
        !! id = Some d'
    ∧ dict_get "rule_video_streaming" (pccRules d') = None
    ∧ (∀ k, k ≠ "rule_video_streaming" →
            dict_get k (pccRules d') = dict_get k (pccRules d))
    ∧ (∀ q, q ≠ "qos_video" → dict_get q (qosDecs d') = dict_get q (qosDecs d)).
Proof.
  intros Hd. destruct (run_resolves rqs) as [_ Hall]. specialize (Hall id d Hd).
  generalize dependent (run rqs). intros st Hd.
  unfold update_sm_policy. rewrite Hd.
  change (parse_triggers (app_update "APP_STO")) with (Return ["APP_STO"]).
  cbn beta iota.
  change (default (JObj []) (app_update "APP_STO" ≫= dict_get "context_updates"))
    with (JObj [("app_id", JStr "video_streaming_app")]).
  unfold update_sm_policy_decision. rewrite Hd. cbn [for_each].
  unfold apply_trigger. rewrite decide_False by done. rewrite decide_False by done.
  rewrite decide_True by done.
  match goal with
  | |- context [mbind ?f (has_key ?key ?cu)] =>
      change (mbind f (has_key key cu))
        with (Return (bool_decide
                        (is_Some (dict_get "rule_video_streaming" (pccRules d)))))
  end.
  destruct (dict_get "rule_video_streaming" (pccRules d)) as [r|] eqn:Hrule.
  - rewrite bool_decide_eq_true_2 by by eexists.
    destruct (Hall _ _ Hrule) as [Hdefault Hrefs].
    destruct (Hrefs "qos_video") as [ref Href].
    { vm_compute in Hdefault. injection Hdefault as <-. repeat constructor. }
    cbn [w_pccRules w_qosDecs w_objects]. unfold item. rewrite Href.
    cbn -[dict_del]. eexists. split; [reflexivity|].
    rewrite lookup_insert_eq. split; [reflexivity|]. cbn [pccRules qosDecs].
    split; [apply dict_get_del_eq|].
    split; intros k Hk; by apply dict_get_del_ne.
  - rewrite bool_decide_eq_false_2 by (by intros [? [=]]).
    cbn. eexists. split; [reflexivity|].
    rewrite lookup_insert_eq. split; [reflexivity|]. cbn [pccRules qosDecs].
    by repeat split.
Qed.

End PcfCoverage.

(** Witness of X28 on the policy for the video DNN: its video rule is the
    catalogue's and refers to a stored QoS entry. *)
Lemma stored_rules_refer_to_stored_qos_witness :
  ∃ d r,
    Pcf.sm_policy_decisions (Pcf.run Scenario.policy_requests) !! Scenario.association_id
    = Some d
    ∧ dict_get "rule_video_streaming" (Pcf.pccRules d) = Some r
    ∧ dict_get "rule_video_streaming" Pcf.default_pcc_rules = Some r
    ∧ is_Some (dict_get "qos_video" (Pcf.qosDecs d)).
Proof.
  epose proof (stored_rules_refer_to_stored_qos Scenario.policy_requests
                 Scenario.association_id _ "rule_video_streaming" _ _ _)
    as [Hdefault Hrefs].
  Unshelve.
  all: [> | try (vm_compute; reflexivity) ..].
  eexists _, _. split; [vm_compute; reflexivity|].
  split; [vm_compute; reflexivity|]. split; [exact Hdefault|].
  apply Hrefs. repeat constructor.
Defined.

(** Witness of X29 on the same policy, which has the video rule from its
    creation. *)
Lemma app_stop_removes_the_video_rule_witness :
  let st := Pcf.run Scenario.policy_requests in
  is_Some (Pcf.sm_policy_decisions st !! Scenario.association_id)
  ∧ ∃ d',
      (Pcf.update_sm_policy Scenario.association_id (Pcf.app_update "APP_STO") 2 st).1
      = Return d'
      ∧ dict_get "rule_video_streaming" (Pcf.pccRules d') = None.
Proof.
  intros st. split; [eexists; vm_compute; reflexivity|].
  epose proof (app_stop_removes_the_video_rule Scenario.policy_requests
                 Scenario.association_id _ 2 _) as (d' & Hanswer & _ & Hrule & _).
  Unshelve.
  all: [> | try (vm_compute; reflexivity) ..].
  exists d'. split; [exact Hanswer | exact Hrule].
Defined.

(** ** NRF: registration and discovery *)

Section NrfCoverage.
Import Nrf.

Lemma insert_by_key_filter (k : Z * Z) (x : NFProfile) (l : list NFProfile) :
  filter (λ p, sort_key p = k) (insert_by_key x l)
  = filter (λ p, sort_key p = k) (x :: l).
Proof.
  induction l as [|y l IH]; [done|]. cbn [insert_by_key].
  case_decide as Hxy; [done|].
  rewrite filter_cons, IH, !filter_cons.
  destruct (decide (sort_key y = k)) as [Hy|Hy], (decide (sort_key x = k)) as [Hx|Hx];
    try done.
  destruct Hxy. unfold key_le. rewrite Hx, Hy. lia.
Qed.

Lemma sort_by_key_filter (k : Z * Z) (l : list NFProfile) :
  filter (λ p, sort_key p = k) (sort_by_key l) = filter (λ p, sort_key p = k) l.
Proof.
  induction l as [|x l IH]; [done|].
  unfold sort_by_key in *. cbn [foldr].
  by rewrite insert_by_key_filter, !filter_cons, IH.
Qed.

(** X15. Discovery is stable: among the profiles of equal priority and
    capacity (an absent value counting as 0), the answer without limit keeps
    the order of registration. *)
Theorem discovery_keeps_registration_order_on_ties
    (nf_profiles : list (string * NFProfile))
    (target requester : option NFType) (names : option (list string))
    (snssais : option (list Snssai)) (plmns : option (list PlmnId))
    (dnn : option string) (k : Z * Z) :
  filter (λ p, sort_key p = k)
         (find_nf_instances nf_profiles target requester names snssais plmns dnn None)
  = filter (λ p, sort_key p = k)
      (filter (λ p, passes_filters target requester names snssais plmns p
                    ∧ nfStatus p = REGISTERED) nf_profiles.*2).
Proof. unfold find_nf_instances. apply sort_by_key_filter. Qed.


Lemma dict_set_elem_of {V} (k : string) (v : V) (d : list (string * V)) :
  (k, v) ∈ dict_set k v d.
Proof.
  induction d as [|[k' v'] d IH]; cbn [dict_set]; [by left|].
  case_decide as Hk; [subst; by left|by right].
Qed.

Lemma dict_set_keyed {V} (P : string → V → Prop) (k : string) (v : V)
    (d : list (string * V)) :
  P k v → Forall (λ kv, P kv.1 kv.2) d → Forall (λ kv, P kv.1 kv.2) (dict_set k v d).
Proof.
  intros Hv. induction 1 as [|[k' v'] d Hkv Hd IH]; cbn [dict_set].
  - by repeat constructor.
  - case_decide as Hk; [subst; by constructor|by constructor].
Qed.

Lemma dict_get_None_elem_of {V} (k : string) (v : V) (d : list (string * V)) :
  dict_get k d = None → (k, v) ∉ d.
Proof.
  induction d as [|[k' v'] d IH]; cbn [dict_get]; [by intros _ ?%elem_of_nil|].
  case_decide as Hk; [done|]. intros Hnone [[= ? ?]|Hin]%elem_of_cons; [by subst|].
  by apply IH.
Qed.

Lemma handle_keeps_keyed (rq : request) (nf_profiles : list (string * NFProfile)) :
  keyed_by_id nf_profiles → keyed_by_id (handle rq nf_profiles).
Proof.
  unfold keyed_by_id. intros Hkeyed. destruct rq as [id [p|]|uuid d|id]; cbn [handle].
  - unfold register_nf_instance. case_decide as Hid; [done|]. cbn [snd].
    apply (dict_set_keyed (λ k p, nfInstanceId p = k)); [|done].
    by destruct (decide (nfInstanceId p = id)).
  - done.
  - unfold legacy_register_nf. destruct (NFType_of _) as [t|e]; cbn; [|done].
    case_bool_decide; cbn; [|done].
    by apply (dict_set_keyed (λ k p, nfInstanceId p = k)).
  - unfold deregister_nf_instance. destruct (dict_get id nf_profiles); cbn [snd]; [|done].
    unfold dict_del. apply Forall_forall. intros kp [_ Hin]%list_elem_of_filter.
    revert kp Hin. by apply Forall_forall.
Qed.

Lemma run_keeps_keyed (rqs : list request) : keyed_by_id (run rqs).
Proof.
  unfold run. assert (keyed_by_id []) as Hnil by constructor.
  revert Hnil. generalize (@nil (string * NFProfile)).
  induction rqs as [|rq rqs IH]; intros l Hl; [done|].
  cbn [foldl]. apply IH. by apply handle_keeps_keyed.
Qed.

(** X16. Registration and discovery agree, in any registry reached by
    registrations (PUT and the legacy POST) and deregistrations: a REGISTERED
    profile that has just been registered under its identifier is in the
    answer to the discovery for its NF type; after the deregistration of an
    identifier, no discovery, whatever its filters and limit, answers a
    profile with this identifier. *)
Theorem registration_and_discovery_agree (rqs : list request) :
  (∀ id p,
     nfInstanceId p = id → nfStatus p = REGISTERED →
     p ∈ find_nf_instances (handle (Register id (Some p)) (run rqs))
           (Some (nfType p)) None None None None None None)
  ∧ (∀ id target requester names snssais plmns dnn limit p,
       p ∈ find_nf_instances (handle (Deregister id) (run rqs))
             target requester names snssais plmns dnn limit →
       nfInstanceId p ≠ id).
Proof.
  split.
  - intros id p Hid Hstatus. apply found_unlimited. split.
    + split; [|done]. unfold passes_filters.
      rewrite bool_decide_eq_true_2 by done. done.
    + cbn [handle]. unfold register_nf_instance.
      rewrite decide_False by (by intros ?). cbn [snd].
      apply list_elem_of_fmap. exists (id, p). split; [done|]. apply dict_set_elem_of.
  - intros id target requester names snssais plmns dnn limit p Hp Hid.
    destruct (found_is_prefix (handle (Deregister id) (run rqs)) target requester names
                snssais plmns dnn limit) as [n Hn].
    rewrite Hn in Hp. apply elem_of_take in Hp as (i & Hp%list_elem_of_lookup_2 & _).
    apply found_unlimited in Hp as [_ Hp].
    apply list_elem_of_fmap in Hp as ([k p'] & -> & Hin). cbn [snd] in *.
    pose proof (run_keeps_keyed rqs) as Hkeyed. unfold keyed_by_id in Hkeyed.
    rewrite Forall_forall in Hkeyed.
    cbn [handle] in Hin. unfold deregister_nf_instance in Hin.
    destruct (dict_get id (run rqs)) as [q|] eqn:Hq; cbn [snd] in Hin.
    + unfold dict_del in Hin. apply list_elem_of_filter in Hin as [Hne Hin].
      apply Hkeyed in Hin. cbn in *. congruence.
    + pose proof (Hkeyed _ Hin) as Hk. cbn in Hk. rewrite <- Hk, Hid in Hin.
      by eapply dict_get_None_elem_of.
Qed.

End NrfCoverage.

(** Witness of X16 on a registry with a UPF registered by the legacy POST
    and an AMF registered by PUT: the AMF is discovered again after a new
    PUT, and not after its deregistration. *)
Lemma registration_and_discovery_agree_witness :
  Scenario.amf_profile
    ∈ Nrf.find_nf_instances
        (Nrf.handle (Nrf.Register "amf-1" (Some Scenario.amf_profile))
           (Nrf.run Scenario.registrations))
        (Some Nrf.AMF) None None None None None None
  ∧ Nrf.find_nf_instances
      (Nrf.handle (Nrf.Deregister "amf-1") (Nrf.run Scenario.registrations))
      (Some Nrf.AMF) None None None None None None = [].
Proof.
  split; [|vm_compute; reflexivity].
  apply (proj1 (registration_and_discovery_agree Scenario.registrations)
           "amf-1" Scenario.amf_profile); reflexivity.
Defined.

(** ** DU: RLC, PDCP, HARQ *)

Section DuCoverage.
Import Du.

Lemma remove_all_absent (old s : string) : str_in old s = false → remove_all old s = s.
Proof.
  unfold remove_all. induction s as [|c rest IH]; [done|].
  cbn [str_in replace_go]. intros [Hprefix Hrest]%orb_false_iff.
  rewrite Hprefix. by rewrite IH.
Qed.

Lemma remove_ciphered_prefix (s : string) :
  remove_all "ciphered_" ("ciphered_" +:+ s) = remove_all "ciphered_" s.
Proof. by destruct s. Qed.

Lemma remove_compressed_prefix (s : string) :
  remove_all "compressed_" ("compressed_" +:+ s) = remove_all "compressed_" s.
Proof. by destruct s. Qed.

Lemma remove_ciphered_after_compressed (s : string) :
  remove_all "ciphered_" ("compressed_" +:+ s) = "compressed_" +:+ remove_all "ciphered_" s.
Proof. reflexivity. Qed.

Lemma ciphered_in_compressed (s : string) :
  str_in "ciphered_" ("compressed_" +:+ s) = str_in "ciphered_" s.
Proof. reflexivity. Qed.

(** X10. PDCP hands an SDU back as it was sent when the SDU contains neither
    of the markers the layer prepends: an SDU without ["ciphered_"] and
    without ["compressed_"], sent by an entity and received by it from the
    PDU made, is delivered unchanged, whatever the entity's algorithms. *)
Theorem pdcp_delivers_marker_free_sdus (id : entity_id) (e : pdcp_entity) (sdu : string)
    (now : Z) (entities : gmap entity_id pdcp_entity) :
  entities !! id = Some e →
  str_in "ciphered_" sdu = false →
  str_in "compressed_" sdu = false →
  through_pdcp id sdu now entities = Return (Some sdu).
Proof.
  intros He Hc Hr. unfold through_pdcp, transmit_pdu, receive_pdu. rewrite He.
  cbn [mbind outcome_bind]. rewrite lookup_insert_eq.
  cbn [integrity_algorithm ciphering_algorithm rohc_enabled with_counts].
  unfold _apply_deciphering, _apply_rohc_decompression, _apply_ciphering,
    _apply_rohc_compression, _verify_integrity_protection.
  destruct (decide (integrity_algorithm e ≠ "NIA0")) as [Hi|Hi],
    (decide (ciphering_algorithm e ≠ "NEA0")) as [Hk|Hk], (rohc_enabled e);
    cbn [pdcp_payload _apply_integrity_protection integrity_protected negb];
    rewrite ?andb_false_r, ?(bool_decide_eq_false_2 _ Hi); cbn [andb fst].
  all: do 2 f_equal.
  all: rewrite ?remove_ciphered_prefix, ?remove_ciphered_after_compressed,
         ?remove_compressed_prefix.
  all: rewrite ?(remove_all_absent "ciphered_") by done.
  all: rewrite ?remove_compressed_prefix.
  all: by rewrite ?(remove_all_absent "compressed_") by done.
Qed.

(** X11. PDCP with header compression does not hand back an SDU that
    starts with ["compressed_"]: it delivers what the SDU without this prefix
    delivers, so the prefix is lost and two different SDUs are delivered as
    the same one. *)
Theorem pdcp_loses_a_compressed_prefix (id : entity_id) (e : pdcp_entity) (sdu : string)
    (now : Z) (entities : gmap entity_id pdcp_entity) :
  entities !! id = Some e →
  rohc_enabled e = true →
  through_pdcp id ("compressed_" +:+ sdu) now entities = through_pdcp id sdu now entities.
Proof.
  intros He Hrohc. unfold through_pdcp, transmit_pdu, receive_pdu. rewrite He, Hrohc.
  cbn [mbind outcome_bind]. rewrite !lookup_insert_eq.
  cbn [integrity_algorithm ciphering_algorithm rohc_enabled with_counts]. rewrite Hrohc.
  unfold _apply_deciphering, _apply_rohc_decompression, _apply_ciphering,
    _apply_rohc_compression, _verify_integrity_protection.
  destruct (decide (integrity_algorithm e ≠ "NIA0")) as [Hi|Hi],
    (decide (ciphering_algorithm e ≠ "NEA0")) as [Hk|Hk];
    cbn [pdcp_payload _apply_integrity_protection integrity_protected negb];
    rewrite ?andb_false_r, ?(bool_decide_eq_false_2 _ Hi); cbn [andb fst].
  all: do 2 f_equal.
  all: rewrite ?remove_ciphered_prefix, ?remove_ciphered_after_compressed,
         ?remove_compressed_prefix.
  all: try reflexivity.
  all: match goal with |- ?G => idtac G end.
Qed.


(** X12. Transmission numbers the PDUs in sequence: the [k]-th SDU given to
    an entity with a 12-bit SN field leaves with SN [(VT(S) + k) mod 4096]
    and carries its SDU; its poll bit is set iff [pdu_without_poll + k >= 4],
    a counter that nothing resets, so from a new entity every PDU from the
    fifth on polls. *)
Theorem transmitted_pdus_are_numbered (id : entity_id) (e : am_entity)
    (sdus : list string) (am : gmap entity_id am_entity) :
  am !! id = Some e → sn_field_length e = 12 → 0 ≤ vt_s e < 4096 →
  (λ pdu, (sn (header pdu), p (header pdu), payload pdu)) <$> transmit_all id sdus am
  = imap (λ k sdu, ((vt_s e + Z.of_nat k) `mod` 4096,
                    bool_decide (4 ≤ pdu_without_poll e + Z.of_nat k), sdu)) sdus.
Proof.
  revert am e. induction sdus as [|sdu sdus IH]; intros am e He Hlen Hvt; [done|].
  cbn [transmit_all]. unfold transmit_am_pdu. rewrite He.
  set (am' := <[id := _]> am). cbn [fmap list_fmap imap header sn p payload].
  f_equal.
  - rewrite Z.add_0_r, Z.mod_small by done. do 2 f_equal. by rewrite Z.add_0_r.
  - erewrite (IH am'); [|apply lookup_insert_eq|done|].
    + cbn [vt_s pdu_without_poll]. rewrite Hlen. apply imap_ext. intros k x _.
      cbn. change (2 ^ 12) with 4096.
      rewrite Zplus_mod_idemp_l. do 2 f_equal; [f_equal; lia|].
      apply bool_decide_ext. lia.
    + cbn [vt_s]. rewrite Hlen. change (2 ^ 12) with 4096.
      apply Z.mod_pos_bound. lia.
Qed.

(** X13. The receive window does not move: an entity whose VR(R) is [r]
    releases at most [2048 - r] SDUs, whatever arrives.  An entity of
    [create_am_entity] releases at most 2048 SDUs in its life. *)
Theorem receiver_releases_at_most_the_window (id : entity_id) (pdus : list RlcPdu)
    (am : gmap entity_id am_entity) (e : am_entity) (r : Z) :
  am !! id = Some e → receiving r e → 0 ≤ r ≤ 2048 →
  Z.of_nat (length (handed_up id pdus am)) ≤ 2048 - r.
Proof.
  revert am e r. induction pdus as [|pdu pdus IH]; intros am e r He (Hr & Hmr & Hlen) Hrange;
    [cbn; lia|].
  cbn [handed_up]. unfold receive_am_pdu. rewrite He.
  unfold _is_in_receive_window. rewrite Hr, Hmr, Hlen.
  rewrite decide_True by lia.
  case_bool_decide as Hwin.
  - case_decide as Hsn.
    + rewrite Z.mod_small by lia.
      set (am' := <[id := _]> am).
      assert (Z.of_nat (length (handed_up id pdus am')) ≤ 2048 - (r + 1)) as Hrest.
      { eapply (IH am' _ (r + 1)); [apply lookup_insert_eq | done | lia]. }
      cbn [length]. lia.
    + eapply IH; [apply lookup_insert_eq | done | lia].
  - by eapply IH.
Qed.





End DuCoverage.

Section DuBoot.
Import Du.
Variable py_repr : json → string.

(** X17. The DU never gets its entities from the emulator's own NRF: the
    NRF answers the DU's registration, whose [nf_type] is ["gNB-DU"], with
    500 and stores nothing, [NFType] having no such member; the DU then
    starts without any RLC or PDCP entity, and every request to
    [/rlc/process-sdu] and [/pdcp/process-sdu] is answered 500. *)
Theorem du_starts_without_entities (uuid : string)
    (nf_profiles : list (string * Nrf.NFProfile)) (rqs : list request) :
  let registration := Nrf.legacy_register_nf uuid nf_registration nf_profiles in
  http_status registration.1 = 500
  ∧ registration.2 = nf_profiles
  ∧ lifespan (Some (http_status registration.1))
    = {| am_entities := ∅; pdcp_entities := ∅ |}
  ∧ Forall (λ status, status = 500)
           (statuses py_repr rqs (lifespan (Some (http_status registration.1)))).
Proof using Type.
  cbn zeta. split_and!; [done..|].
  change (lifespan _) with {| am_entities := ∅; pdcp_entities := ∅ |}.
  induction rqs as [|rq rqs IH]; [constructor|].
  cbn [statuses]. destruct rq as [d now|d now]; cbn [answer].
  - unfold process_rlc_sdu. cbn [am_entities]. rewrite lookup_empty. by constructor.
  - unfold process_pdcp_sdu. cbn [pdcp_entities]. rewrite lookup_empty. by constructor.
Qed.

End DuBoot.

(** Witness of X10 on the DRB entity: a marker-free SDU comes back. *)
Lemma pdcp_delivers_marker_free_sdus_witness :
  (∃ e, Scenario.pdcp_entities !! Scenario.drb = Some e)
  ∧ str_in "ciphered_" "hello" = false
  ∧ str_in "compressed_" "hello" = false
  ∧ Du.through_pdcp Scenario.drb "hello" 0 Scenario.pdcp_entities = Return (Some "hello").
Proof.
  split_and!; [eexists; vm_compute; reflexivity | reflexivity | reflexivity |].
  eapply (pdcp_delivers_marker_free_sdus Scenario.drb);
    [vm_compute; reflexivity | reflexivity | reflexivity].
Defined.

(** Witness of X11 on the DRB entity: the SDU ["compressed_video"] is
    delivered as ["video"]. *)
Lemma pdcp_loses_a_compressed_prefix_witness :
  Du.through_pdcp Scenario.drb ("compressed_" +:+ "video") 0 Scenario.pdcp_entities
  = Du.through_pdcp Scenario.drb "video" 0 Scenario.pdcp_entities
  ∧ Du.through_pdcp Scenario.drb "video" 0 Scenario.pdcp_entities = Return (Some "video").
Proof.
  split; [|vm_compute; reflexivity].
  eapply (pdcp_loses_a_compressed_prefix Scenario.drb); vm_compute; reflexivity.
Defined.

(** Witness of X12: six SDUs from a new entity leave with SN 0..5, the last
    two with the poll bit. *)
Lemma transmitted_pdus_are_numbered_witness :
  (λ pdu, (Du.sn (Du.header pdu), Du.p (Du.header pdu), Du.payload pdu))
    <$> Du.transmit_all Scenario.sender Scenario.six_sdus Scenario.rlc_entities
  = imap (λ k sdu, ((Du.vt_s Du.new_am_entity + Z.of_nat k) `mod` 4096,
                    bool_decide (4 ≤ Du.pdu_without_poll Du.new_am_entity + Z.of_nat k),
                    sdu)) Scenario.six_sdus.
Proof.
  apply (transmitted_pdus_are_numbered Scenario.sender Du.new_am_entity);
    [vm_compute; reflexivity | reflexivity | vm_compute; split; [discriminate|reflexivity]].
Defined.

(** Witness of X13 on the reversed arrival of two PDUs. *)
Lemma receiver_releases_at_most_the_window_witness :
  Z.of_nat (length (Du.handed_up Scenario.receiver (reverse Scenario.two_pdus)
                      Scenario.rlc_entities)) ≤ 2048 - 0.
Proof.
  apply (receiver_releases_at_most_the_window Scenario.receiver _ _ Du.new_am_entity);
    [vm_compute; reflexivity | repeat split | vm_compute; split; discriminate].
Defined.
